(** * Swap session state machines of the atomic-swap daemon

    Shallow embedding of the two per-session state machines
    ([alice/swap_state.go] and [bob/swap_state.go]): the message gate, the
    protocol-message handlers, key verification, the audit of the locked
    XMR, the refund recovery and the stream-closure recovery
    ([ProtocolComplete], [tryRefund], [tryClaim]).

    Go statements are written in a small monad threading the session
    struct and the outside world (clock, wallet RPC client, log of the
    calls made to collaborators).  A Go [return] is an early exit of the
    monad, a Go run-time panic (nil dereference, closing a closed channel)
    is a third outcome. *)

From Stdlib Require Import ZArith QArith List String Ascii Bool Lia.
From Stdlib Require Import DecimalString.
Import ListNotations.
Local Open Scope string_scope.
Local Open Scope list_scope.
Local Open Scope Z_scope.

Set Implicit Arguments.

(** ** Go values *)

(** A Go [error]: [errors.New], [fmt.Errorf] without a wrapped error, and
    [fmt.Errorf] wrapping an error with [%w]; the format string is kept,
    the rendering of its other arguments is not. *)
Inductive error : Type :=
| errors_New (msg : string)
| fmt_Errorf (format : string)
| fmt_Errorf_w (format : string) (wrapped : error).

(** A Go [(value, error)] pair of results. *)
Inductive result (A : Type) : Type :=
| Ok (a : A)
| Err (e : error).
Arguments Ok {A} a.
Arguments Err {A} e.

Definition byte32 := list Byte.byte.

(** [uint64] arithmetic wraps around. *)
Definition uint64_wrap (n : Z) : Z := n mod 2 ^ 64.

(** [Int64] of a [big.Int]: the low 64 bits, read as a signed integer. *)
Definition Int64 (x : Z) : Z := (x + 2 ^ 63) mod 2 ^ 64 - 2 ^ 63.

(** *** float64

    The wallet reports its balance as a [float64]; the audit compares it
    with [float64(s.desiredAmount)]. *)
Inductive float64 : Type :=
| F64 (q : Q)
| F64_NaN
| F64_PosInf
| F64_NegInf.

(** Go's [<] on [float64]: every comparison with NaN is false. *)
Definition float64_ltb (x y : float64) : bool :=
  match x, y with
  | F64_NaN, _ | _, F64_NaN => false
  | F64_NegInf, F64_NegInf => false
  | F64_NegInf, _ => true
  | _, F64_NegInf => false
  | F64_PosInf, _ => false
  | _, F64_PosInf => true
  | F64 a, F64 b => negb (Qle_bool b a)
  end.

(** [float64(n)] for [n : uint64]: the nearest value with a 53-bit
    significand, ties to even.  The result is an integer. *)
Definition round53 (n : Z) : Z :=
  if n <? 2 ^ 53 then n
  else
    let k := Z.log2 n - 52 in
    let q := Z.shiftr n k in
    let r := Z.land n (Z.ones k) in
    let half := Z.shiftl 1 (k - 1) in
    let q' := if (half <? r) || ((r =? half) && Z.odd q) then q + 1 else q in
    Z.shiftl q' k.

Definition float64_of_uint64 (n : Z) : float64 := F64 (inject_Z (round53 n)).

(** *** time

    Instants and durations are counted in nanoseconds. *)
Definition Time := Z.
Definition Duration := Z.

Definition minDuration : Duration := - 2 ^ 63.
Definition maxDuration : Duration := 2 ^ 63 - 1.

(** [t.Sub(u)]: the difference, saturated to the range of [Duration]. *)
Definition Time_Sub (t u : Time) : Duration :=
  Z.max minDuration (Z.min maxDuration (t - u)).

(** [time.Unix(sec, 0)]. *)
Definition time_Unix (sec : Z) : Time := sec * 1000000000.

Definition Minute : Duration := 60 * 1000000000.

(** *** encoding/hex

    [hex.DecodeString]: pairs of hex digits are decoded in order; a
    character that is no hex digit is an [InvalidByteError], a string of
    odd length an [ErrLength]. *)
Definition fromHexChar (c : ascii) : option N :=
  let n := N_of_ascii c in
  if ((48 <=? n) && (n <=? 57))%N then Some (n - 48)%N
  else if ((97 <=? n) && (n <=? 102))%N then Some (n - 87)%N
  else if ((65 <=? n) && (n <=? 70))%N then Some (n - 55)%N
  else None.

Definition byte_of_nibbles (hi lo : N) : Byte.byte :=
  match Byte.of_N (hi * 16 + lo) with
  | Some b => b
  | None => Byte.x00
  end.

Fixpoint hex_DecodeString (s : string) : result (list Byte.byte) :=
  match s with
  | EmptyString => Ok []
  | String a EmptyString =>
      match fromHexChar a with
      | Some _ => Err (errors_New "encoding/hex: odd length hex string")
      | None => Err (fmt_Errorf "encoding/hex: invalid byte: %#U")
      end
  | String a (String b rest) =>
      match fromHexChar a, fromHexChar b with
      | Some hi, Some lo =>
          match hex_DecodeString rest with
          | Ok l => Ok (byte_of_nibbles hi lo :: l)
          | Err e => Err e
          end
      | _, _ => Err (fmt_Errorf "encoding/hex: invalid byte: %#U")
      end
  end.

(** [fmt.Sprintf("%d", n)] for an unsigned [n]. *)
Definition fmt_d (n : Z) : string := NilEmpty.string_of_uint (N.to_uint (Z.to_N n)).

(** ** Wire messages (package [net]) *)

Record SendKeysMessage : Type := {
  msgPublicSpendKey : string;
  msgPrivateViewKey : string;
  msgSpendKeyHash : string;
  msgEthAddress : string
}.

Inductive Message : Type :=
| SendKeys (m : SendKeysMessage)
| NotifyContractDeployed (Address : string)
| NotifyXMRLock (Address : string)
| NotifyReady
| NotifyClaimed (TxHash : string)
| NotifyRefund (TxHash : string).

(** Modelled from the spec: the [MessageKind] enumeration, the tag that
    [net.Message.Type()] returns; package [net] is not part of the sources
    at hand. *)
Inductive MessageType : Type :=
| SendKeysType
| NotifyContractDeployedType
| NotifyXMRLockType
| NotifyReadyType
| NotifyClaimedType
| NotifyRefundType.

Definition Type_ (m : Message) : MessageType :=
  match m with
  | SendKeys _ => SendKeysType
  | NotifyContractDeployed _ => NotifyContractDeployedType
  | NotifyXMRLock _ => NotifyXMRLockType
  | NotifyReady => NotifyReadyType
  | NotifyClaimed _ => NotifyClaimedType
  | NotifyRefund _ => NotifyRefundType
  end.

Definition MessageType_eqb (a b : MessageType) : bool :=
  match a, b with
  | SendKeysType, SendKeysType
  | NotifyContractDeployedType, NotifyContractDeployedType
  | NotifyXMRLockType, NotifyXMRLockType
  | NotifyReadyType, NotifyReadyType
  | NotifyClaimedType, NotifyClaimedType
  | NotifyRefundType, NotifyRefundType => true
  | _, _ => false
  end.

(** ** Package [monero]: keys and addresses

    The key types and the operations on them live in package [monero],
    which is not among the sources at hand, as do go-ethereum's
    [common.HexToAddress] and the rendering of a [time.Time]; the session
    code is parametric in them. *)
Class MoneroLib : Type := {
  PrivateSpendKey : Type;
  PrivateViewKey : Type;
  PublicKey : Type;
  Environment : Type;
  NewPrivateViewKeyFromHash : string -> result PrivateViewKey;
  NewPrivateViewKeyFromHex : string -> result PrivateViewKey;
  NewPublicKeyFromHex : string -> result PublicKey;
  NewPrivateSpendKey : byte32 -> result PrivateSpendKey;
  PrivateViewKey_Hex : PrivateViewKey -> string;
  PrivateViewKey_Public : PrivateViewKey -> PublicKey;
  PrivateSpendKey_Public : PrivateSpendKey -> PublicKey;
  PrivateSpendKey_View : PrivateSpendKey -> result PrivateViewKey;
  PrivateSpendKey_Hash : PrivateSpendKey -> byte32;
  PublicKey_Hex : PublicKey -> string;
  SumPrivateSpendKeys : PrivateSpendKey -> PrivateSpendKey -> PrivateSpendKey;
  SumPrivateViewKeys : PrivateViewKey -> PrivateViewKey -> PrivateViewKey;
  SumPublicKeys : PublicKey -> PublicKey -> PublicKey;
  address_of_keys : PublicKey -> PublicKey -> Environment -> string;
  hex_EncodeToString : byte32 -> string;
  HexToAddress : string -> string;
  time_Format : Time -> string
}.

Section Keys.
Context {L : MoneroLib}.

Record PrivateKeyPair : Type := NewPrivateKeyPair {
  priv_sk : PrivateSpendKey;
  priv_vk : PrivateViewKey
}.

Record PublicKeyPair : Type := NewPublicKeyPair {
  pub_sk : PublicKey;
  pub_vk : PublicKey
}.

Definition PublicKeyPair_Address (kp : PublicKeyPair) (env : Environment) : string :=
  address_of_keys (pub_sk kp) (pub_vk kp) env.

Definition PrivateKeyPair_PublicKeyPair (kp : PrivateKeyPair) : PublicKeyPair :=
  NewPublicKeyPair (PrivateSpendKey_Public (priv_sk kp))
                   (PrivateViewKey_Public (priv_vk kp)).

Definition PrivateKeyPair_Address (kp : PrivateKeyPair) (env : Environment) : string :=
  PublicKeyPair_Address (PrivateKeyPair_PublicKeyPair kp) env.

(** [monero.NewPublicKeyPairFromHex(skHex, vkHex)]. *)
Definition NewPublicKeyPairFromHex (skHex vkHex : string) : result PublicKeyPair :=
  match NewPublicKeyFromHex skHex with
  | Err e => Err e
  | Ok sk =>
      match NewPublicKeyFromHex vkHex with
      | Err e => Err e
      | Ok vk => Ok (NewPublicKeyPair sk vk)
      end
  end.

End Keys.

(** ** The world outside a session *)

(** The wallet that the shared wallet-RPC client has open. *)
Inductive Wallet : Type :=
| ViewOnlyWallet (name : string)
| SpendWallet (name : string)
| OwnWallet.

(** The constants of the host ([alice] or [bob] struct): the network
    environment, the data directory, and the outcome of parsing the
    generated constant [swap.SwapABI]. *)
Record Host {L : MoneroLib} : Type := {
  env : Environment;
  basepath : string;
  ethAddress : string;
  SwapABI_JSON : option error
}.

Section World.
Context {L : MoneroLib}.

(** A call made to a collaborator, with what it answered. *)
Inductive Call : Type :=
| GenerateViewOnlyWalletFromKeys
    (vk : PrivateViewKey) (address name password : string) (err : option error)
| GenerateFromKeys
    (kp : PrivateKeyPair) (name password : string) (e : Environment) (err : option error)
| Refresh (err : option error)
| GetBalance (account : Z) (res : result float64)
| CloseWallet (err : option error)
| OpenWallet (err : option error)
| GenerateKeys (res : result PrivateKeyPair)
| DeployAndLockETH (amount : Z) (res : result string)
| SetContract (address : string) (err : option error)
| LockFunds (amount : Z) (res : result string)
| Timeout0 (res : result Z)
| Timeout1 (res : result Z)
| SetReady (err : option error)
| Refund (at_ : Time) (res : result string)
| Claim (at_ : Time) (res : result string)
| TransactionReceipt (txHash : string) (res : result (list (list Byte.byte)))
| HandleNotifyClaimed (txHash : string) (res : result string)
| WriteKeysToFile (fp : string) (kp : PrivateKeyPair) (e : Environment) (err : option error)
| GoRoutine (name : string)
| Cancel
| ClearSwapState.

Record World : Type := {
  clock : Time;
  wallet : option Wallet;
  nextID : Z;
  calls : list Call
}.

Definition record_call (c : Call) (w : World) : World :=
  {| clock := clock w; wallet := wallet w; nextID := nextID w;
     calls := calls w ++ [c] |}.

Definition set_wallet (k : option Wallet) (w : World) : World :=
  {| clock := clock w; wallet := k; nextID := nextID w; calls := calls w |}.

Definition set_clock (t : Time) (w : World) : World :=
  {| clock := t; wallet := wallet w; nextID := nextID w; calls := calls w |}.

Definition set_nextID (n : Z) (w : World) : World :=
  {| clock := clock w; wallet := wallet w; nextID := n; calls := calls w |}.

(** What the collaborators answer.  An answer may depend on the arguments
    and on the world at the time of the call, whose [calls] grow with
    every call: any sequence of answers is some oracle. *)
Record Oracle : Type := {
  on_GenerateViewOnlyWalletFromKeys :
    World -> PrivateViewKey -> string -> string -> option error;
  on_GenerateFromKeys : World -> PrivateKeyPair -> string -> option error;
  on_Refresh : World -> option error;
  on_GetBalance : World -> Z -> result float64;
  on_CloseWallet : World -> option error;
  on_openWallet : World -> option error;
  on_generateKeys : World -> result PrivateKeyPair;
  on_deployAndLockETH : World -> Z -> result string;
  on_setContract : World -> string -> option error;
  on_lockFunds : World -> Z -> result string;
  on_Timeout0 : World -> result Z;
  on_Timeout1 : World -> result Z;
  on_ready : World -> option error;
  on_refund : World -> result string;
  on_claimFunds : World -> result string;
  on_TransactionReceipt : World -> string -> result (list (list Byte.byte));
  on_handleNotifyClaimed : World -> string -> result string;
  on_WriteKeysToFile : World -> string -> PrivateKeyPair -> option error
}.

(** ** The monad of Go statements *)

Inductive outcome (R A : Type) : Type :=
| Val (a : A)
| Return (r : R)
| Panic (msg : string).
Arguments Val {R A} a.
Arguments Return {R A} r.
Arguments Panic {R A} msg.

(** A statement of a function returning [R], in a session of type [St]. *)
Definition Go (St R A : Type) : Type := St -> World -> outcome R A * St * World.

Definition ret {St R A} (a : A) : Go St R A := fun s w => (Val a, s, w).

Definition bind {St R A B} (m : Go St R A) (k : A -> Go St R B) : Go St R B :=
  fun s w =>
    match m s w with
    | (Val a, s', w') => k a s' w'
    | (Return r, s', w') => (Return r, s', w')
    | (Panic msg, s', w') => (Panic msg, s', w')
    end.

Definition return_ {St R A} (r : R) : Go St R A := fun s w => (Return r, s, w).

Definition panic {St R A} (msg : string) : Go St R A := fun s w => (Panic msg, s, w).

(** Calling a function: its [return] ends the call, not the caller. *)
Definition callf {St R R'} (body : Go St R R) : Go St R' R :=
  fun s w =>
    match body s w with
    | (Val r, s', w') | (Return r, s', w') => (Val r, s', w')
    | (Panic msg, s', w') => (Panic msg, s', w')
    end.

(** [defer]: the deferred statements run when the body ends, by falling
    through, by [return] or by a panic. *)
Definition defer_ {St R} (deferred : St -> World -> St * World) (body : Go St R R)
  : Go St R R :=
  fun s w =>
    match body s w with
    | (o, s', w') => let '(s'', w'') := deferred s' w' in (o, s'', w'')
    end.

Definition get {St R} : Go St R St := fun s w => (Val s, s, w).

Definition modify {St R} (f : St -> St) : Go St R unit := fun s w => (Val tt, f s, w).

Definition world {St R} : Go St R World := fun s w => (Val w, s, w).

(** A call to a collaborator: the oracle answers, the call is logged, and
    the world changes as the answer says. *)
Definition extcall {St R X} (answer : World -> X) (log : X -> Call)
    (effect : X -> World -> World) : Go St R X :=
  fun s w => let x := answer w in (Val x, s, effect x (record_call (log x) w)).

Definition no_effect {X} (_ : X) (w : World) : World := w.

(** Dereferencing a pointer field. *)
Definition deref {St R A} (p : option A) : Go St R A :=
  match p with
  | Some a => ret a
  | None => panic "invalid memory address or nil pointer dereference"
  end.

(** [close(ch)]; a channel is modelled by whether it has been closed. *)
Definition close_ {St R} (ch : St -> bool) (set : bool -> St -> St) : Go St R unit :=
  fun s w =>
    if ch s then (Panic "close of closed channel", s, w)
    else (Val tt, set true s, w).

(** [time.Now()], [time.Until(t)] and [<-time.After(d)], which blocks for
    [d] and not at all when [d] is not positive.  The clock is moved to
    the earliest instant at which the timer can fire; Go promises no
    more than "at least [d]", so of the times that follow only the lower
    bounds carry over to the program. *)
Definition time_Now {St R} : Go St R Time := fun s w => (Val (clock w), s, w).

Definition time_Until {St R} (t : Time) : Go St R Duration :=
  fun s w => (Val (Time_Sub t (clock w)), s, w).

Definition time_After {St R} (d : Duration) : Go St R unit :=
  fun s w => (Val tt, s, set_clock (clock w + Z.max 0 d) w).

(** [go func() { ... }()]: the goroutine is started; what it does later
    is not part of the handler's run.  The bodies of the goroutines are
    steps of their own (see "Watchdog goroutines" below); what a session
    does is what its handlers and its goroutines do. *)
Definition go_ {St R} (name : string) : Go St R unit :=
  fun s w => (Val tt, s, record_call (GoRoutine name) w).

End World.

Arguments Val {R A} a.
Arguments Return {R A} r.
Arguments Panic {R A} msg.

Declare Scope go_scope.
Delimit Scope go_scope with go.
Notation "x <- m ;; k" := (bind m (fun x => k))
  (at level 61, m at next level, right associativity) : go_scope.
Notation "m ;; k" := (bind m (fun _ => k))
  (at level 61, right associativity) : go_scope.
Local Open Scope go_scope.

Section Collaborators.
Context {L : MoneroLib} (host : Host) (O : Oracle).
Context {St R : Type}.

(** *** Wallet RPC client *)

Definition client_GenerateViewOnlyWalletFromKeys
    (vk : PrivateViewKey) (address name password : string) : Go St R (option error) :=
  extcall (fun w => on_GenerateViewOnlyWalletFromKeys O w vk address name)
          (GenerateViewOnlyWalletFromKeys vk address name password)
          (fun err w => match err with
                        | None => set_wallet (Some (ViewOnlyWallet name)) w
                        | Some _ => w
                        end).

Definition client_GenerateFromKeys
    (kp : PrivateKeyPair) (name password : string) (e : Environment)
  : Go St R (option error) :=
  extcall (fun w => on_GenerateFromKeys O w kp name)
          (GenerateFromKeys kp name password e)
          (fun err w => match err with
                        | None => set_wallet (Some (SpendWallet name)) w
                        | Some _ => w
                        end).

Definition client_Refresh : Go St R (option error) :=
  extcall (on_Refresh O) Refresh no_effect.

Definition client_GetBalance (account : Z) : Go St R (result float64) :=
  extcall (fun w => on_GetBalance O w account) (GetBalance account) no_effect.

Definition client_CloseWallet : Go St R (option error) :=
  extcall (on_CloseWallet O) CloseWallet
          (fun err w => match err with
                        | None => set_wallet None w
                        | Some _ => w
                        end).

(** *** Escrow contract and chain client *)

Definition contract_Timeout0 : Go St R (result Z) :=
  extcall (on_Timeout0 O) Timeout0 no_effect.

Definition contract_Timeout1 : Go St R (result Z) :=
  extcall (on_Timeout1 O) Timeout1 no_effect.

Definition ethClient_TransactionReceipt (txHash : string)
  : Go St R (result (list (list Byte.byte))) :=
  extcall (fun w => on_TransactionReceipt O w txHash) (TransactionReceipt txHash)
          no_effect.

(** Modelled from the spec: event [Refunded(bytes32 s_a)], whose secret is
    the single 32-byte word of the log data; [abi.Unpack("Refunded", data)]
    followed by the type assertion [res[0].([32]byte)].  The generated
    constant [swap.SwapABI] is not among the sources at hand. *)
Definition abi_Unpack_Refunded (data : list Byte.byte) : result byte32 :=
  if (List.length data <? 32)%nat
  then Err (errors_New "abi: cannot marshal in to go type: length insufficient")
  else Ok (firstn 32 data).

(** Early exits: [if err != nil { return ... }] after a call returning an
    error, or a value and an error, and [if cond { return ... }]. *)
Definition return_if_err (err : option error) (r : error -> R) : Go St R unit :=
  match err with
  | Some e => return_ (r e)
  | None => ret tt
  end.

Definition try_ {A} (res : result A) (r : error -> R) : Go St R A :=
  match res with
  | Err e => return_ (r e)
  | Ok a => ret a
  end.

Definition when_ (cond : bool) (m : Go St R unit) : Go St R unit :=
  if cond then m else ret tt.

(** *** Filesystem *)

Definition monero_WriteKeysToFile (fp : string) (kp : PrivateKeyPair) (e : Environment)
  : Go St R (option error) :=
  extcall (fun w => on_WriteKeysToFile O w fp kp) (WriteKeysToFile fp kp e) no_effect.

End Collaborators.

Definition err_of {A} (res : result A) : option error :=
  match res with
  | Ok _ => None
  | Err e => Some e
  end.

(** What [HandleProtocolMessage] returns: [(net.Message, bool, error)]. *)
Definition Reply : Type := option Message * bool * option error.

(** ** Package [alice] *)
Module Alice.
Section Session.
Context {L : MoneroLib} (host : Host) (O : Oracle).

Definition errMissingKeys : error :=
  errors_New "did not receive Bob's public spend or private view key".
Definition errMissingSpendKeyHash : error :=
  errors_New "did not receive Bob's spend key hash".
Definition errMissingAddress : error :=
  errors_New "did not receive Bob's address".

(** [swapState]; a channel field records whether the channel is closed,
    [ctx_done] whether [cancel] has been called. *)
Record swapState : Type := {
  ctx_done : bool;
  id : Z;
  providesAmount : Z;
  desiredAmount : Z;
  privkeys : option PrivateKeyPair;
  pubkeys : option PublicKeyPair;
  bobPublicSpendKey : option PublicKey;
  bobPrivateViewKey : option PrivateViewKey;
  bobClaimHash : byte32;
  bobAddress : string;
  contract : option string;
  t0 : Time;
  t1 : Time;
  nextExpectedMessage : Message;
  xmrLockedCh : bool;
  claimedCh : bool;
  success : bool
}.

Definition set_ctx_done (v : bool) (s : swapState) : swapState :=
  {| ctx_done := v; id := id s; providesAmount := providesAmount s;
     desiredAmount := desiredAmount s; privkeys := privkeys s; pubkeys := pubkeys s;
     bobPublicSpendKey := bobPublicSpendKey s; bobPrivateViewKey := bobPrivateViewKey s;
     bobClaimHash := bobClaimHash s; bobAddress := bobAddress s; contract := contract s;
     t0 := t0 s; t1 := t1 s; nextExpectedMessage := nextExpectedMessage s;
     xmrLockedCh := xmrLockedCh s; claimedCh := claimedCh s; success := success s |}.

Definition set_keys (priv : PrivateKeyPair) (s : swapState) : swapState :=
  {| ctx_done := ctx_done s; id := id s; providesAmount := providesAmount s;
     desiredAmount := desiredAmount s; privkeys := Some priv;
     pubkeys := Some (PrivateKeyPair_PublicKeyPair priv);
     bobPublicSpendKey := bobPublicSpendKey s; bobPrivateViewKey := bobPrivateViewKey s;
     bobClaimHash := bobClaimHash s; bobAddress := bobAddress s; contract := contract s;
     t0 := t0 s; t1 := t1 s; nextExpectedMessage := nextExpectedMessage s;
     xmrLockedCh := xmrLockedCh s; claimedCh := claimedCh s; success := success s |}.

Definition set_bobKeys (sk : PublicKey) (vk : PrivateViewKey) (s : swapState) : swapState :=
  {| ctx_done := ctx_done s; id := id s; providesAmount := providesAmount s;
     desiredAmount := desiredAmount s; privkeys := privkeys s; pubkeys := pubkeys s;
     bobPublicSpendKey := Some sk; bobPrivateViewKey := Some vk;
     bobClaimHash := bobClaimHash s; bobAddress := bobAddress s; contract := contract s;
     t0 := t0 s; t1 := t1 s; nextExpectedMessage := nextExpectedMessage s;
     xmrLockedCh := xmrLockedCh s; claimedCh := claimedCh s; success := success s |}.

Definition set_bobClaimHash (v : byte32) (s : swapState) : swapState :=
  {| ctx_done := ctx_done s; id := id s; providesAmount := providesAmount s;
     desiredAmount := desiredAmount s; privkeys := privkeys s; pubkeys := pubkeys s;
     bobPublicSpendKey := bobPublicSpendKey s; bobPrivateViewKey := bobPrivateViewKey s;
     bobClaimHash := v; bobAddress := bobAddress s; contract := contract s;
     t0 := t0 s; t1 := t1 s; nextExpectedMessage := nextExpectedMessage s;
     xmrLockedCh := xmrLockedCh s; claimedCh := claimedCh s; success := success s |}.

Definition set_bobAddress (v : string) (s : swapState) : swapState :=
  {| ctx_done := ctx_done s; id := id s; providesAmount := providesAmount s;
     desiredAmount := desiredAmount s; privkeys := privkeys s; pubkeys := pubkeys s;
     bobPublicSpendKey := bobPublicSpendKey s; bobPrivateViewKey := bobPrivateViewKey s;
     bobClaimHash := bobClaimHash s; bobAddress := v; contract := contract s;
     t0 := t0 s; t1 := t1 s; nextExpectedMessage := nextExpectedMessage s;
     xmrLockedCh := xmrLockedCh s; claimedCh := claimedCh s; success := success s |}.

Definition set_contract (v : option string) (s : swapState) : swapState :=
  {| ctx_done := ctx_done s; id := id s; providesAmount := providesAmount s;
     desiredAmount := desiredAmount s; privkeys := privkeys s; pubkeys := pubkeys s;
     bobPublicSpendKey := bobPublicSpendKey s; bobPrivateViewKey := bobPrivateViewKey s;
     bobClaimHash := bobClaimHash s; bobAddress := bobAddress s; contract := v;
     t0 := t0 s; t1 := t1 s; nextExpectedMessage := nextExpectedMessage s;
     xmrLockedCh := xmrLockedCh s; claimedCh := claimedCh s; success := success s |}.

Definition set_t0 (v : Time) (s : swapState) : swapState :=
  {| ctx_done := ctx_done s; id := id s; providesAmount := providesAmount s;
     desiredAmount := desiredAmount s; privkeys := privkeys s; pubkeys := pubkeys s;
     bobPublicSpendKey := bobPublicSpendKey s; bobPrivateViewKey := bobPrivateViewKey s;
     bobClaimHash := bobClaimHash s; bobAddress := bobAddress s; contract := contract s;
     t0 := v; t1 := t1 s; nextExpectedMessage := nextExpectedMessage s;
     xmrLockedCh := xmrLockedCh s; claimedCh := claimedCh s; success := success s |}.

Definition set_t1 (v : Time) (s : swapState) : swapState :=
  {| ctx_done := ctx_done s; id := id s; providesAmount := providesAmount s;
     desiredAmount := desiredAmount s; privkeys := privkeys s; pubkeys := pubkeys s;
     bobPublicSpendKey := bobPublicSpendKey s; bobPrivateViewKey := bobPrivateViewKey s;
     bobClaimHash := bobClaimHash s; bobAddress := bobAddress s; contract := contract s;
     t0 := t0 s; t1 := v; nextExpectedMessage := nextExpectedMessage s;
     xmrLockedCh := xmrLockedCh s; claimedCh := claimedCh s; success := success s |}.

Definition set_nextExpectedMessage (v : Message) (s : swapState) : swapState :=
  {| ctx_done := ctx_done s; id := id s; providesAmount := providesAmount s;
     desiredAmount := desiredAmount s; privkeys := privkeys s; pubkeys := pubkeys s;
     bobPublicSpendKey := bobPublicSpendKey s; bobPrivateViewKey := bobPrivateViewKey s;
     bobClaimHash := bobClaimHash s; bobAddress := bobAddress s; contract := contract s;
     t0 := t0 s; t1 := t1 s; nextExpectedMessage := v;
     xmrLockedCh := xmrLockedCh s; claimedCh := claimedCh s; success := success s |}.

Definition set_xmrLockedCh (v : bool) (s : swapState) : swapState :=
  {| ctx_done := ctx_done s; id := id s; providesAmount := providesAmount s;
     desiredAmount := desiredAmount s; privkeys := privkeys s; pubkeys := pubkeys s;
     bobPublicSpendKey := bobPublicSpendKey s; bobPrivateViewKey := bobPrivateViewKey s;
     bobClaimHash := bobClaimHash s; bobAddress := bobAddress s; contract := contract s;
     t0 := t0 s; t1 := t1 s; nextExpectedMessage := nextExpectedMessage s;
     xmrLockedCh := v; claimedCh := claimedCh s; success := success s |}.

Definition set_claimedCh (v : bool) (s : swapState) : swapState :=
  {| ctx_done := ctx_done s; id := id s; providesAmount := providesAmount s;
     desiredAmount := desiredAmount s; privkeys := privkeys s; pubkeys := pubkeys s;
     bobPublicSpendKey := bobPublicSpendKey s; bobPrivateViewKey := bobPrivateViewKey s;
     bobClaimHash := bobClaimHash s; bobAddress := bobAddress s; contract := contract s;
     t0 := t0 s; t1 := t1 s; nextExpectedMessage := nextExpectedMessage s;
     xmrLockedCh := xmrLockedCh s; claimedCh := v; success := success s |}.

Definition set_success (v : bool) (s : swapState) : swapState :=
  {| ctx_done := ctx_done s; id := id s; providesAmount := providesAmount s;
     desiredAmount := desiredAmount s; privkeys := privkeys s; pubkeys := pubkeys s;
     bobPublicSpendKey := bobPublicSpendKey s; bobPrivateViewKey := bobPrivateViewKey s;
     bobClaimHash := bobClaimHash s; bobAddress := bobAddress s; contract := contract s;
     t0 := t0 s; t1 := t1 s; nextExpectedMessage := nextExpectedMessage s;
     xmrLockedCh := xmrLockedCh s; claimedCh := claimedCh s; success := v |}.

Definition emptySendKeys : SendKeysMessage :=
  {| msgPublicSpendKey := ""; msgPrivateViewKey := ""; msgSpendKeyHash := "";
     msgEthAddress := "" |}.

Definition newSwapState (providesAmount desiredAmount : Z) (w : World)
  : swapState * World :=
  ({| ctx_done := false; id := nextID w; providesAmount := providesAmount;
      desiredAmount := desiredAmount; privkeys := None; pubkeys := None;
      bobPublicSpendKey := None; bobPrivateViewKey := None;
      bobClaimHash := repeat Byte.x00 32; bobAddress := "";
      contract := None; t0 := 0; t1 := 0;
      nextExpectedMessage := SendKeys emptySendKeys;
      xmrLockedCh := false; claimedCh := false; success := false |},
   set_nextID (uint64_wrap (nextID w + 1)) w).

(** *** Methods of [swapState] defined in other files of the package *)

(** Modelled from the spec: [generate() -> KeyMaterial], fresh session keys;
    [generateKeys] stores them in the session. *)
Definition generateKeys {R} : Go swapState R (result PublicKeyPair) :=
  res <- extcall (on_generateKeys O) GenerateKeys no_effect;;
  match res with
  | Err e => ret (Err e)
  | Ok priv => modify (set_keys priv);; ret (Ok (PrivateKeyPair_PublicKeyPair priv))
  end.

(** Modelled from the spec: [setBobKeys] stores the peer's public spend key
    and private view key in the session's key material. *)
Definition setBobKeys {R} (sk : PublicKey) (vk : PrivateViewKey) : Go swapState R unit :=
  modify (set_bobKeys sk vk).

(** Modelled from the spec: [deploy(amountE, S_alice, h_bob) -> address],
    which transfers the amount into a fresh escrow; the session's contract
    handle is set once the escrow is deployed. *)
Definition deployAndLockETH {R} (amount : Z) : Go swapState R (result string) :=
  res <- extcall (fun w => on_deployAndLockETH O w amount) (DeployAndLockETH amount)
                 no_effect;;
  match res with
  | Err e => ret (Err e)
  | Ok address => modify (set_contract (Some address));; ret (Ok address)
  end.

(** Modelled from the spec: [setReady()], called only by Alice, on the
    escrow. *)
Definition ready {R} : Go swapState R (option error) :=
  extcall (on_ready O) SetReady no_effect.

(** Modelled from the spec: [refund(s_alice) -> txHash], submitted to the
    escrow at the time of the call. *)
Definition refund {R} : Go swapState R (result string) :=
  fun s w => let res := on_refund O w in (Val res, s, record_call (Refund (clock w) res) w).

(** Modelled from the spec: on [NotifyClaimed(txHash)] Alice reads [s_bob]
    from the event, recovers the joint spend key, creates the spendable
    wallet and latches success. *)
Definition handleNotifyClaimed {R} (txHash : string) : Go swapState R (result string) :=
  res <- extcall (fun w => on_handleNotifyClaimed O w txHash) (HandleNotifyClaimed txHash)
                 no_effect;;
  match res with
  | Err e => ret (Err e)
  | Ok address => modify (set_success true);; ret (Ok address)
  end.

(** *** swap_state.go *)

Definition newSendKeysMessage : Go swapState (result SendKeysMessage) (result SendKeysMessage) :=
  res <- generateKeys;;
  kp <- try_ res (fun err => Err err);;
  s <- get;;
  priv <- deref (privkeys s);;
  let sh := PrivateSpendKey_Hash (priv_sk priv) in
  return_ (Ok {| msgPublicSpendKey := PublicKey_Hex (pub_sk kp);
                 msgPrivateViewKey := PrivateViewKey_Hex (priv_vk priv);
                 msgSpendKeyHash := hex_EncodeToString sh;
                 msgEthAddress := "" |}).

Definition tryRefund : Go swapState (option error) (option error) :=
  s <- get;;
  untilT0 <- time_Until (t0 s);;
  untilT1 <- time_Until (t1 s);;
  when_ ((0 <? untilT0) && (untilT1 <? 0)) (time_After untilT1);;
  res <- refund;;
  return_ (err_of res).

Definition ProtocolComplete : Go swapState unit unit :=
  defer_ (fun s w => (set_ctx_done true s, record_call ClearSwapState (record_call Cancel w)))
    (s <- get;;
     when_ (success s) (return_ tt);;
     match nextExpectedMessage s with
     | SendKeys _ => ret tt
     | NotifyXMRLock _ =>
         err <- callf tryRefund;;
         return_if_err err (fun _ => tt)
     | NotifyClaimed _ =>
         err <- callf tryRefund;;
         return_if_err err (fun _ => tt)
     | _ => ret tt
     end).

Definition checkMessageType (msg : Message) : Go swapState (option error) (option error) :=
  s <- get;;
  when_ (negb (MessageType_eqb (Type_ msg) (Type_ (nextExpectedMessage s))))
        (return_ (Some (errors_New "received unexpected message")));;
  return_ None.

Definition verifyBobKeys (msg : SendKeysMessage) : Go swapState (option error) (option error) :=
  hb <- try_ (hex_DecodeString (msgSpendKeyHash msg)) (fun err => Some err);;
  when_ (negb (List.length hb =? 32)%nat)
        (return_ (Some (errors_New "invalid spend key hash")));;
  modify (set_bobClaimHash hb);;
  dvk <- try_ (NewPrivateViewKeyFromHash (msgSpendKeyHash msg))
              (fun err => Some (fmt_Errorf_w
                 "failed to derive view key from spend key hash: %w" err));;
  vk <- try_ (NewPrivateViewKeyFromHex (msgPrivateViewKey msg))
             (fun err => Some (fmt_Errorf_w
                "failed to generate Bob's private view keys: %w" err));;
  when_ (negb (PrivateViewKey_Hex vk =? PrivateViewKey_Hex dvk)%string)
        (return_ (Some (fmt_Errorf
           "derived view key does not match message's view key: derived=%s received=%s")));;
  kp <- try_ (NewPublicKeyPairFromHex (msgPublicSpendKey msg)
                (PublicKey_Hex (PrivateViewKey_Public vk)))
             (fun err => Some (fmt_Errorf_w
                "failed to generate Alice's public keys: %w" err));;
  t <- time_Now;;
  let walletName := ("bob-viewonly-wallet-" ++ time_Format t)%string in
  err <- client_GenerateViewOnlyWalletFromKeys O vk (PublicKeyPair_Address kp (env host))
           walletName "";;
  return_if_err err (fun err => Some (fmt_Errorf_w
     "failed to generate view-only wallet to verify Bob's keys: %w" err));;
  err <- client_CloseWallet O;;
  return_if_err err (fun err => Some (fmt_Errorf_w "failed to close wallet: %w" err));;
  return_ None.

Definition handleSendKeysMessage (msg : SendKeysMessage)
  : Go swapState (result Message) (result Message) :=
  when_ ((msgPublicSpendKey msg =? "") || (msgPrivateViewKey msg =? ""))%string
        (return_ (Err errMissingKeys));;
  when_ (msgSpendKeyHash msg =? "")%string (return_ (Err errMissingSpendKeyHash));;
  when_ (msgEthAddress msg =? "")%string (return_ (Err errMissingAddress));;
  err <- callf (verifyBobKeys msg);;
  return_if_err err (fun err => Err err);;
  vk <- try_ (NewPrivateViewKeyFromHex (msgPrivateViewKey msg))
             (fun err => Err (fmt_Errorf_w
                "failed to generate Bob's private view keys: %w" err));;
  modify (set_bobAddress (HexToAddress (msgEthAddress msg)));;
  modify (set_nextExpectedMessage (NotifyXMRLock ""));;
  sk <- try_ (NewPublicKeyFromHex (msgPublicSpendKey msg))
             (fun err => Err (fmt_Errorf_w
                "failed to generate Bob's public spend key: %w" err));;
  setBobKeys sk vk;;
  s <- get;;
  res <- deployAndLockETH (providesAmount s);;
  address <- try_ res (fun err => Err (fmt_Errorf_w "failed to deploy contract: %w" err));;
  s <- get;;
  _ <- deref (contract s);;
  res <- contract_Timeout0 O;;
  st0 <- try_ res (fun err => Err (fmt_Errorf_w
                     "failed to get timeout0 from contract: err=%w" err));;
  modify (set_t0 (time_Unix (Int64 st0)));;
  res <- contract_Timeout1 O;;
  st1 <- try_ res (fun err => Err (fmt_Errorf_w
                     "failed to get timeout1 from contract: err=%w" err));;
  modify (set_t1 (time_Unix (Int64 st1)));;
  go_ "refund five minutes before t0 unless the XMR is locked";;
  return_ (Ok (NotifyContractDeployed address)).

Definition HandleProtocolMessage (msg : Message) : Go swapState Reply Reply :=
  err <- callf (checkMessageType msg);;
  return_if_err err (fun err => (None, true, Some err));;
  match msg with
  | SendKeys msg =>
      res <- callf (handleSendKeysMessage msg);;
      resp <- try_ res (fun err => (None, true, Some err));;
      return_ (Some resp, false, None)
  | NotifyXMRLock Address =>
      when_ (Address =? "")%string
            (return_ (None, true, Some (errors_New "got empty address for locked XMR")));;
      s <- get;;
      priv <- deref (privkeys s);;
      bvk <- deref (bobPrivateViewKey s);;
      let vk := SumPrivateViewKeys bvk (priv_vk priv) in
      pub <- deref (pubkeys s);;
      bsk <- deref (bobPublicSpendKey s);;
      let sk := SumPublicKeys bsk (pub_sk pub) in
      let kp := NewPublicKeyPair sk (PrivateViewKey_Public vk) in
      when_ (negb (Address =? PublicKeyPair_Address kp (env host))%string)
            (return_ (None, true, Some (fmt_Errorf
               "address received in message does not match expected address")));;
      t <- time_Now;;
      let walletName := ("alice-viewonly-wallet-" ++ time_Format t)%string in
      err <- client_GenerateViewOnlyWalletFromKeys O vk (PublicKeyPair_Address kp (env host))
               walletName "";;
      return_if_err err (fun err => (None, true, Some (fmt_Errorf_w
         "failed to generate view-only wallet to verify locked XMR: %w" err)));;
      err <- client_Refresh O;;
      return_if_err err (fun err => (None, true, Some err));;
      res <- client_GetBalance O 0;;
      balance <- try_ res (fun err => (None, true, Some err));;
      when_ (float64_ltb balance (float64_of_uint64 (desiredAmount s)))
            (return_ (None, true, Some (fmt_Errorf
               "locked XMR amount is less than expected: got %v, expected %v")));;
      err <- client_CloseWallet O;;
      return_if_err err (fun err => (None, true, Some (fmt_Errorf_w
         "failed to close wallet: %w" err)));;
      modify (set_nextExpectedMessage (NotifyClaimed ""));;
      close_ xmrLockedCh set_xmrLockedCh;;
      err <- ready;;
      return_if_err err (fun err => (None, true, Some (fmt_Errorf_w
         "failed to call Ready: %w" err)));;
      go_ "refund at t1 unless the ETH is claimed";;
      return_ (Some NotifyReady, false, None)
  | NotifyClaimed TxHash =>
      res <- handleNotifyClaimed TxHash;;
      _ <- try_ res (fun err => (None, true, Some err));;
      close_ claimedCh set_claimedCh;;
      return_ (None, true, None)
  | _ => return_ (None, false, Some (errors_New "unexpected message type"))
  end.

End Session.
End Alice.

(** ** Package [bob] *)
Module Bob.
Section Session.
Context {L : MoneroLib} (host : Host) (O : Oracle).

Definition errMissingKeys : error :=
  errors_New "did not receive Alice's public spend or view key".
Definition errMissingAddress : error :=
  errors_New "got empty contract address".

Record swapState : Type := {
  ctx_done : bool;
  id : Z;
  providesAmount : Z;
  desiredAmount : Z;
  privkeys : option PrivateKeyPair;
  pubkeys : option PublicKeyPair;
  contract : option string;
  contractAddr : string;
  t0 : Time;
  t1 : Time;
  alicePublicKeys : option PublicKeyPair;
  alicePrivateViewKey : option PrivateViewKey;
  nextExpectedMessage : Message;
  readyCh : bool;
  success : bool
}.

Definition set_ctx_done (v : bool) (s : swapState) : swapState :=
  {| ctx_done := v; id := id s; providesAmount := providesAmount s;
     desiredAmount := desiredAmount s; privkeys := privkeys s; pubkeys := pubkeys s;
     contract := contract s; contractAddr := contractAddr s; t0 := t0 s; t1 := t1 s;
     alicePublicKeys := alicePublicKeys s;
     alicePrivateViewKey := alicePrivateViewKey s;
     nextExpectedMessage := nextExpectedMessage s; readyCh := readyCh s;
     success := success s |}.

Definition set_keys (priv : PrivateKeyPair) (s : swapState) : swapState :=
  {| ctx_done := ctx_done s; id := id s; providesAmount := providesAmount s;
     desiredAmount := desiredAmount s; privkeys := Some priv;
     pubkeys := Some (PrivateKeyPair_PublicKeyPair priv); contract := contract s;
     contractAddr := contractAddr s; t0 := t0 s; t1 := t1 s;
     alicePublicKeys := alicePublicKeys s;
     alicePrivateViewKey := alicePrivateViewKey s;
     nextExpectedMessage := nextExpectedMessage s; readyCh := readyCh s;
     success := success s |}.

Definition set_contract (address : string) (s : swapState) : swapState :=
  {| ctx_done := ctx_done s; id := id s; providesAmount := providesAmount s;
     desiredAmount := desiredAmount s; privkeys := privkeys s; pubkeys := pubkeys s;
     contract := Some address; contractAddr := address; t0 := t0 s; t1 := t1 s;
     alicePublicKeys := alicePublicKeys s;
     alicePrivateViewKey := alicePrivateViewKey s;
     nextExpectedMessage := nextExpectedMessage s; readyCh := readyCh s;
     success := success s |}.

Definition set_t0 (v : Time) (s : swapState) : swapState :=
  {| ctx_done := ctx_done s; id := id s; providesAmount := providesAmount s;
     desiredAmount := desiredAmount s; privkeys := privkeys s; pubkeys := pubkeys s;
     contract := contract s; contractAddr := contractAddr s; t0 := v; t1 := t1 s;
     alicePublicKeys := alicePublicKeys s;
     alicePrivateViewKey := alicePrivateViewKey s;
     nextExpectedMessage := nextExpectedMessage s; readyCh := readyCh s;
     success := success s |}.

Definition set_t1 (v : Time) (s : swapState) : swapState :=
  {| ctx_done := ctx_done s; id := id s; providesAmount := providesAmount s;
     desiredAmount := desiredAmount s; privkeys := privkeys s; pubkeys := pubkeys s;
     contract := contract s; contractAddr := contractAddr s; t0 := t0 s; t1 := v;
     alicePublicKeys := alicePublicKeys s;
     alicePrivateViewKey := alicePrivateViewKey s;
     nextExpectedMessage := nextExpectedMessage s; readyCh := readyCh s;
     success := success s |}.

Definition set_alicePublicKeys (v : option PublicKeyPair) (s : swapState) : swapState :=
  {| ctx_done := ctx_done s; id := id s; providesAmount := providesAmount s;
     desiredAmount := desiredAmount s; privkeys := privkeys s; pubkeys := pubkeys s;
     contract := contract s; contractAddr := contractAddr s; t0 := t0 s; t1 := t1 s;
     alicePublicKeys := v; alicePrivateViewKey := alicePrivateViewKey s;
     nextExpectedMessage := nextExpectedMessage s; readyCh := readyCh s;
     success := success s |}.

Definition set_alicePrivateViewKey (v : option PrivateViewKey) (s : swapState) : swapState :=
  {| ctx_done := ctx_done s; id := id s; providesAmount := providesAmount s;
     desiredAmount := desiredAmount s; privkeys := privkeys s; pubkeys := pubkeys s;
     contract := contract s; contractAddr := contractAddr s; t0 := t0 s; t1 := t1 s;
     alicePublicKeys := alicePublicKeys s; alicePrivateViewKey := v;
     nextExpectedMessage := nextExpectedMessage s; readyCh := readyCh s;
     success := success s |}.

Definition set_nextExpectedMessage (v : Message) (s : swapState) : swapState :=
  {| ctx_done := ctx_done s; id := id s; providesAmount := providesAmount s;
     desiredAmount := desiredAmount s; privkeys := privkeys s; pubkeys := pubkeys s;
     contract := contract s; contractAddr := contractAddr s; t0 := t0 s; t1 := t1 s;
     alicePublicKeys := alicePublicKeys s;
     alicePrivateViewKey := alicePrivateViewKey s; nextExpectedMessage := v;
     readyCh := readyCh s; success := success s |}.

Definition set_readyCh (v : bool) (s : swapState) : swapState :=
  {| ctx_done := ctx_done s; id := id s; providesAmount := providesAmount s;
     desiredAmount := desiredAmount s; privkeys := privkeys s; pubkeys := pubkeys s;
     contract := contract s; contractAddr := contractAddr s; t0 := t0 s; t1 := t1 s;
     alicePublicKeys := alicePublicKeys s;
     alicePrivateViewKey := alicePrivateViewKey s;
     nextExpectedMessage := nextExpectedMessage s; readyCh := v;
     success := success s |}.

Definition set_success (v : bool) (s : swapState) : swapState :=
  {| ctx_done := ctx_done s; id := id s; providesAmount := providesAmount s;
     desiredAmount := desiredAmount s; privkeys := privkeys s; pubkeys := pubkeys s;
     contract := contract s; contractAddr := contractAddr s; t0 := t0 s; t1 := t1 s;
     alicePublicKeys := alicePublicKeys s;
     alicePrivateViewKey := alicePrivateViewKey s;
     nextExpectedMessage := nextExpectedMessage s; readyCh := readyCh s;
     success := v |}.

Definition emptySendKeys : SendKeysMessage :=
  {| msgPublicSpendKey := ""; msgPrivateViewKey := ""; msgSpendKeyHash := "";
     msgEthAddress := "" |}.

Definition newSwapState (providesAmount desiredAmount : Z) (w : World)
  : swapState * World :=
  ({| ctx_done := false; id := nextID w; providesAmount := providesAmount;
      desiredAmount := desiredAmount; privkeys := None; pubkeys := None;
      contract := None; contractAddr := ""; t0 := 0; t1 := 0;
      alicePublicKeys := None; alicePrivateViewKey := None;
      nextExpectedMessage := SendKeys emptySendKeys;
      readyCh := false; success := false |},
   set_nextID (uint64_wrap (nextID w + 1)) w).

(** *** Methods of [swapState] and [bob] defined in other files of the package *)

(** Modelled from the spec: [generate() -> KeyMaterial], fresh session keys;
    [generateKeys] stores them in the session and returns the public spend
    key and the private view key. *)
Definition generateKeys {R} : Go swapState R (result (PublicKey * PrivateViewKey)) :=
  res <- extcall (on_generateKeys O) GenerateKeys no_effect;;
  match res with
  | Err e => ret (Err e)
  | Ok priv =>
      modify (set_keys priv);;
      ret (Ok (PrivateSpendKey_Public (priv_sk priv), priv_vk priv))
  end.

(** Modelled from the spec: [setAlicePublicKeys] stores the peer's public
    keys in the session's key material. *)
Definition setAlicePublicKeys {R} (kp : PublicKeyPair) : Go swapState R unit :=
  modify (set_alicePublicKeys (Some kp)).

(** Modelled from the spec: "bind contract", the handle to the deployed
    escrow and its address, unset until then. *)
Definition setContract {R} (address : string) : Go swapState R (option error) :=
  err <- extcall (fun w => on_setContract O w address) (SetContract address) no_effect;;
  match err with
  | Some e => ret (Some e)
  | None => modify (set_contract address);; ret None
  end.

(** Modelled from the spec: "lock X to joint address", which returns the
    joint address. *)
Definition lockFunds {R} (amount : Z) : Go swapState R (result string) :=
  extcall (fun w => on_lockFunds O w amount) (LockFunds amount) no_effect.

(** Modelled from the spec: [claim(s_bob) -> txHash], submitted to the
    escrow at the time of the call; [successLatched] is "set once the
    irreversible winning side-effect (... claim receipt for E-winner) has
    occurred". *)
Definition claimFunds {R} : Go swapState R (result string) :=
  fun s w =>
    let res := on_claimFunds O w in
    (Val res,
     match res with Ok _ => set_success true s | Err _ => s end,
     record_call (Claim (clock w) res) w).

(** Modelled from the spec: [OpenWallet(name, password)], which re-opens
    Bob's own wallet. *)
Definition openWallet {R} : Go swapState R (option error) :=
  extcall (on_openWallet O) OpenWallet
          (fun err w => match err with
                        | None => set_wallet (Some OwnWallet) w
                        | Some _ => w
                        end).

(** *** swap_state.go *)

Definition newSendKeysMessage : Go swapState (result SendKeysMessage) (result SendKeysMessage) :=
  res <- generateKeys;;
  keys <- try_ res (fun err => Err err);;
  s <- get;;
  priv <- deref (privkeys s);;
  let sh := PrivateSpendKey_Hash (priv_sk priv) in
  return_ (Ok {| msgPublicSpendKey := PublicKey_Hex (fst keys);
                 msgPrivateViewKey := PrivateViewKey_Hex (snd keys);
                 msgSpendKeyHash := hex_EncodeToString sh;
                 msgEthAddress := ethAddress host |}).

Definition tryClaim : Go swapState (option error) (option error) :=
  s <- get;;
  untilT0 <- time_Until (t0 s);;
  untilT1 <- time_Until (t1 s);;
  when_ (untilT0 <? 0) (time_After untilT0);;
  when_ (0 <? untilT1) (ret tt);;
  res <- claimFunds;;
  return_ (err_of res).

Definition ProtocolComplete : Go swapState unit unit :=
  defer_ (fun s w => (set_ctx_done true s, record_call ClearSwapState (record_call Cancel w)))
    (s <- get;;
     when_ (success s) (return_ tt);;
     match nextExpectedMessage s with
     | SendKeys _ => ret tt
     | NotifyContractDeployed _ => ret tt
     | NotifyReady =>
         _ <- callf tryClaim;;
         ret tt
     | _ => ret tt
     end).

Definition checkMessageType (msg : Message) : Go swapState (option error) (option error) :=
  when_ (match msg with NotifyRefund _ => true | _ => false end) (return_ None);;
  s <- get;;
  when_ (negb (MessageType_eqb (Type_ msg) (Type_ (nextExpectedMessage s))))
        (return_ (Some (errors_New "received unexpected message")));;
  return_ None.

Definition handleSendKeysMessage (msg : SendKeysMessage)
  : Go swapState (option error) (option error) :=
  when_ ((msgPublicSpendKey msg =? "") || (msgPrivateViewKey msg =? ""))%string
        (return_ (Some errMissingKeys));;
  when_ (msgSpendKeyHash msg =? "")%string
        (return_ (Some (errors_New "did not receive SpendKeyHash")));;
  dvk <- try_ (NewPrivateViewKeyFromHash (msgSpendKeyHash msg))
              (fun err => Some (fmt_Errorf_w
                 "failed to derive view key from spend key hash: %w" err));;
  modify (set_nextExpectedMessage (NotifyContractDeployed ""));;
  vk <- try_ (NewPrivateViewKeyFromHex (msgPrivateViewKey msg))
             (fun err => Some (fmt_Errorf_w
                "failed to generate Alice's private view key: %w" err));;
  when_ (negb (PrivateViewKey_Hex vk =? PrivateViewKey_Hex dvk)%string)
        (return_ (Some (fmt_Errorf
           "derived view key does not match message's view key: derived=%s received=%s")));;
  modify (set_alicePrivateViewKey (Some vk));;
  kp <- try_ (NewPublicKeyPairFromHex (msgPublicSpendKey msg)
                (PublicKey_Hex (PrivateViewKey_Public vk)))
             (fun err => Some (fmt_Errorf_w
                "failed to generate Alice's public keys: %w" err));;
  t <- time_Now;;
  let walletName := ("alice-viewonly-wallet-" ++ time_Format t)%string in
  err <- client_GenerateViewOnlyWalletFromKeys O vk (PublicKeyPair_Address kp (env host))
           walletName "";;
  return_if_err err (fun err => Some (fmt_Errorf_w
     "failed to generate view-only wallet to verify Alice's keys: %w" err));;
  err <- client_CloseWallet O;;
  return_if_err err (fun err => Some (fmt_Errorf_w "failed to close wallet: %w" err));;
  err <- openWallet;;
  return_if_err err (fun err => Some (fmt_Errorf_w "failed to open wallet: %w" err));;
  setAlicePublicKeys kp;;
  return_ None.

Definition createMoneroWallet (kpAB : PrivateKeyPair)
  : Go swapState (result string) (result string) :=
  t <- time_Now;;
  let walletName := ("bob-swap-wallet-" ++ time_Format t)%string in
  err <- client_GenerateFromKeys O kpAB walletName "" (env host);;
  return_if_err err (fun err => Err err);;
  err <- client_Refresh O;;
  return_if_err err (fun err => Err err);;
  res <- client_GetBalance O 0;;
  _ <- try_ res (fun err => Err err);;
  modify (set_success true);;
  return_ (Ok (PrivateKeyPair_Address kpAB (env host))).

Definition handleRefund (txHash : string) : Go swapState (result string) (result string) :=
  res <- ethClient_TransactionReceipt O txHash;;
  receipt <- try_ res (fun err => Err err);;
  when_ (List.length receipt =? 0)%nat
        (return_ (Err (errors_New "claim transaction has no logs")));;
  return_if_err (SwapABI_JSON host) (fun err => Err err);;
  data <- match receipt with
          | d :: _ => ret d
          | [] => panic "index out of range [0] with length 0"
          end;;
  sa <- try_ (abi_Unpack_Refunded data) (fun err => Err err);;
  skA <- try_ (NewPrivateSpendKey sa) (fun err => Err err);;
  vkA <- try_ (PrivateSpendKey_View skA) (fun err => Err err);;
  s <- get;;
  priv <- deref (privkeys s);;
  let skAB := SumPrivateSpendKeys skA (priv_sk priv) in
  let vkAB := SumPrivateViewKeys vkA (priv_vk priv) in
  let kpAB := NewPrivateKeyPair skAB vkAB in
  let fp := (basepath host ++ "/" ++ fmt_d (id s) ++ "/swap-secret")%string in
  err <- monero_WriteKeysToFile O fp kpAB (env host);;
  return_if_err err (fun err => Err err);;
  res <- callf (createMoneroWallet kpAB);;
  return_ res.

Definition HandleProtocolMessage (msg : Message) : Go swapState Reply Reply :=
  err <- callf (checkMessageType msg);;
  return_if_err err (fun err => (None, true, Some err));;
  match msg with
  | SendKeys msg =>
      err <- callf (handleSendKeysMessage msg);;
      return_if_err err (fun err => (None, true, Some err));;
      return_ (None, false, None)
  | NotifyContractDeployed Address =>
      when_ (Address =? "")%string (return_ (None, true, Some errMissingAddress));;
      modify (set_nextExpectedMessage NotifyReady);;
      err <- setContract (HexToAddress Address);;
      return_if_err err (fun err => (None, true, Some (fmt_Errorf_w
         "failed to instantiate contract instance: %w" err)));;
      s <- get;;
      res <- lockFunds (providesAmount s);;
      addrAB <- try_ res (fun err => (None, true, Some (fmt_Errorf_w
                            "failed to lock funds: %w" err)));;
      let out := NotifyXMRLock addrAB in
      s <- get;;
      _ <- deref (contract s);;
      res <- contract_Timeout0 O;;
      st0 <- try_ res (fun err => (None, true, Some (fmt_Errorf_w
                         "failed to get timeout0 from contract: err=%w" err)));;
      modify (set_t0 (time_Unix (Int64 st0)));;
      res <- contract_Timeout1 O;;
      st1 <- try_ res (fun err => (None, true, Some (fmt_Errorf_w
                         "failed to get timeout1 from contract: err=%w" err)));;
      modify (set_t1 (time_Unix (Int64 st1)));;
      go_ "claim at t0 unless ready";;
      return_ (Some out, false, None)
  | NotifyReady =>
      close_ readyCh set_readyCh;;
      res <- claimFunds;;
      txHash <- try_ res (fun err => (None, true, Some (fmt_Errorf_w
                            "failed to redeem ether: %w" err)));;
      let out := NotifyClaimed txHash in
      return_ (Some out, true, None)
  | NotifyRefund TxHash =>
      res <- callf (handleRefund TxHash);;
      _ <- try_ res (fun err => (None, true, Some err));;
      return_ (None, true, None)
  | _ => return_ (None, true, Some (errors_New "unexpected message type"))
  end.

End Session.
End Bob.

(** ** The network's view of a session (interface [net.SwapState])

    The network delivers each incoming message to the running session
    through [HandleProtocolMessage] and reports the closure of the stream
    through [ProtocolComplete]. *)
Inductive SwapState {L : MoneroLib} : Type :=
| AliceSwap (s : Alice.swapState)
| BobSwap (s : Bob.swapState).

Inductive NetEvent : Type :=
| Deliver (msg : Message)
| StreamClosed.

Section Net.
Context {L : MoneroLib} (host : Host) (O : Oracle).

Definition SwapState_HandleProtocolMessage (msg : Message) (ss : SwapState) (w : World)
  : outcome Reply Reply * SwapState * World :=
  match ss with
  | AliceSwap s =>
      let '(o, s', w') := Alice.HandleProtocolMessage host O msg s w in (o, AliceSwap s', w')
  | BobSwap s =>
      let '(o, s', w') := Bob.HandleProtocolMessage host O msg s w in (o, BobSwap s', w')
  end.

(** Bob's session driven by one event of the network. *)
Definition Bob_drive (ev : NetEvent) (s : Bob.swapState) (w : World)
  : Bob.swapState * World :=
  match ev with
  | Deliver msg => let '(_, s', w') := Bob.HandleProtocolMessage host O msg s w in (s', w')
  | StreamClosed => let '(_, s', w') := Bob.ProtocolComplete O s w in (s', w')
  end.

End Net.

(** ** A concrete library and concrete collaborators

    Stand-ins on which the handlers can be run: keys are integers, a key
    parsed from a string is the length of the string, sums of keys are
    sums of integers, and every collaborator answers as told. *)
Module Toy.

#[local] Instance lib : MoneroLib := {|
  PrivateSpendKey := Z;
  PrivateViewKey := Z;
  PublicKey := Z;
  Environment := unit;
  NewPrivateViewKeyFromHash := fun h => Ok (Z.of_nat (String.length h));
  NewPrivateViewKeyFromHex := fun h => Ok (Z.of_nat (String.length h));
  NewPublicKeyFromHex := fun h => Ok (Z.of_nat (String.length h));
  NewPrivateSpendKey := fun b => Ok (Z.of_nat (List.length b));
  PrivateViewKey_Hex := fmt_d;
  PrivateViewKey_Public := fun k => k;
  PrivateSpendKey_Public := fun k => k;
  PrivateSpendKey_View := fun k => Ok (k + 1);
  PrivateSpendKey_Hash := fun _ => repeat Byte.x00 32;
  PublicKey_Hex := fmt_d;
  SumPrivateSpendKeys := Z.add;
  SumPrivateViewKeys := Z.add;
  SumPublicKeys := Z.add;
  address_of_keys := fun sk vk _ => (fmt_d sk ++ "/" ++ fmt_d vk)%string;
  hex_EncodeToString := fun _ => "00";
  HexToAddress := fun a => a;
  time_Format := fmt_d
|}.

Definition host : Host :=
  {| env := tt; basepath := "/tmp/swap"; ethAddress := "0xb0b"; SwapABI_JSON := None |}.

Definition rpcError : error := errors_New "rpc: request failed".

(** Collaborators that succeed, but for the knobs: the balance the wallet
    reports, and the errors of opening a view-only wallet and of
    refreshing. *)
Definition oracle (balance : float64) (openErr refreshErr : option error) : Oracle :=
  {| on_GenerateViewOnlyWalletFromKeys := fun _ _ _ _ => openErr;
     on_GenerateFromKeys := fun _ _ _ => None;
     on_Refresh := fun _ => refreshErr;
     on_GetBalance := fun _ _ => Ok balance;
     on_CloseWallet := fun _ => None;
     on_openWallet := fun _ => None;
     on_generateKeys := fun _ => Ok (NewPrivateKeyPair 5 7);
     on_deployAndLockETH := fun _ _ => Ok "0xc0ffee";
     on_setContract := fun _ _ => None;
     on_lockFunds := fun _ _ => Ok "joint";
     on_Timeout0 := fun _ => Ok 100;
     on_Timeout1 := fun _ => Ok 200;
     on_ready := fun _ => None;
     on_refund := fun _ => Ok "0xrefund";
     on_claimFunds := fun _ => Ok "0xclaim";
     on_TransactionReceipt := fun _ _ => Ok [repeat Byte.x01 32];
     on_handleNotifyClaimed := fun _ _ => Ok "joint";
     on_WriteKeysToFile := fun _ _ _ => None |}.

Definition world0 (now : Time) : World :=
  {| clock := now; wallet := Some OwnWallet; nextID := 0; calls := [] |}.

Definition state_of {St R A : Type} (run : outcome R A * St * World) : St := snd (fst run).
Definition world_of {St R A : Type} (run : outcome R A * St * World) : World := snd run.

Definition second : Z := 1000000000.

(** The peer's key announcement: a 32-byte spend-key hash in hex and a
    view key, which in this library derive the same key. *)
Definition peerKeys : SendKeysMessage :=
  {| msgPublicSpendKey := "abc";
     msgPrivateViewKey :=
       "0123456789012345678901234567890123456789012345678901234567890123";
     msgSpendKeyHash :=
       "0123456789012345678901234567890123456789012345678901234567890123";
     msgEthAddress := "0xb0b" |}.

(** An announcement whose spend-key hash derives another view key than the
    announced one. *)
Definition forgedKeys : SendKeysMessage :=
  {| msgPublicSpendKey := "abc";
     msgPrivateViewKey := "0123";
     msgSpendKeyHash :=
       "0123456789012345678901234567890123456789012345678901234567890123";
     msgEthAddress := "0xb0b" |}.

Definition happy : Oracle := oracle (F64 (1000 # 1)) None None.

(** Alice's session: created, keys generated, escrow deployed on the
    peer's keys (at time 0, with t0 = 100 s and t1 = 200 s), and the
    locked XMR audited and [setReady] called (at 50 s). *)
Definition alice_fresh (desired : Z) : Alice.swapState :=
  fst (Alice.newSwapState 10 desired (world0 0)).

Definition alice_keyed : Alice.swapState :=
  Eval vm_compute in
    state_of (Alice.newSendKeysMessage happy (alice_fresh 1000) (world0 0)).

Definition alice_deployed : Alice.swapState :=
  Eval vm_compute in
    state_of (Alice.HandleProtocolMessage host happy (SendKeys peerKeys)
                alice_keyed (world0 0)).

Definition jointAddress : string := "8/71".

Definition alice_ready_run : outcome Reply Reply * Alice.swapState * World :=
  Eval vm_compute in
    Alice.HandleProtocolMessage host happy (NotifyXMRLock jointAddress)
      alice_deployed (world0 (50 * second)).

(** The audit of a deposit of 500 where 1000 is desired. *)
Definition shortfall : Oracle := oracle (F64 (500 # 1)) None None.

Definition alice_shortfall_run : outcome Reply Reply * Alice.swapState * World :=
  Eval vm_compute in
    Alice.HandleProtocolMessage host shortfall (NotifyXMRLock jointAddress)
      alice_deployed (world0 (50 * second)).

(** The audit of a deposit of 2^53 where 2^53 + 1 is desired. *)
Definition rounding : Oracle := oracle (F64 (9007199254740992 # 1)) None None.

Definition alice_deployed_big : Alice.swapState :=
  Eval vm_compute in
    state_of (Alice.HandleProtocolMessage host happy (SendKeys peerKeys)
                (state_of (Alice.newSendKeysMessage happy
                             (alice_fresh 9007199254740993) (world0 0)))
                (world0 0)).

Definition alice_rounding_run : outcome Reply Reply * Alice.swapState * World :=
  Eval vm_compute in
    Alice.HandleProtocolMessage host rounding (NotifyXMRLock jointAddress)
      alice_deployed_big (world0 (50 * second)).

(** Bob's session: created, keys generated, the peer's keys verified, and
    the funds locked on the deployed escrow. *)
Definition bob_fresh : Bob.swapState :=
  Eval vm_compute in fst (Bob.newSwapState 1000 10 (world0 0)).

Definition bob_keyed : Bob.swapState :=
  Eval vm_compute in
    state_of (Bob.newSendKeysMessage host happy bob_fresh (world0 0)).

Definition bob_verified : Bob.swapState :=
  Eval vm_compute in
    state_of (Bob.HandleProtocolMessage host happy (SendKeys peerKeys) bob_keyed
                (world0 0)).

Definition bob_locked : Bob.swapState :=
  Eval vm_compute in
    state_of (Bob.HandleProtocolMessage host happy (NotifyContractDeployed "0xc0ffee")
                bob_verified (world0 0)).

(** Bob handles [NotifyReady] at 50 s and claims. *)
Definition bob_claimed_run : outcome Reply Reply * Bob.swapState * World :=
  Eval vm_compute in
    Bob.HandleProtocolMessage host happy NotifyReady bob_locked (world0 (50 * second)).

(** Alice, after [setReady], handles [NotifyClaimed]. *)
Definition alice_claimed_run : outcome Reply Reply * Alice.swapState * World :=
  Eval vm_compute in
    Alice.HandleProtocolMessage host happy (NotifyClaimed "0xclaim")
      (state_of alice_ready_run) (world_of alice_ready_run).

(** Bob handles [NotifyRefund] while the wallet RPC fails to refresh. *)
Definition refreshFails : Oracle := oracle (F64 (1000 # 1)) None (Some rpcError).

Definition bob_refresh_fails_run : outcome Reply Reply * Bob.swapState * World :=
  Eval vm_compute in
    Bob.HandleProtocolMessage host refreshFails (NotifyRefund "0x1") bob_locked
      (world0 (50 * second)).

End Toy.

(** ** Watchdog goroutines

    The three anonymous goroutines that the handlers start.  Each computes
    a duration and blocks in a [select] on the cancellation of the
    session's context, a timer and a signal channel.  Which case of the
    [select] proceeds is decided outside the goroutine and is a parameter
    here; when it is the timer, the clock has advanced by the duration of
    the timer (by nothing when the duration is not positive).  A message
    handed to [net.SendSwapMessage] is the value of the goroutine; the
    error of sending is only logged. *)
Inductive Fired : Type :=
| CtxDone
| TimerFired
| Signalled.

(** [const timeoutBuffer = time.Minute * 5]. *)
Definition timeoutBuffer : Duration := Minute * 5.

Section Watchdogs.
Context {L : MoneroLib} (O : Oracle).

(** alice/swap_state.go, in [handleSendKeysMessage]: refund unless the XMR
    is locked in time.  The subtraction is [int64] arithmetic. *)
Definition Alice_refundBeforeT0 (fired : Fired)
  : Go Alice.swapState (option Message) (option Message) :=
  s <- get;;
  until <- time_Until (Alice.t0 s);;
  match fired with
  | CtxDone => return_ None
  | TimerFired =>
      time_After (Int64 (until - timeoutBuffer));;
      res <- Alice.refund O;;
      txhash <- try_ res (fun _ => None);;
      return_ (Some (NotifyRefund txhash))
  | Signalled => return_ None
  end.

(** alice/swap_state.go, in the [NotifyXMRLock] case: refund at t1 unless
    the ETH is claimed. *)
Definition Alice_refundAfterT1 (fired : Fired)
  : Go Alice.swapState (option Message) (option Message) :=
  s <- get;;
  until <- time_Until (Alice.t1 s);;
  match fired with
  | CtxDone => return_ None
  | TimerFired =>
      time_After until;;
      res <- Alice.refund O;;
      txhash <- try_ res (fun _ => None);;
      return_ (Some (NotifyRefund txhash))
  | Signalled => return_ None
  end.

(** bob/swap_state.go, in the [NotifyContractDeployed] case: claim at t0
    unless [NotifyReady] arrives first. *)
Definition Bob_claimAtT0 (fired : Fired)
  : Go Bob.swapState (option Message) (option Message) :=
  s <- get;;
  until <- time_Until (Bob.t0 s);;
  match fired with
  | CtxDone => return_ None
  | TimerFired =>
      time_After until;;
      res <- Bob.claimFunds O;;
      txHash <- try_ res (fun _ => None);;
      return_ (Some (NotifyClaimed txHash))
  | Signalled => return_ None
  end.

(** Alice's session driven by one event of the network. *)
Definition Alice_drive (host : Host) (ev : NetEvent) (s : Alice.swapState) (w : World)
  : Alice.swapState * World :=
  match ev with
  | Deliver msg => let '(_, s', w') := Alice.HandleProtocolMessage host O msg s w in (s', w')
  | StreamClosed => let '(_, s', w') := Alice.ProtocolComplete O s w in (s', w')
  end.

(** Everything that acts on Bob's session: the network, and the goroutine
    of the [NotifyContractDeployed] case when it comes out of its
    [select].  The goroutine is allowed to run in every state, which
    includes the states in which it has been started. *)
Inductive BobEvent : Type :=
| BobNet (ev : NetEvent)
| BobWatchdog (fired : Fired).

Definition Bob_step (host : Host) (ev : BobEvent) (s : Bob.swapState) (w : World)
  : Bob.swapState * World :=
  match ev with
  | BobNet ev => Bob_drive host O ev s w
  | BobWatchdog fired => let '(_, s', w') := Bob_claimAtT0 fired s w in (s', w')
  end.

(** An execution of Bob's session: the events act on it one after the
    other. *)
Fixpoint Bob_run (host : Host) (evl : list BobEvent) (s : Bob.swapState) (w : World)
  : Bob.swapState * World :=
  match evl with
  | [] => (s, w)
  | ev :: rest => let '(s1, w1) := Bob_step host ev s w in Bob_run host rest s1 w1
  end.

(** Everything that acts on Alice's session: the network and her two
    goroutines. *)
Inductive AliceEvent : Type :=
| AliceNet (ev : NetEvent)
| AliceWatchdogT0 (fired : Fired)
| AliceWatchdogT1 (fired : Fired).

Definition Alice_step (host : Host) (ev : AliceEvent) (s : Alice.swapState) (w : World)
  : Alice.swapState * World :=
  match ev with
  | AliceNet ev => Alice_drive host ev s w
  | AliceWatchdogT0 fired => let '(_, s', w') := Alice_refundBeforeT0 fired s w in (s', w')
  | AliceWatchdogT1 fired => let '(_, s', w') := Alice_refundAfterT1 fired s w in (s', w')
  end.

End Watchdogs.

(** ** More concrete runs *)
Module ToyRuns.
Import Toy.
#[local] Existing Instance Toy.lib.

(** The escrow call [setReady] fails. *)
Definition readyFails : Oracle :=
  {| on_GenerateViewOnlyWalletFromKeys := fun _ _ _ _ => None;
     on_GenerateFromKeys := fun _ _ _ => None;
     on_Refresh := fun _ => None;
     on_GetBalance := fun _ _ => Ok (F64 (1000 # 1));
     on_CloseWallet := fun _ => None;
     on_openWallet := fun _ => None;
     on_generateKeys := fun _ => Ok (NewPrivateKeyPair 5 7);
     on_deployAndLockETH := fun _ _ => Ok "0xc0ffee";
     on_setContract := fun _ _ => None;
     on_lockFunds := fun _ _ => Ok "joint";
     on_Timeout0 := fun _ => Ok 100;
     on_Timeout1 := fun _ => Ok 200;
     on_ready := fun _ => Some rpcError;
     on_refund := fun _ => Ok "0xrefund";
     on_claimFunds := fun _ => Ok "0xclaim";
     on_TransactionReceipt := fun _ _ => Ok [repeat Byte.x01 32];
     on_handleNotifyClaimed := fun _ _ => Ok "joint";
     on_WriteKeysToFile := fun _ _ _ => None |}.

(** The key file cannot be written. *)
Definition writeFails : Oracle :=
  {| on_GenerateViewOnlyWalletFromKeys := fun _ _ _ _ => None;
     on_GenerateFromKeys := fun _ _ _ => None;
     on_Refresh := fun _ => None;
     on_GetBalance := fun _ _ => Ok (F64 (1000 # 1));
     on_CloseWallet := fun _ => None;
     on_openWallet := fun _ => None;
     on_generateKeys := fun _ => Ok (NewPrivateKeyPair 5 7);
     on_deployAndLockETH := fun _ _ => Ok "0xc0ffee";
     on_setContract := fun _ _ => None;
     on_lockFunds := fun _ _ => Ok "joint";
     on_Timeout0 := fun _ => Ok 100;
     on_Timeout1 := fun _ => Ok 200;
     on_ready := fun _ => None;
     on_refund := fun _ => Ok "0xrefund";
     on_claimFunds := fun _ => Ok "0xclaim";
     on_TransactionReceipt := fun _ _ => Ok [repeat Byte.x01 32];
     on_handleNotifyClaimed := fun _ _ => Ok "joint";
     on_WriteKeysToFile := fun _ _ _ => Some rpcError |}.

Definition alice_sendkeys_run : outcome Reply Reply * Alice.swapState * World :=
  Eval vm_compute in
    Alice.HandleProtocolMessage host happy (SendKeys peerKeys) alice_keyed (world0 0).

Definition alice_ready_fails_run : outcome Reply Reply * Alice.swapState * World :=
  Eval vm_compute in
    Alice.HandleProtocolMessage host readyFails (NotifyXMRLock jointAddress)
      alice_deployed (world0 (50 * second)).

Definition bob_sendkeys_run : outcome Reply Reply * Bob.swapState * World :=
  Eval vm_compute in
    Bob.HandleProtocolMessage host happy (SendKeys peerKeys) bob_keyed (world0 0).

Definition bob_deployed_run : outcome Reply Reply * Bob.swapState * World :=
  Eval vm_compute in
    Bob.HandleProtocolMessage host happy (NotifyContractDeployed "0xc0ffee")
      bob_verified (world0 0).

Definition bob_refund_run : outcome Reply Reply * Bob.swapState * World :=
  Eval vm_compute in
    Bob.HandleProtocolMessage host happy (NotifyRefund "0x1") bob_locked
      (world0 (50 * second)).

Definition bob_write_fails_run : outcome Reply Reply * Bob.swapState * World :=
  Eval vm_compute in
    Bob.HandleProtocolMessage host writeFails (NotifyRefund "0x1") bob_locked
      (world0 (50 * second)).

End ToyRuns.

(** * Properties *)

(** ** Proof by runs

    A run of a handler is a hypothesis [H : handler ... s w = (o, s', w')].
    Unfolding the statements of the monad and splitting on every answer of
    a collaborator and on every test turns [H] into one equation per path
    through the handler, with the outcome, the session and the calls of
    that path written out. *)
Ltac go_unfold H :=
  unfold bind, ret, return_, panic, callf, defer_, get, modify, world, extcall,
    no_effect, deref, close_, time_Now, time_Until, time_After, go_,
    return_if_err, try_, when_,
    client_GenerateViewOnlyWalletFromKeys, client_GenerateFromKeys, client_Refresh,
    client_GetBalance, client_CloseWallet, contract_Timeout0, contract_Timeout1,
    ethClient_TransactionReceipt, monero_WriteKeysToFile in H.

(** Split on the innermost scrutinee of a [match] in [H]. *)
Ltac break_match_in H :=
  match type of H with
  | context [match ?x with _ => _ end] =>
      lazymatch x with
      | context [match _ with _ => _ end] => fail
      | _ => destruct x eqn:?
      end
  end.

Ltac go_paths H :=
  repeat (cbn -[String.append String.eqb Z.ltb Z.max Nat.eqb abi_Unpack_Refunded
               NewPublicKeyPairFromHex] in H;
          try break_match_in H).

Lemma app_same_head : forall (A : Type) (l x y : list A), l ++ x = l ++ y -> x = y.
Proof. intros A l x y H. apply app_inv_head in H. exact H. Qed.

Lemma app_self_nil : forall (A : Type) (l x : list A), l = l ++ x -> x = [].
Proof.
  intros A l x H. rewrite <- (app_nil_r l) in H at 1.
  apply app_inv_head in H. symmetry. exact H.
Qed.

(** After the paths of a run [H] are split: the calls made since the
    start, [Hc : calls w' = calls w ++ evs], become an explicit list. *)
Ltac finish_path H Hc :=
  inversion H; subst; clear H;
  cbn -[String.append] in Hc; rewrite <- ?app_assoc in Hc;
  first [apply app_self_nil in Hc | apply app_same_head in Hc];
  cbn -[String.append] in Hc; subst.

(** Case analysis of [H : In c l] for an explicit list [l]. *)
Ltac in_list H :=
  cbn in H;
  repeat match type of H with
         | _ \/ _ => destruct H as [H | H]; [try discriminate H |]
         | False => contradiction
         end;
  try discriminate H.

(** The functions of each package that a run of its handler goes
    through. *)
Ltac go_unfold_alice H :=
  unfold Alice.HandleProtocolMessage, Alice.checkMessageType, Alice.handleSendKeysMessage,
    Alice.verifyBobKeys, Alice.handleNotifyClaimed, Alice.ready, Alice.refund,
    Alice.deployAndLockETH, Alice.setBobKeys in H;
  go_unfold H.

Ltac go_unfold_bob H :=
  unfold Bob.HandleProtocolMessage, Bob.checkMessageType, Bob.handleSendKeysMessage,
    Bob.handleRefund, Bob.createMoneroWallet, Bob.claimFunds, Bob.openWallet,
    Bob.lockFunds, Bob.setContract, Bob.setAlicePublicKeys in H;
  go_unfold H.

Section Gate.
Context {L : MoneroLib}.

(** C7: Bob's gate accepts a message exactly when it is a [NotifyRefund] or
    its kind is the kind of [nextExpectedMessage]; Alice's gate accepts a
    message exactly when its kind is the kind of [nextExpectedMessage],
    with no exception for [NotifyRefund].  Neither gate touches the
    session or the world. *)
Theorem checkMessageType_policy :
  forall (msg : Message) (sb : Bob.swapState) (sa : Alice.swapState) (w : World),
    (exists r,
        Bob.checkMessageType msg sb w = (Return r, sb, w) /\
        (r = None <->
         Type_ msg = NotifyRefundType \/
         Type_ msg = Type_ (Bob.nextExpectedMessage sb))) /\
    (exists r,
        Alice.checkMessageType msg sa w = (Return r, sa, w) /\
        (r = None <-> Type_ msg = Type_ (Alice.nextExpectedMessage sa))).
Proof.
  intros msg sb sa w. split.
  - unfold Bob.checkMessageType, bind, when_, return_, get, ret.
    destruct msg; destruct (Bob.nextExpectedMessage sb); cbn; eexists;
      (split; [reflexivity | split; intro; try reflexivity; try discriminate;
                             auto; intuition discriminate]).
  - unfold Alice.checkMessageType, bind, when_, return_, get, ret.
    destruct msg; destruct (Alice.nextExpectedMessage sa); cbn; eexists;
      (split; [reflexivity | split; intro; try reflexivity; discriminate]).
Qed.
End Gate.

Section Recovery.
Context {L : MoneroLib}.

Lemma time_After_nonpositive :
  forall (St R : Type) (d : Duration) (s : St) (w : World),
    d <= 0 -> @time_After L St R d s w = (Val tt, s, w).
Proof.
  intros St R d s w Hd. unfold time_After, set_clock.
  rewrite Z.max_l by lia. rewrite Z.add_0_r. destruct w; reflexivity.
Qed.

Lemma tryRefund_never_waits :
  forall (O : Oracle) (s : Alice.swapState) (w : World),
    Alice.tryRefund O s w =
    (Return (err_of (on_refund O w)), s, record_call (Refund (clock w) (on_refund O w)) w).
Proof.
  intros O s w. unfold Alice.tryRefund, bind, get, time_Until, when_, Alice.refund, return_.
  destruct ((0 <? Time_Sub (Alice.t0 s) (clock w)) &&
            (Time_Sub (Alice.t1 s) (clock w) <? 0)) eqn:Hc.
  - apply andb_true_iff in Hc. destruct Hc as [_ Hc]. apply Z.ltb_lt in Hc.
    rewrite time_After_nonpositive by lia. reflexivity.
  - reflexivity.
Qed.

Lemma tryClaim_never_waits :
  forall (O : Oracle) (s : Bob.swapState) (w : World),
    Bob.tryClaim O s w =
    (Return (err_of (on_claimFunds O w)),
     match on_claimFunds O w with Ok _ => Bob.set_success true s | Err _ => s end,
     record_call (Claim (clock w) (on_claimFunds O w)) w).
Proof.
  intros O s w. unfold Bob.tryClaim, bind, get, time_Until, when_, Bob.claimFunds, return_, ret.
  destruct (Time_Sub (Bob.t0 s) (clock w) <? 0) eqn:Hc.
  - apply Z.ltb_lt in Hc. rewrite time_After_nonpositive by lia.
    destruct (0 <? Time_Sub (Bob.t1 s) (clock w)); reflexivity.
  - destruct (0 <? Time_Sub (Bob.t1 s) (clock w)); reflexivity.
Qed.

(** C1 (defect of the code): when the stream closes while Alice awaits
    [NotifyXMRLock] or [NotifyClaimed], [ProtocolComplete] submits the
    refund at the current time without waiting, whatever [t0] and [t1]
    are; so also at a time in [[t0, t1)] after [setReady] has been
    called. *)
Theorem alice_ProtocolComplete_refunds_at_once :
  forall (O : Oracle) (s : Alice.swapState) (w : World),
    Alice.success s = false ->
    Type_ (Alice.nextExpectedMessage s) = NotifyXMRLockType \/
    Type_ (Alice.nextExpectedMessage s) = NotifyClaimedType ->
    exists o s' w',
      Alice.ProtocolComplete O s w = (o, s', w') /\
      clock w' = clock w /\
      calls w' =
        calls w ++ [Refund (clock w) (on_refund O w); Cancel; ClearSwapState].
Proof.
  intros O s w Hs Hk.
  unfold Alice.ProtocolComplete, defer_, bind, get, when_, ret, callf, return_if_err.
  rewrite Hs.
  destruct (Alice.nextExpectedMessage s); cbn in Hk;
    try (destruct Hk; discriminate);
    rewrite tryRefund_never_waits;
    destruct (on_refund O w); cbn;
    do 3 eexists; (split; [reflexivity | split; [reflexivity |]]);
    cbn; rewrite <- !app_assoc; reflexivity.
Qed.

(** C2 (defect of the code): when the stream closes while Bob awaits
    [NotifyReady], [ProtocolComplete] submits the claim at the current
    time without waiting, whatever [t0] is; so also before [t0] when
    [setReady] has not been observed. *)
Theorem bob_ProtocolComplete_claims_at_once :
  forall (O : Oracle) (s : Bob.swapState) (w : World),
    Bob.success s = false ->
    Bob.nextExpectedMessage s = NotifyReady ->
    exists o s' w',
      Bob.ProtocolComplete O s w = (o, s', w') /\
      clock w' = clock w /\
      calls w' =
        calls w ++ [Claim (clock w) (on_claimFunds O w); Cancel; ClearSwapState].
Proof.
  intros O s w Hs Hk.
  unfold Bob.ProtocolComplete, defer_, bind, get, when_, ret, callf.
  rewrite Hs, Hk. rewrite tryClaim_never_waits.
  cbn. do 3 eexists. split; [reflexivity | split; [reflexivity |]].
  cbn. rewrite <- !app_assoc. reflexivity.
Qed.

End Recovery.

(** Alice's stream closes at 150 s, between t0 = 100 s and t1 = 200 s and
    after [setReady] was called: the refund is submitted at 150 s. *)
Lemma alice_ProtocolComplete_refunds_at_once_witness :
  let s := Toy.state_of Toy.alice_ready_run in
  let w := set_clock (150 * Toy.second) (Toy.world_of Toy.alice_ready_run) in
  (Alice.t0 s <= clock w < Alice.t1 s) /\
  In (SetReady None) (calls w) /\
  exists o s' w',
    Alice.ProtocolComplete Toy.happy s w = (o, s', w') /\
    clock w' = clock w /\
    calls w' = calls w ++ [Refund (clock w) (on_refund Toy.happy w); Cancel; ClearSwapState].
Proof.
  intros s w. split; [vm_compute; split; congruence |].
  split; [vm_compute; tauto |].
  apply (alice_ProtocolComplete_refunds_at_once Toy.happy s w).
  - reflexivity.
  - right. reflexivity.
Defined.

(** Bob's stream closes at 50 s, before t0 = 100 s, while he awaits
    [NotifyReady]: the claim is submitted at 50 s. *)
Lemma bob_ProtocolComplete_claims_at_once_witness :
  let s := Toy.bob_locked in
  let w := Toy.world0 (50 * Toy.second) in
  clock w < Bob.t0 s /\
  Bob.readyCh s = false /\
  exists o s' w',
    Bob.ProtocolComplete Toy.happy s w = (o, s', w') /\
    clock w' = clock w /\
    calls w' = calls w ++ [Claim (clock w) (on_claimFunds Toy.happy w); Cancel; ClearSwapState].
Proof.
  intros s w. split; [vm_compute; reflexivity |].
  split; [reflexivity |].
  apply (bob_ProtocolComplete_claims_at_once Toy.happy s w); reflexivity.
Defined.

Section Audit.
Context {L : MoneroLib}.

Lemma round53_exact : forall n : Z, 0 <= n <= 2 ^ 53 -> round53 n = n.
Proof.
  intros n Hn. unfold round53. destruct (n <? 2 ^ 53) eqn:Hlt.
  - reflexivity.
  - apply Z.ltb_ge in Hlt. assert (n = 2 ^ 53) as -> by lia. reflexivity.
Qed.

Lemma float64_ltb_false_finite :
  forall a b : Q, float64_ltb (F64 a) (F64 b) = false -> (b <= a)%Q.
Proof.
  intros a b H. cbn in H. apply negb_false_iff in H.
  apply Qle_bool_iff. exact H.
Qed.

(** C3 (as amended): whatever message Alice handles, [ready()] is called
    only for a [NotifyXMRLock] whose address is the joint address, the
    address of the sum of Bob's and Alice's public spend keys and of the
    public key of the sum of their private view keys; only after a
    view-only wallet on that view key and that address was opened,
    refreshed, read and closed without error; and only if the Go
    comparison [balance < float64(desiredAmount)] is false; for a finite
    balance this is [balance >= desiredAmount] whenever
    [desiredAmount <= 2^53].  When the balance read is below
    [float64(desiredAmount)] the handler returns an error and [ready()]
    is not called. *)
Theorem alice_ready_only_after_audit :
  forall (host : Host) (O : Oracle) (msg : Message) (s : Alice.swapState) (w : World)
         (o : outcome Reply Reply) (s' : Alice.swapState) (w' : World) (evs : list Call),
    Alice.HandleProtocolMessage host O msg s w = (o, s', w') ->
    calls w' = calls w ++ evs ->
    (forall err, In (SetReady err) evs ->
       exists Address priv bvk pub bsk balance rest,
         msg = NotifyXMRLock Address /\
         Alice.privkeys s = Some priv /\
         Alice.bobPrivateViewKey s = Some bvk /\
         Alice.pubkeys s = Some pub /\
         Alice.bobPublicSpendKey s = Some bsk /\
         Address = PublicKeyPair_Address
                     (NewPublicKeyPair (SumPublicKeys bsk (pub_sk pub))
                        (PrivateViewKey_Public (SumPrivateViewKeys bvk (priv_vk priv))))
                     (env host) /\
         evs = GenerateViewOnlyWalletFromKeys (SumPrivateViewKeys bvk (priv_vk priv))
                 Address ("alice-viewonly-wallet-" ++ time_Format (clock w)) "" None
               :: Refresh None :: GetBalance 0 (Ok balance) :: CloseWallet None
               :: SetReady err :: rest /\
         float64_ltb balance (float64_of_uint64 (Alice.desiredAmount s)) = false /\
         (forall q, balance = F64 q -> 0 <= Alice.desiredAmount s <= 2 ^ 53 ->
                    (inject_Z (Alice.desiredAmount s) <= q)%Q)) /\
    (forall balance, In (GetBalance 0 (Ok balance)) evs ->
       float64_ltb balance (float64_of_uint64 (Alice.desiredAmount s)) = true ->
       (exists e, o = Return (None, true, Some e)) /\
       forall err, ~ In (SetReady err) evs).
Proof.
  intros host O msg s w o s' w' evs H Hc.
  go_unfold_alice H. go_paths H.
  all: finish_path H Hc.
  all: split; [ intros err Hin | intros bal Hin Hlt ].
  all: try solve [cbn in Hin; intuition discriminate].
  all: try match goal with
       | E : negb (String.eqb _ (PublicKeyPair_Address _ _)) = false |- _ =>
           apply negb_false_iff in E; apply String.eqb_eq in E
       end.
  all: in_list Hin; inversion Hin; subst.
  all: lazymatch goal with
       | |- ex _ =>
           do 7 eexists; split; [reflexivity |];
           do 4 (split; [first [reflexivity | eassumption] |]);
           split; [reflexivity |]; split; [reflexivity |];
           split; [assumption |];
           intros q Hq Hd; subst; unfold float64_of_uint64 in *;
           rewrite round53_exact in * by assumption;
           apply float64_ltb_false_finite; assumption
       | |- _ /\ _ =>
           first [ congruence
                 | split; [eexists; reflexivity |];
                   intros err Hr; cbn in Hr; intuition discriminate ]
       end.
Qed.

End Audit.

(** The audit of a deposit of 1000 where 1000 is desired. *)
Lemma alice_ready_only_after_audit_witness :
  exists balance rest,
    calls (Toy.world_of Toy.alice_ready_run) =
      GenerateViewOnlyWalletFromKeys (L := Toy.lib) 71 Toy.jointAddress
        "alice-viewonly-wallet-50000000000" "" None
      :: Refresh None :: GetBalance 0 (Ok balance) :: CloseWallet None
      :: SetReady None :: rest /\
    float64_ltb balance (float64_of_uint64 1000) = false.
Proof.
  assert (Hrun : Alice.HandleProtocolMessage Toy.host Toy.happy
                   (NotifyXMRLock Toy.jointAddress) Toy.alice_deployed
                   (Toy.world0 (50 * Toy.second)) =
                 (fst (fst Toy.alice_ready_run), Toy.state_of Toy.alice_ready_run,
                  Toy.world_of Toy.alice_ready_run))
    by (vm_compute; reflexivity).
  destruct (@alice_ready_only_after_audit Toy.lib _ _ _ _ _ _ _ _
              (calls (Toy.world_of Toy.alice_ready_run)) Hrun eq_refl) as [H _].
  destruct (H None)
    as (a & priv & bvk & pub & bsk & balance & rest & Hm & _ & _ & _ & _ & _ & Hev & Hlt & _).
  - cbn. tauto.
  - exists balance, rest. split; [| exact Hlt].
    cbn in Hev. inversion Hev. reflexivity.
Defined.

(** C3 (counterexample to the claim as stated): the wallet reports a
    balance of 2^53 = 9007199254740992, Alice desires 2^53 + 1, and
    [ready()] is called: [float64(2^53 + 1)] is 2^53. *)
Lemma alice_audit_counterexample :
  fst (fst Toy.alice_rounding_run) = Return (Some NotifyReady, false, None) /\
  Alice.desiredAmount Toy.alice_deployed_big = 9007199254740993 /\
  In (GetBalance 0 (Ok (F64 (9007199254740992 # 1))))
     (calls (Toy.world_of Toy.alice_rounding_run)) /\
  In (SetReady None) (calls (Toy.world_of Toy.alice_rounding_run)) /\
  (9007199254740992 # 1 < inject_Z 9007199254740993)%Q.
Proof.
  split; [reflexivity |].
  split; [reflexivity |].
  split; [cbn; tauto |].
  split; [cbn; tauto |].
  reflexivity.
Qed.

Section WalletSessions.
Context {L : MoneroLib}.

(** C9 (defect of the code): when Alice's audit of the locked XMR has
    opened the view-only wallet and then fails, by a refresh error, a
    balance-read error or a shortfall, the handler returns its error
    without calling [CloseWallet]: the shared client is left on the
    view-only wallet. *)
Theorem alice_failed_audit_leaves_wallet_open :
  forall (host : Host) (O : Oracle) (Address : string) (s : Alice.swapState) (w : World)
         (o : outcome Reply Reply) (s' : Alice.swapState) (w' : World) (evs : list Call),
    Alice.HandleProtocolMessage host O (NotifyXMRLock Address) s w = (o, s', w') ->
    calls w' = calls w ++ evs ->
    (exists e, In (Refresh (Some e)) evs) \/
    (exists e, In (GetBalance 0 (Err e)) evs) \/
    (exists balance,
        In (GetBalance 0 (Ok balance)) evs /\
        float64_ltb balance (float64_of_uint64 (Alice.desiredAmount s)) = true) ->
    exists vk name e,
      In (GenerateViewOnlyWalletFromKeys vk Address name "" None) evs /\
      o = Return (None, true, Some e) /\
      wallet w' = Some (ViewOnlyWallet name) /\
      forall err, ~ In (CloseWallet err) evs.
Proof.
  intros host O Address s w o s' w' evs H Hc Hfail.
  go_unfold_alice H. go_paths H.
  all: finish_path H Hc.
  all: try match goal with
       | E : negb (String.eqb _ (PublicKeyPair_Address _ _)) = false |- _ =>
           apply negb_false_iff in E; apply String.eqb_eq in E
       end.
  all: destruct Hfail as [[e' Hin] | [[e' Hin] | [bal [Hin Hlt]]]].
  all: try solve [cbn in Hin; intuition discriminate].
  all: in_list Hin; inversion Hin; subst.
  all: try congruence.
  all: do 3 eexists; split; [left; reflexivity |]; split; [reflexivity |];
       split; [reflexivity |]; intros err Hr; cbn in Hr; intuition discriminate.
Qed.

End WalletSessions.

Lemma alice_failed_audit_leaves_wallet_open_witness :
  exists vk name e,
    In (GenerateViewOnlyWalletFromKeys (L := Toy.lib) vk Toy.jointAddress name "" None)
       (calls (Toy.world_of Toy.alice_shortfall_run)) /\
    fst (fst Toy.alice_shortfall_run) = Return (None, true, Some e) /\
    wallet (Toy.world_of Toy.alice_shortfall_run) = Some (ViewOnlyWallet name) /\
    forall err, ~ In (CloseWallet err) (calls (Toy.world_of Toy.alice_shortfall_run)).
Proof.
  assert (Hrun : Alice.HandleProtocolMessage Toy.host Toy.shortfall
                   (NotifyXMRLock Toy.jointAddress) Toy.alice_deployed
                   (Toy.world0 (50 * Toy.second)) =
                 (fst (fst Toy.alice_shortfall_run), Toy.state_of Toy.alice_shortfall_run,
                  Toy.world_of Toy.alice_shortfall_run))
    by (vm_compute; reflexivity).
  apply (@alice_failed_audit_leaves_wallet_open Toy.lib _ _ _ _ _ _ _ _
           (calls (Toy.world_of Toy.alice_shortfall_run)) Hrun eq_refl).
  right. right. exists (F64 (500 # 1)). split; [cbn; tauto | reflexivity].
Defined.

Section KeyVerification.
Context {L : MoneroLib}.

(** C4 (defect of the code): Bob's handler of [SendKeys] advances
    [nextExpectedMessage] to [NotifyContractDeployed] before it compares
    the view key derived from the spend-key hash with the announced one.
    On a mismatch it returns an error, but the session has moved on: the
    gate now accepts [NotifyContractDeployed]. *)
Theorem bob_SendKeys_advances_before_verification :
  forall (host : Host) (O : Oracle) (msg : SendKeysMessage) (s : Bob.swapState)
         (w : World) (dvk vk : PrivateViewKey),
    Type_ (Bob.nextExpectedMessage s) = SendKeysType ->
    msgPublicSpendKey msg <> "" ->
    msgPrivateViewKey msg <> "" ->
    msgSpendKeyHash msg <> "" ->
    NewPrivateViewKeyFromHash (msgSpendKeyHash msg) = Ok dvk ->
    NewPrivateViewKeyFromHex (msgPrivateViewKey msg) = Ok vk ->
    PrivateViewKey_Hex vk <> PrivateViewKey_Hex dvk ->
    (exists e,
        Bob.HandleProtocolMessage host O (SendKeys msg) s w =
        (Return (None, true, Some e),
         Bob.set_nextExpectedMessage (NotifyContractDeployed "") s, w)) /\
    (forall a w2,
        Bob.checkMessageType (NotifyContractDeployed a)
          (Bob.set_nextExpectedMessage (NotifyContractDeployed "") s) w2 =
        (Return None, Bob.set_nextExpectedMessage (NotifyContractDeployed "") s, w2)).
Proof.
  intros host O msg s w dvk vk Hk Hp Hv Hh Hdvk Hvk Hne.
  apply String.eqb_neq in Hp, Hv, Hh, Hne.
  split; [| reflexivity].
  unfold Bob.HandleProtocolMessage, Bob.checkMessageType, Bob.handleSendKeysMessage.
  unfold bind, ret, return_, callf, get, modify, return_if_err, try_, when_.
  cbn -[String.append String.eqb]. rewrite Hk. cbn -[String.append String.eqb].
  rewrite Hp, Hv, Hh. cbn -[String.append String.eqb].
  rewrite Hdvk. cbn -[String.append String.eqb]. rewrite Hvk. cbn -[String.append String.eqb].
  rewrite Hne. cbn -[String.append String.eqb].
  eexists. reflexivity.
Qed.

(** The same handler stores the announced view key before the view-only
    wallet is opened: when that fails, the handler returns an error with
    the peer's view key stored and [nextExpectedMessage] advanced. *)
Lemma bob_SendKeys_stores_key_before_wallet_check :
  forall (host : Host) (O : Oracle) (msg : SendKeysMessage) (s : Bob.swapState)
         (w : World) (dvk vk : PrivateViewKey) (kp : PublicKeyPair) (err : error),
    Type_ (Bob.nextExpectedMessage s) = SendKeysType ->
    msgPublicSpendKey msg <> "" ->
    msgPrivateViewKey msg <> "" ->
    msgSpendKeyHash msg <> "" ->
    NewPrivateViewKeyFromHash (msgSpendKeyHash msg) = Ok dvk ->
    NewPrivateViewKeyFromHex (msgPrivateViewKey msg) = Ok vk ->
    PrivateViewKey_Hex vk = PrivateViewKey_Hex dvk ->
    NewPublicKeyPairFromHex (msgPublicSpendKey msg)
      (PublicKey_Hex (PrivateViewKey_Public vk)) = Ok kp ->
    on_GenerateViewOnlyWalletFromKeys O w vk (PublicKeyPair_Address kp (env host))
      ("alice-viewonly-wallet-" ++ time_Format (clock w)) = Some err ->
    exists e s' w',
      Bob.HandleProtocolMessage host O (SendKeys msg) s w =
        (Return (None, true, Some e), s', w') /\
      Bob.alicePrivateViewKey s' = Some vk /\
      Bob.nextExpectedMessage s' = NotifyContractDeployed "".
Proof.
  intros host O msg s w dvk vk kp err Hk Hp Hv Hh Hdvk Hvk Heq Hkp Hgen.
  apply String.eqb_neq in Hp, Hv, Hh. apply String.eqb_eq in Heq.
  unfold Bob.HandleProtocolMessage, Bob.checkMessageType, Bob.handleSendKeysMessage.
  unfold bind, ret, return_, callf, get, modify, return_if_err, try_, when_,
    time_Now, client_GenerateViewOnlyWalletFromKeys, extcall.
  cbn -[String.append String.eqb]. rewrite Hk. cbn -[String.append String.eqb].
  rewrite Hp, Hv, Hh. cbn -[String.append String.eqb].
  rewrite Hdvk. cbn -[String.append String.eqb]. rewrite Hvk. cbn -[String.append String.eqb].
  rewrite Heq. cbn -[String.append String.eqb].
  rewrite Hkp. cbn -[String.append String.eqb]. rewrite Hgen.
  cbn -[String.append String.eqb].
  do 3 eexists. split; [reflexivity |]. split; reflexivity.
Qed.

(** A [NotifyRefund], which the gate accepts in every state, crashes the
    handler when Bob's session keys are unset: once the receipt and its
    [Refunded] secret have been decoded, [handleRefund] dereferences
    [s.privkeys]. *)
Lemma bob_NotifyRefund_without_keys_panics :
  forall (host : Host) (O : Oracle) (TxHash : string) (s : Bob.swapState) (w : World)
         (data : list Byte.byte) (logs : list (list Byte.byte)) (sa : byte32)
         (skA : PrivateSpendKey) (vkA : PrivateViewKey),
    Bob.privkeys s = None ->
    on_TransactionReceipt O w TxHash = Ok (data :: logs) ->
    SwapABI_JSON host = None ->
    abi_Unpack_Refunded data = Ok sa ->
    NewPrivateSpendKey sa = Ok skA ->
    PrivateSpendKey_View skA = Ok vkA ->
    Bob.HandleProtocolMessage host O (NotifyRefund TxHash) s w =
      (Panic "invalid memory address or nil pointer dereference", s,
       record_call (TransactionReceipt TxHash (Ok (data :: logs))) w).
Proof.
  intros host O TxHash s w data logs sa skA vkA Hp Hr Habi Hsa Hsk Hvk.
  unfold Bob.HandleProtocolMessage, Bob.checkMessageType, Bob.handleRefund.
  unfold bind, ret, return_, callf, get, return_if_err, try_, when_,
    ethClient_TransactionReceipt, extcall, no_effect, deref, panic.
  cbn -[String.append String.eqb abi_Unpack_Refunded]. rewrite Hr.
  cbn -[String.append String.eqb abi_Unpack_Refunded]. rewrite Habi.
  cbn -[String.append String.eqb abi_Unpack_Refunded]. rewrite Hsa.
  cbn -[String.append String.eqb abi_Unpack_Refunded]. rewrite Hsk.
  cbn -[String.append String.eqb abi_Unpack_Refunded]. rewrite Hvk.
  cbn -[String.append String.eqb abi_Unpack_Refunded]. rewrite Hp.
  reflexivity.
Qed.

End KeyVerification.

(** Bob awaits [SendKeys] and receives an announcement whose spend-key
    hash derives the view key 64 while the announced view key is 4. *)
Lemma bob_SendKeys_advances_before_verification_witness :
  Type_ (Bob.nextExpectedMessage Toy.bob_keyed) = SendKeysType /\
  (exists e,
      Bob.HandleProtocolMessage Toy.host Toy.happy (SendKeys Toy.forgedKeys)
        Toy.bob_keyed (Toy.world0 0) =
      (Return (None, true, Some e),
       Bob.set_nextExpectedMessage (NotifyContractDeployed "") Toy.bob_keyed,
       Toy.world0 0)) /\
  (forall a w2,
      Bob.checkMessageType (NotifyContractDeployed a)
        (Bob.set_nextExpectedMessage (NotifyContractDeployed "") Toy.bob_keyed) w2 =
      (Return None,
       Bob.set_nextExpectedMessage (NotifyContractDeployed "") Toy.bob_keyed, w2)).
Proof.
  split; [reflexivity |].
  apply (@bob_SendKeys_advances_before_verification Toy.lib Toy.host Toy.happy
           Toy.forgedKeys Toy.bob_keyed (Toy.world0 0) 64 4).
  - reflexivity.
  - discriminate.
  - discriminate.
  - discriminate.
  - reflexivity.
  - reflexivity.
  - vm_compute. discriminate.
Defined.

Section Totality.
Context {L : MoneroLib}.

(** C10 (as amended): Bob's [HandleProtocolMessage] returns a reply or an
    error, without crashing, for every message and every session,
    provided that the session keys are set when the message is a
    [NotifyRefund] and that [readyCh] is not closed yet when the message
    is a [NotifyReady] (calls to functions outside the file are taken to
    return).  Nothing is asked of [nextExpectedMessage] or of the
    contract: a [NotifyRefund] delivered while the session awaits
    [SendKeys] and has no contract bound is handled without
    dereferencing the contract. *)
Theorem bob_handler_returns_with_keys :
  forall (host : Host) (O : Oracle) (msg : Message) (s : Bob.swapState) (w : World),
    (forall TxHash, msg = NotifyRefund TxHash -> Bob.privkeys s <> None) ->
    (msg = NotifyReady -> Bob.readyCh s = false) ->
    exists (reply : option Message) (done : bool) (err : option error)
           (s' : Bob.swapState) (w' : World),
      Bob.HandleProtocolMessage host O msg s w = (Return (reply, done, err), s', w').
Proof.
  intros host O msg s w Hk Hch.
  destruct (Bob.HandleProtocolMessage host O msg s w) as [[o s'] w'] eqn:H.
  go_unfold_bob H. go_paths H.
  all: inversion H; subst; clear H.
  all: try solve [do 5 eexists; reflexivity].
  all: try solve [exfalso; eapply Hk; first [reflexivity | eassumption]].
  all: try solve [specialize (Hch eq_refl); congruence].
  all: try solve [cbn in *; discriminate].
Qed.

End Totality.

(** Bob has generated his keys and awaits [SendKeys], with no contract
    bound, when a [NotifyRefund] arrives: the handler returns. *)
Lemma bob_handler_returns_with_keys_witness :
  Type_ (Bob.nextExpectedMessage Toy.bob_keyed) = SendKeysType /\
  Bob.contract Toy.bob_keyed = None /\
  exists reply done err s' w',
    Bob.HandleProtocolMessage Toy.host Toy.happy (NotifyRefund "0x1") Toy.bob_keyed
      (Toy.world0 0) = (Return (reply, done, err), s', w').
Proof.
  split; [reflexivity |]. split; [reflexivity |].
  apply (@bob_handler_returns_with_keys Toy.lib Toy.host Toy.happy (NotifyRefund "0x1")
           Toy.bob_keyed (Toy.world0 0)).
  - intros TxHash _. vm_compute. discriminate.
  - discriminate.
Defined.

(** C10 (counterexample to the claim as stated): a session fresh from
    [newSwapState], whose keys are not generated yet, receives
    [NotifyRefund] for a transaction with a [Refunded] log; the gate
    accepts the message and the handler dereferences the unset
    [privkeys].  And a session with its keys, which has handled
    [NotifyReady], receives [NotifyReady] again; the gate accepts it and
    the handler closes [readyCh] a second time. *)
Lemma bob_handler_panics_counterexample :
  (Type_ (Bob.nextExpectedMessage Toy.bob_fresh) = SendKeysType /\
   Bob.privkeys Toy.bob_fresh = None /\
   Bob.checkMessageType (NotifyRefund "0x1") Toy.bob_fresh (Toy.world0 0) =
     (Return None, Toy.bob_fresh, Toy.world0 0) /\
   Bob.HandleProtocolMessage Toy.host Toy.happy (NotifyRefund "0x1") Toy.bob_fresh
     (Toy.world0 0) =
   (Panic "invalid memory address or nil pointer dereference", Toy.bob_fresh,
    record_call (TransactionReceipt "0x1" (Ok [repeat Byte.x01 32])) (Toy.world0 0))) /\
  (Bob.privkeys (Toy.state_of Toy.bob_claimed_run) <> None /\
   Bob.checkMessageType NotifyReady (Toy.state_of Toy.bob_claimed_run)
     (Toy.world_of Toy.bob_claimed_run) =
     (Return None, Toy.state_of Toy.bob_claimed_run, Toy.world_of Toy.bob_claimed_run) /\
   Bob.HandleProtocolMessage Toy.host Toy.happy NotifyReady
     (Toy.state_of Toy.bob_claimed_run) (Toy.world_of Toy.bob_claimed_run) =
   (Panic "close of closed channel", Toy.state_of Toy.bob_claimed_run,
    Toy.world_of Toy.bob_claimed_run)).
Proof.
  split.
  - split; [reflexivity |]. split; [reflexivity |]. split; [reflexivity |].
    apply (@bob_NotifyRefund_without_keys_panics Toy.lib Toy.host Toy.happy "0x1"
             Toy.bob_fresh (Toy.world0 0) (repeat Byte.x01 32) [] (repeat Byte.x01 32)
             32 33); reflexivity.
  - split; [vm_compute; discriminate |].
    split; vm_compute; reflexivity.
Qed.

Section RefundRecovery.
Context {L : MoneroLib}.

Lemma abi_Unpack_Refunded_length :
  forall (data : list Byte.byte) (sa : byte32),
    abi_Unpack_Refunded data = Ok sa -> sa = firstn 32 data /\ List.length sa = 32%nat.
Proof.
  intros data sa H. unfold abi_Unpack_Refunded in H.
  destruct (List.length data <? 32)%nat eqn:Hlen; [discriminate |].
  assert (Hsa : sa = firstn 32 data) by congruence.
  subst sa. clear H. split; [reflexivity |].
  apply Nat.ltb_ge in Hlen. rewrite length_firstn. lia.
Qed.

(** An equation [Hknown : x = v] against the equation on [x] that the
    split of the paths left in the context. *)
Ltac unify_eq Hknown :=
  match type of Hknown with
  | ?x = _ =>
      match goal with
      | E : x = _ |- _ =>
          tryif constr_eq E Hknown then fail
          else (rewrite Hknown in E;
                first [discriminate E | injection E; clear E; intros; subst])
      end
  end.

Ltac settle H :=
  first [ discriminate H
        | unify_eq H
        | progress (injection H; clear H; intros; subst)
        | idtac ].

(** C8: when Bob handles [NotifyRefund] for a transaction hash, the
    spendable wallet is created, and the success flag set, only after the
    32-byte secret was decoded from the first log of that transaction's
    receipt, the joint key pair computed as the sums of Alice's keys (her
    spend key from the secret, her view key derived from it) and Bob's
    own, and that key pair written, without error, to
    [<basepath>/<id>/swap-secret]; and whenever the receipt and the
    secret decode, the key file is the first thing written. *)
Theorem bob_refund_writes_keys_before_wallet :
  forall (host : Host) (O : Oracle) (TxHash : string) (s : Bob.swapState) (w : World)
         (o : outcome Reply Reply) (s' : Bob.swapState) (w' : World) (evs : list Call),
    Bob.HandleProtocolMessage host O (NotifyRefund TxHash) s w = (o, s', w') ->
    calls w' = calls w ++ evs ->
    ((exists kp name pw e err, In (GenerateFromKeys kp name pw e err) evs) \/
     (Bob.success s = false /\ Bob.success s' = true) ->
     exists data logs sa skA vkA priv name err rest,
       evs = TransactionReceipt TxHash (Ok (data :: logs))
             :: WriteKeysToFile
                  (basepath host ++ "/" ++ fmt_d (Bob.id s) ++ "/swap-secret")%string
                  (NewPrivateKeyPair (SumPrivateSpendKeys skA (priv_sk priv))
                                     (SumPrivateViewKeys vkA (priv_vk priv)))
                  (env host) None
             :: GenerateFromKeys
                  (NewPrivateKeyPair (SumPrivateSpendKeys skA (priv_sk priv))
                                     (SumPrivateViewKeys vkA (priv_vk priv)))
                  name "" (env host) err
             :: rest /\
       abi_Unpack_Refunded data = Ok sa /\
       List.length sa = 32%nat /\
       NewPrivateSpendKey sa = Ok skA /\
       PrivateSpendKey_View skA = Ok vkA /\
       Bob.privkeys s = Some priv) /\
    (forall data logs sa skA vkA priv,
        on_TransactionReceipt O w TxHash = Ok (data :: logs) ->
        SwapABI_JSON host = None ->
        abi_Unpack_Refunded data = Ok sa ->
        NewPrivateSpendKey sa = Ok skA ->
        PrivateSpendKey_View skA = Ok vkA ->
        Bob.privkeys s = Some priv ->
        exists err rest,
          evs = TransactionReceipt TxHash (Ok (data :: logs))
                :: WriteKeysToFile
                     (basepath host ++ "/" ++ fmt_d (Bob.id s) ++ "/swap-secret")%string
                     (NewPrivateKeyPair (SumPrivateSpendKeys skA (priv_sk priv))
                                        (SumPrivateViewKeys vkA (priv_vk priv)))
                     (env host) err
                :: rest).
Proof.
  intros host O TxHash s w o s' w' evs H Hc.
  go_unfold_bob H. go_paths H.
  all: finish_path H Hc.
  all: split;
    [ intros [(kp & name & pw & e' & err & Hin) | [Hs Hs']]
    | intros data logs sa skA vkA priv' Hr Habi Hsa Hsk Hvk Hp ].
  all: try solve [in_list Hin].
  all: try solve [cbn in Hs'; congruence].
  all: try solve [congruence].
  all: try match goal with
       | E : abi_Unpack_Refunded _ = Ok _ |- ex _ =>
           pose proof (abi_Unpack_Refunded_length _ E) as [_ Hlen]
       end.
  all: try solve [do 9 eexists; split; [reflexivity |]; repeat split; eassumption].
  all: settle Hr; settle Habi; settle Hsa; settle Hsk; settle Hvk; settle Hp.
  all: try solve [cbn in *; discriminate].
  all: do 2 eexists; reflexivity.
Qed.

End RefundRecovery.

(** Bob, with his keys generated, handles [NotifyRefund]: the key file is
    written before the wallet is created. *)
Lemma bob_refund_writes_keys_before_wallet_witness :
  exists name err rest,
    calls (Toy.world_of
             (Bob.HandleProtocolMessage Toy.host Toy.happy (NotifyRefund "0x1")
                Toy.bob_keyed (Toy.world0 0))) =
    TransactionReceipt "0x1" (Ok [repeat Byte.x01 32])
    :: WriteKeysToFile (L := Toy.lib) "/tmp/swap/0/swap-secret"
         (NewPrivateKeyPair (L := Toy.lib) 37 40) tt None
    :: GenerateFromKeys (L := Toy.lib) (NewPrivateKeyPair (L := Toy.lib) 37 40)
         name "" tt err
    :: rest.
Proof.
  remember (Bob.HandleProtocolMessage Toy.host Toy.happy (NotifyRefund "0x1")
              Toy.bob_keyed (Toy.world0 0)) as run eqn:Hrun.
  assert (Heq : Bob.HandleProtocolMessage Toy.host Toy.happy (NotifyRefund "0x1")
                  Toy.bob_keyed (Toy.world0 0) =
                (fst (fst run), Toy.state_of run, Toy.world_of run))
    by (rewrite Hrun; vm_compute; reflexivity).
  destruct (@bob_refund_writes_keys_before_wallet Toy.lib _ _ _ _ _ _ _ _
              (calls (Toy.world_of run)) Heq) as [H _].
  - rewrite Hrun. vm_compute. reflexivity.
  - destruct H as (data & logs & sa & skA & vkA & priv & name & err & rest
                   & Hev & Hsa & _ & Hsk & Hvk & Hp).
    + right. rewrite Hrun. vm_compute. split; reflexivity.
    + exists name, err, rest. rewrite Hev.
      assert (Hr : calls (Toy.world_of run) <> []) by (rewrite Hev; discriminate).
      rewrite Hrun in Hev. vm_compute in Hev.
      inversion Hev; subst. vm_compute in Hsa. inversion Hsa; subst.
      vm_compute in Hsk. inversion Hsk; subst.
      vm_compute in Hvk. inversion Hvk; subst.
      vm_compute in Hp. inversion Hp; subst. reflexivity.
Defined.

Section Duplicates.
Context {L : MoneroLib}.

(** C5 (as amended): once a session has accepted, without error, a
    message of a kind past which its handler advances
    [nextExpectedMessage] ([SendKeys] on both sides, [NotifyXMRLock] for
    Alice, [NotifyContractDeployed] for Bob), a second message of that
    kind makes [HandleProtocolMessage] return the error of the gate and
    leaves the session and the world as they were. *)
Theorem duplicate_rejected_once_gate_advanced :
  forall (host : Host) (O : Oracle) (msg dup : Message) (ss ss1 : SwapState)
         (w w1 w2 : World) (reply : option Message) (done : bool),
    SwapState_HandleProtocolMessage host O msg ss w =
      (Return (reply, done, None), ss1, w1) ->
    match ss with
    | AliceSwap _ => Type_ msg = SendKeysType \/ Type_ msg = NotifyXMRLockType
    | BobSwap _ => Type_ msg = SendKeysType \/ Type_ msg = NotifyContractDeployedType
    end ->
    Type_ dup = Type_ msg ->
    SwapState_HandleProtocolMessage host O dup ss1 w2 =
      (Return (None, true, Some (errors_New "received unexpected message")), ss1, w2).
Proof.
  intros host O msg dup ss ss1 w w1 w2 reply done H Hk Hdup.
  destruct ss as [s | s]; cbn in H.
  - destruct (Alice.HandleProtocolMessage host O msg s w) as [[o s'] w'] eqn:Hrun.
    inversion H; subst; clear H.
    go_unfold_alice Hrun. go_paths Hrun.
    all: inversion Hrun; subst; clear Hrun.
    all: cbn in Hk; destruct Hk as [Hk | Hk]; try discriminate Hk.
    all: destruct dup; cbn in Hdup; try discriminate Hdup.
    all: reflexivity.
  - destruct (Bob.HandleProtocolMessage host O msg s w) as [[o s'] w'] eqn:Hrun.
    inversion H; subst; clear H.
    go_unfold_bob Hrun. go_paths Hrun.
    all: inversion Hrun; subst; clear Hrun.
    all: cbn in Hk; destruct Hk as [Hk | Hk]; try discriminate Hk.
    all: destruct dup; cbn in Hdup; try discriminate Hdup.
    all: reflexivity.
Qed.

End Duplicates.

(** Bob has accepted the peer's [SendKeys]; a second [SendKeys] is
    rejected by the gate. *)
Lemma duplicate_rejected_once_gate_advanced_witness :
  SwapState_HandleProtocolMessage Toy.host Toy.happy (SendKeys Toy.forgedKeys)
    (BobSwap Toy.bob_verified) (Toy.world0 Toy.second) =
  (Return (None, true, Some (errors_New "received unexpected message")),
   BobSwap Toy.bob_verified, Toy.world0 Toy.second).
Proof.
  assert (Hrun : SwapState_HandleProtocolMessage Toy.host Toy.happy
                   (SendKeys Toy.peerKeys) (BobSwap Toy.bob_keyed) (Toy.world0 0) =
                 (Return (None, false, None), BobSwap Toy.bob_verified,
                  {| clock := 0; wallet := Some OwnWallet; nextID := 0;
                     calls := [GenerateViewOnlyWalletFromKeys (L := Toy.lib) 64 "3/2"
                                 "alice-viewonly-wallet-0" "" None;
                               CloseWallet None; OpenWallet None] |}))
    by (vm_compute; reflexivity).
  apply (@duplicate_rejected_once_gate_advanced Toy.lib _ _ _ (SendKeys Toy.forgedKeys)
           _ _ _ _ (Toy.world0 Toy.second) _ _ Hrun).
  - left. reflexivity.
  - reflexivity.
Defined.

(** C5 (counterexample to the claim as stated): Bob accepts
    [NotifyReady] and claims; a second [NotifyReady] passes the gate,
    since [nextExpectedMessage] is still [NotifyReady], and the handler
    panics on closing [readyCh] again instead of returning an error.
    Likewise for Alice and a second [NotifyClaimed]. *)
Lemma duplicate_terminal_message_counterexample :
  (Bob.HandleProtocolMessage Toy.host Toy.happy NotifyReady Toy.bob_locked
     (Toy.world0 (50 * Toy.second)) = Toy.bob_claimed_run /\
   fst (fst Toy.bob_claimed_run) = Return (Some (NotifyClaimed "0xclaim"), true, None) /\
   Bob.HandleProtocolMessage Toy.host Toy.happy NotifyReady
     (Toy.state_of Toy.bob_claimed_run) (Toy.world_of Toy.bob_claimed_run) =
   (Panic "close of closed channel", Toy.state_of Toy.bob_claimed_run,
    Toy.world_of Toy.bob_claimed_run)) /\
  (Alice.HandleProtocolMessage Toy.host Toy.happy (NotifyClaimed "0xclaim")
     (Toy.state_of Toy.alice_ready_run) (Toy.world_of Toy.alice_ready_run) =
   Toy.alice_claimed_run /\
   fst (fst Toy.alice_claimed_run) = Return (None, true, None) /\
   fst (fst (Alice.HandleProtocolMessage Toy.host Toy.happy (NotifyClaimed "0xclaim")
               (Toy.state_of Toy.alice_claimed_run) (Toy.world_of Toy.alice_claimed_run))) =
   Panic "close of closed channel").
Proof.
  repeat split; vm_compute; reflexivity.
Qed.

Section SuccessFlag.
Context {L : MoneroLib}.

Ltac go_unfold_bob_step H :=
  unfold Bob_step, Bob_drive, Bob.ProtocolComplete, Bob.tryClaim, Bob_claimAtT0 in H;
  go_unfold_bob H.

(** One step only adds calls to the log. *)
Lemma Bob_step_calls :
  forall (host : Host) (O : Oracle) (ev : BobEvent) (s s' : Bob.swapState) (w w' : World),
    Bob_step O host ev s w = (s', w') ->
    exists evs, calls w' = calls w ++ evs.
Proof.
  intros host O ev s s' w w' H.
  go_unfold_bob_step H. go_paths H.
  all: inversion H; subst; clear H.
  all: cbn -[String.append]; rewrite <- ?app_assoc;
    first [ eexists; reflexivity | exists []; symmetry; apply app_nil_r ].
Qed.

(** The success flag over one step. *)
Lemma Bob_step_success :
  forall (host : Host) (O : Oracle) (ev : BobEvent) (s s' : Bob.swapState)
         (w w' : World) (evs : list Call),
    Bob_step O host ev s w = (s', w') ->
    calls w' = calls w ++ evs ->
    (Bob.success s = true -> Bob.success s' = true) /\
    (Bob.success s = false -> Bob.success s' = true ->
       (exists t tx, In (Claim t (Ok tx)) evs) \/
       (exists kp name balance,
           In (GenerateFromKeys kp name "" (env host) None) evs /\
           In (Refresh None) evs /\
           In (GetBalance 0 (Ok balance)) evs)) /\
    (forall t tx, In (Claim t (Ok tx)) evs -> Bob.success s' = true) /\
    (forall account balance, In (GetBalance account (Ok balance)) evs ->
                             Bob.success s' = true).
Proof.
  intros host O ev s s' w w' evs H Hc.
  go_unfold_bob_step H. go_paths H.
  all: finish_path H Hc.
  all: split; [intro Hs; cbn; first [reflexivity | assumption | congruence] |].
  all: split; [intros Hs Hs' | split; [intros t tx Hin | intros acc bal Hin]].
  all: try solve [cbn in Hs'; congruence].
  all: try solve [in_list Hin].
  all: try solve [cbn; reflexivity].
  all: try solve [left; do 2 eexists; cbn; tauto].
  all: try solve [right; do 3 eexists; cbn; repeat split; tauto].
Qed.

Lemma Bob_run_calls :
  forall (host : Host) (O : Oracle) (evl : list BobEvent) (s s' : Bob.swapState)
         (w w' : World),
    Bob_run O host evl s w = (s', w') ->
    exists evs, calls w' = calls w ++ evs.
Proof.
  intros host O evl. induction evl as [| ev rest IH]; intros s s' w w' H; cbn in H.
  - inversion H; subst. exists []. symmetry. apply app_nil_r.
  - destruct (Bob_step O host ev s w) as [s1 w1] eqn:Hstep.
    destruct (@Bob_step_calls host O ev s s1 w w1 Hstep) as [evs1 H1].
    destruct (IH s1 s' w1 w' H) as [evs2 H2].
    exists (evs1 ++ evs2). rewrite H2, H1, app_assoc. reflexivity.
Qed.

(** C6 (as amended): in every execution of Bob's session, whatever acts
    on it in whatever order (messages, the closure of the stream, the
    goroutine that claims at t0), the success flag is never reset, and it
    is set exactly when a claim has succeeded or the wallet on the joint
    keys was created and then refreshed and its balance read without
    error; so whenever a claim succeeds the session ends with the flag
    set. *)
Theorem bob_success_latch :
  forall (host : Host) (O : Oracle) (evl : list BobEvent) (s s' : Bob.swapState)
         (w w' : World) (evs : list Call),
    Bob_run O host evl s w = (s', w') ->
    calls w' = calls w ++ evs ->
    (Bob.success s = true -> Bob.success s' = true) /\
    (Bob.success s = false ->
       (Bob.success s' = true <->
        (exists t tx, In (Claim t (Ok tx)) evs) \/
        (exists kp name balance,
            In (GenerateFromKeys kp name "" (env host) None) evs /\
            In (Refresh None) evs /\
            In (GetBalance 0 (Ok balance)) evs))) /\
    (forall t tx, In (Claim t (Ok tx)) evs -> Bob.success s' = true).
Proof.
  intros host O evl s s' w w' evs H Hc.
  assert (Hall :
    (Bob.success s = true -> Bob.success s' = true) /\
    (Bob.success s = false -> Bob.success s' = true ->
       (exists t tx, In (Claim t (Ok tx)) evs) \/
       (exists kp name balance,
           In (GenerateFromKeys kp name "" (env host) None) evs /\
           In (Refresh None) evs /\
           In (GetBalance 0 (Ok balance)) evs)) /\
    (forall t tx, In (Claim t (Ok tx)) evs -> Bob.success s' = true) /\
    (forall account balance, In (GetBalance account (Ok balance)) evs ->
                             Bob.success s' = true)).
  { revert s s' w w' evs H Hc.
    induction evl as [| ev rest IH]; intros s s' w w' evs H Hc; cbn in H.
    - inversion H; subst. apply app_self_nil in Hc. subst evs.
      repeat split; try tauto; try congruence; intros; contradiction.
    - destruct (Bob_step O host ev s w) as [s1 w1] eqn:Hstep.
      destruct (@Bob_step_calls host O ev s s1 w w1 Hstep) as [evs1 H1].
      destruct (@Bob_run_calls host O rest s1 s' w1 w' H) as [evs2 H2].
      assert (evs = evs1 ++ evs2) as ->.
      { rewrite H2, H1, <- app_assoc in Hc. apply app_same_head in Hc.
        symmetry. exact Hc. }
      destruct (@Bob_step_success host O ev s s1 w w1 evs1 Hstep H1) as (M1 & F1 & C1 & B1).
      destruct (IH s1 s' w1 w' evs2 H H2) as (M2 & F2 & C2 & B2).
      split; [auto |].
      split.
      + intros Hs Hs'. destruct (Bob.success s1) eqn:Hs1.
        * destruct (F1 Hs eq_refl) as [(t & tx & Hin) | (kp & name & b & Hg & Hr & Hb)].
          -- left. exists t, tx. apply in_or_app. left. exact Hin.
          -- right. exists kp, name, b.
             repeat split; apply in_or_app; left; assumption.
        * destruct (F2 eq_refl Hs') as [(t & tx & Hin) | (kp & name & b & Hg & Hr & Hb)].
          -- left. exists t, tx. apply in_or_app. right. exact Hin.
          -- right. exists kp, name, b.
             repeat split; apply in_or_app; right; assumption.
      + split.
        * intros t tx Hin. apply in_app_or in Hin. destruct Hin as [Hin | Hin].
          -- apply M2. exact (C1 _ _ Hin).
          -- exact (C2 _ _ Hin).
        * intros acc b Hin. apply in_app_or in Hin. destruct Hin as [Hin | Hin].
          -- apply M2. exact (B1 _ _ Hin).
          -- exact (B2 _ _ Hin). }
  destruct Hall as (M & F & C & B).
  split; [exact M |]. split; [| exact C].
  intro Hs. split; [exact (F Hs) |].
  intros [(t & tx & Hin) | (kp & name & b & _ & _ & Hb)].
  - exact (C _ _ Hin).
  - exact (B _ _ Hb).
Qed.

End SuccessFlag.

(** Bob handles [NotifyContractDeployed] at 0 s and locks his funds; the
    goroutine started by the handler fires at t0 = 100 s and claims: the
    flag is set. *)
Lemma bob_success_latch_witness :
  exists s' w',
    Bob_run Toy.happy Toy.host
      [BobNet (Deliver (NotifyContractDeployed "0xc0ffee")); BobWatchdog TimerFired]
      Toy.bob_verified (Toy.world0 0) = (s', w') /\
    Bob.success Toy.bob_verified = false /\
    In (Claim (100 * Toy.second) (Ok "0xclaim")) (calls w') /\
    Bob.success s' = true.
Proof.
  destruct (Bob_run Toy.happy Toy.host
              [BobNet (Deliver (NotifyContractDeployed "0xc0ffee")); BobWatchdog TimerFired]
              Toy.bob_verified (Toy.world0 0)) as [s' w'] eqn:Hrun.
  exists s', w'. split; [reflexivity |]. split; [reflexivity |].
  assert (Hin : In (Claim (L := Toy.lib) (100 * Toy.second) (Ok "0xclaim")) (calls w')).
  { vm_compute in Hrun. inversion Hrun; subst. cbn. tauto. }
  split; [exact Hin |].
  destruct (@bob_success_latch Toy.lib _ _ _ _ _ _ _ (calls w') Hrun eq_refl)
    as (_ & _ & H).
  exact (H _ _ Hin).
Defined.

(** C6 (counterexample to the claim as stated): Bob handles
    [NotifyRefund]; the spendable wallet on the joint keys is created,
    the refresh that follows fails, and the handler returns with the
    success flag unset. *)
Lemma bob_wallet_created_without_success_counterexample :
  Bob.HandleProtocolMessage Toy.host Toy.refreshFails (NotifyRefund "0x1") Toy.bob_locked
    (Toy.world0 (50 * Toy.second)) = Toy.bob_refresh_fails_run /\
  In (GenerateFromKeys (L := Toy.lib) (NewPrivateKeyPair (L := Toy.lib) 37 40)
        "bob-swap-wallet-50000000000" "" tt None)
     (calls (Toy.world_of Toy.bob_refresh_fails_run)) /\
  wallet (Toy.world_of Toy.bob_refresh_fails_run) =
    Some (SpendWallet "bob-swap-wallet-50000000000") /\
  Bob.success (Toy.state_of Toy.bob_refresh_fails_run) = false.
Proof.
  split; [vm_compute; reflexivity |].
  split; [cbn; tauto |].
  split; reflexivity.
Qed.
(** * Further properties *)

Section GateEffects.
Context {L : MoneroLib}.

(** X1: a message that the gate of the session rejects (its kind is not
    the kind of [nextExpectedMessage], and for Bob it is no
    [NotifyRefund]) makes [HandleProtocolMessage] return
    [(nil, true, "received unexpected message")] and changes neither the
    session nor the world: no collaborator is called. *)
Theorem rejected_message_has_no_effect :
  forall (host : Host) (O : Oracle) (msg : Message) (ss : SwapState) (w : World),
    match ss with
    | AliceSwap s => Type_ msg <> Type_ (Alice.nextExpectedMessage s)
    | BobSwap s =>
        Type_ msg <> NotifyRefundType /\ Type_ msg <> Type_ (Bob.nextExpectedMessage s)
    end ->
    SwapState_HandleProtocolMessage host O msg ss w =
      (Return (None, true, Some (errors_New "received unexpected message")), ss, w).
Proof.
  intros host O msg ss w H.
  destruct ss as [s | s]; unfold SwapState_HandleProtocolMessage.
  - unfold Alice.HandleProtocolMessage, Alice.checkMessageType, bind, callf, get,
      when_, return_, ret, return_if_err.
    destruct msg; destruct (Alice.nextExpectedMessage s); cbn in H;
      try congruence; reflexivity.
  - unfold Bob.HandleProtocolMessage, Bob.checkMessageType, bind, callf, get,
      when_, return_, ret, return_if_err.
    destruct H as [H1 H2].
    destruct msg; destruct (Bob.nextExpectedMessage s); cbn in H1, H2;
      try congruence; reflexivity.
Qed.

(** X2: Alice rejects a [SendKeys] message with an empty field before
    anything else happens: [errMissingKeys] when the public spend key or
    the private view key is empty, else [errMissingSpendKeyHash] when the
    hash is empty, else [errMissingAddress] when the ETH address is
    empty.  The session and the world are unchanged. *)
Theorem alice_SendKeys_missing_field :
  forall (host : Host) (O : Oracle) (m : SendKeysMessage) (s : Alice.swapState)
         (w : World),
    Type_ (Alice.nextExpectedMessage s) = SendKeysType ->
    msgPublicSpendKey m = "" \/ msgPrivateViewKey m = "" \/
    msgSpendKeyHash m = "" \/ msgEthAddress m = "" ->
    Alice.HandleProtocolMessage host O (SendKeys m) s w =
      (Return (None, true,
               Some (if ((msgPublicSpendKey m =? "") || (msgPrivateViewKey m =? ""))%string
                     then Alice.errMissingKeys
                     else if (msgSpendKeyHash m =? "")%string
                          then Alice.errMissingSpendKeyHash
                          else Alice.errMissingAddress)),
       s, w).
Proof.
  intros host O m s w Hk Hempty.
  unfold Alice.HandleProtocolMessage, Alice.checkMessageType, Alice.handleSendKeysMessage.
  unfold bind, ret, return_, callf, get, return_if_err, try_, when_.
  cbn -[String.eqb]. rewrite Hk. cbn -[String.eqb].
  destruct ((msgPublicSpendKey m =? "") || (msgPrivateViewKey m =? ""))%string eqn:E1;
    [reflexivity |].
  destruct (msgSpendKeyHash m =? "")%string eqn:E2; [reflexivity |].
  destruct (msgEthAddress m =? "")%string eqn:E3; [reflexivity |].
  exfalso. apply orb_false_iff in E1. destruct E1 as [E0 E1].
  apply String.eqb_neq in E0, E1, E2, E3. tauto.
Qed.

(** X3: Bob rejects a [SendKeys] message with an empty public spend key
    or private view key with [errMissingKeys], else one with an empty
    spend-key hash, before anything else happens; the session and the
    world are unchanged. *)
Theorem bob_SendKeys_missing_field :
  forall (host : Host) (O : Oracle) (m : SendKeysMessage) (s : Bob.swapState)
         (w : World),
    Type_ (Bob.nextExpectedMessage s) = SendKeysType ->
    msgPublicSpendKey m = "" \/ msgPrivateViewKey m = "" \/ msgSpendKeyHash m = "" ->
    Bob.HandleProtocolMessage host O (SendKeys m) s w =
      (Return (None, true,
               Some (if ((msgPublicSpendKey m =? "") || (msgPrivateViewKey m =? ""))%string
                     then Bob.errMissingKeys
                     else errors_New "did not receive SpendKeyHash")),
       s, w).
Proof.
  intros host O m s w Hk Hempty.
  unfold Bob.HandleProtocolMessage, Bob.checkMessageType, Bob.handleSendKeysMessage.
  unfold bind, ret, return_, callf, get, return_if_err, try_, when_.
  cbn -[String.eqb]. rewrite Hk. cbn -[String.eqb].
  destruct ((msgPublicSpendKey m =? "") || (msgPrivateViewKey m =? ""))%string eqn:E1;
    [reflexivity |].
  destruct (msgSpendKeyHash m =? "")%string eqn:E2; [reflexivity |].
  exfalso. apply orb_false_iff in E1. destruct E1 as [E0 E1].
  apply String.eqb_neq in E0, E1, E2. tauto.
Qed.

(** X4: when Alice handles [NotifyXMRLock], either nothing happens (no
    collaborator is called and the session is unchanged: the gate, the
    empty-address check or the address check rejected the message, or a
    key is unset), or the address of the message is not empty and is the
    address of the joint keys, the sum of Bob's and Alice's public spend
    keys and the public key of the sum of their private view keys, and
    the first call opens the view-only wallet on that view key and
    address. *)
Theorem alice_lock_address_is_joint_address :
  forall (host : Host) (O : Oracle) (a : string) (s : Alice.swapState) (w : World)
         (o : outcome Reply Reply) (s' : Alice.swapState) (w' : World) (evs : list Call),
    Alice.HandleProtocolMessage host O (NotifyXMRLock a) s w = (o, s', w') ->
    calls w' = calls w ++ evs ->
    (evs = [] /\ s' = s /\ w' = w) \/
    (exists priv bvk pub bsk name err rest,
        Alice.privkeys s = Some priv /\
        Alice.bobPrivateViewKey s = Some bvk /\
        Alice.pubkeys s = Some pub /\
        Alice.bobPublicSpendKey s = Some bsk /\
        a <> "" /\
        a = PublicKeyPair_Address
              (NewPublicKeyPair (SumPublicKeys bsk (pub_sk pub))
                 (PrivateViewKey_Public (SumPrivateViewKeys bvk (priv_vk priv))))
              (env host) /\
        evs = GenerateViewOnlyWalletFromKeys (SumPrivateViewKeys bvk (priv_vk priv))
                a name "" err :: rest).
Proof.
  intros host O a s w o s' w' evs H Hc.
  go_unfold_alice H. go_paths H.
  all: finish_path H Hc.
  all: try solve [left; repeat split; reflexivity].
  all: right.
  all: match goal with
       | E : negb (String.eqb _ (PublicKeyPair_Address _ _)) = false |- _ =>
           apply negb_false_iff in E; apply String.eqb_eq in E
       end.
  all: match goal with
       | E : String.eqb _ "" = false |- _ => apply String.eqb_neq in E
       end.
  all: do 7 eexists; repeat split; try eassumption; try reflexivity.
  all: match goal with E : _ = PublicKeyPair_Address _ _ |- _ => rewrite <- E end;
       reflexivity.
Qed.

(** X5: two sessions created one after the other get different ids, the
    first the value of the counter, and the counter stays a [uint64];
    this holds in both packages. *)
Theorem newSwapState_ids :
  forall (w : World) (pa da pb db : Z),
    0 <= nextID w < 2 ^ 64 ->
    let a1 := Alice.newSwapState pa da w in
    let a2 := Alice.newSwapState pb db (snd a1) in
    let b1 := Bob.newSwapState pa da w in
    let b2 := Bob.newSwapState pb db (snd b1) in
    Alice.id (fst a1) = nextID w /\ Alice.id (fst a2) <> Alice.id (fst a1) /\
    0 <= nextID (snd a2) < 2 ^ 64 /\
    Bob.id (fst b1) = nextID w /\ Bob.id (fst b2) <> Bob.id (fst b1) /\
    0 <= nextID (snd b2) < 2 ^ 64.
Proof.
  intros w pa da pb db Hn. cbn. unfold uint64_wrap.
  assert (Hm : forall n, 0 <= n < 2 ^ 64 -> (n + 1) mod 2 ^ 64 <> n).
  { intros n Hr Heq. destruct (Z.eq_dec n (2 ^ 64 - 1)) as [-> | Hne].
    - vm_compute in Heq. discriminate.
    - rewrite Z.mod_small in Heq by lia. lia. }
  pose proof (Z.mod_pos_bound (nextID w + 1) (2 ^ 64) ltac:(lia)).
  pose proof (Z.mod_pos_bound ((nextID w + 1) mod 2 ^ 64 + 1) (2 ^ 64) ltac:(lia)).
  repeat split; try lia; apply Hm; assumption.
Qed.

End GateEffects.

Lemma rejected_message_has_no_effect_witness :
  SwapState_HandleProtocolMessage Toy.host Toy.happy NotifyReady
    (BobSwap Toy.bob_verified) (Toy.world0 0) =
  (Return (None, true, Some (errors_New "received unexpected message")),
   BobSwap Toy.bob_verified, Toy.world0 0).
Proof.
  apply (@rejected_message_has_no_effect Toy.lib Toy.host Toy.happy NotifyReady
           (BobSwap Toy.bob_verified) (Toy.world0 0)).
  split; discriminate.
Defined.

Lemma alice_SendKeys_missing_field_witness :
  Alice.HandleProtocolMessage Toy.host Toy.happy (SendKeys Alice.emptySendKeys)
    Toy.alice_keyed (Toy.world0 0) =
  (Return (None, true, Some Alice.errMissingKeys), Toy.alice_keyed, Toy.world0 0).
Proof.
  apply (@alice_SendKeys_missing_field Toy.lib Toy.host Toy.happy Alice.emptySendKeys
           Toy.alice_keyed (Toy.world0 0)).
  - reflexivity.
  - left. reflexivity.
Defined.

Lemma bob_SendKeys_missing_field_witness :
  Bob.HandleProtocolMessage Toy.host Toy.happy (SendKeys Bob.emptySendKeys)
    Toy.bob_keyed (Toy.world0 0) =
  (Return (None, true, Some Bob.errMissingKeys), Toy.bob_keyed, Toy.world0 0).
Proof.
  apply (@bob_SendKeys_missing_field Toy.lib Toy.host Toy.happy Bob.emptySendKeys
           Toy.bob_keyed (Toy.world0 0)).
  - reflexivity.
  - left. reflexivity.
Defined.

(** A [NotifyXMRLock] for another address than the joint one. *)
Lemma alice_lock_address_is_joint_address_witness :
  Alice.HandleProtocolMessage Toy.host Toy.happy (NotifyXMRLock "9/99")
    Toy.alice_deployed (Toy.world0 0) =
  (Return (None, true,
           Some (fmt_Errorf "address received in message does not match expected address")),
   Toy.alice_deployed, Toy.world0 0) /\
  "9/99" <> Toy.jointAddress.
Proof.
  assert (Hrun : Alice.HandleProtocolMessage Toy.host Toy.happy (NotifyXMRLock "9/99")
                   Toy.alice_deployed (Toy.world0 0) =
                 (Return (None, true,
                          Some (fmt_Errorf
                            "address received in message does not match expected address")),
                  Toy.alice_deployed, Toy.world0 0))
    by (vm_compute; reflexivity).
  split; [exact Hrun |].
  destruct (@alice_lock_address_is_joint_address Toy.lib _ _ _ _ _ _ _ _ [] Hrun eq_refl)
    as [_ | (priv & bvk & pub & bsk & name & err & rest & _ & _ & _ & _ & _ & _ & Hev)];
    [discriminate | discriminate Hev].
Defined.

Lemma newSwapState_ids_witness :
  Alice.id (fst (Alice.newSwapState 10 1000 (Toy.world0 0))) = 0 /\
  Alice.id (fst (Alice.newSwapState 10 1000
                   (snd (Alice.newSwapState 10 1000 (Toy.world0 0))))) <> 0.
Proof.
  destruct (@newSwapState_ids Toy.lib (Toy.world0 0) 10 1000 10 1000) as (H1 & H2 & _).
  - cbn. lia.
  - split; [exact H1 | exact H2].
Defined.

Section AliceKeys.
Context {L : MoneroLib}.

Lemma hex_DecodeString_length_upto :
  forall (n : nat) (s : string) (l : list Byte.byte),
    (String.length s <= n)%nat ->
    hex_DecodeString s = Ok l -> String.length s = (2 * List.length l)%nat.
Proof.
  induction n as [| n IH]; intros s l Hn H.
  - destruct s; cbn in Hn; [| lia]. cbn in H. inversion H. reflexivity.
  - destruct s as [| a [| b rest]].
    + cbn in H. inversion H. reflexivity.
    + cbn in H. destruct (fromHexChar a); discriminate.
    + cbn in H. destruct (fromHexChar a); [| discriminate].
      destruct (fromHexChar b); [| discriminate].
      destruct (hex_DecodeString rest) as [l' |] eqn:Hrest; [| discriminate].
      inversion H; subst. cbn in Hn. cbn [String.length List.length].
      rewrite (IH rest l') by (lia || assumption). lia.
Qed.

(** [hex.DecodeString] succeeds only on strings of even length, and the
    bytes it returns are half as many as the characters. *)
Lemma hex_DecodeString_length :
  forall (s : string) (l : list Byte.byte),
    hex_DecodeString s = Ok l -> String.length s = (2 * List.length l)%nat.
Proof.
  intros s l H.
  apply hex_DecodeString_length_upto with (n := String.length s); [lia | exact H].
Qed.

(** X6: whatever message Alice handles, the escrow is deployed only for
    a [SendKeys] message, with [providesAmount], and only after Bob's
    keys were verified: the spend-key hash is 64 hex characters (32
    bytes), the view key derived from it and the announced view key have
    the same hex form, the ETH address is not empty, and a view-only
    wallet was opened without error on Bob's keys, that is on the
    announced view key and on the address of the key pair made of the
    announced public spend key and the public key of that view key, and
    closed without error.  By then the hash is stored in [bobClaimHash]
    and the gate awaits [NotifyXMRLock]. *)
Theorem alice_deploys_only_after_verification :
  forall (host : Host) (O : Oracle) (msg : Message) (s : Alice.swapState) (w : World)
         (o : outcome Reply Reply) (s' : Alice.swapState) (w' : World) (evs : list Call)
         (amount : Z) (res : result string),
    Alice.HandleProtocolMessage host O msg s w = (o, s', w') ->
    calls w' = calls w ++ evs ->
    In (DeployAndLockETH amount res) evs ->
    exists m hb dvk vk kp sk rest,
      msg = SendKeys m /\
      hex_DecodeString (msgSpendKeyHash m) = Ok hb /\
      List.length hb = 32%nat /\
      String.length (msgSpendKeyHash m) = 64%nat /\
      NewPrivateViewKeyFromHash (msgSpendKeyHash m) = Ok dvk /\
      NewPrivateViewKeyFromHex (msgPrivateViewKey m) = Ok vk /\
      PrivateViewKey_Hex vk = PrivateViewKey_Hex dvk /\
      NewPublicKeyPairFromHex (msgPublicSpendKey m)
        (PublicKey_Hex (PrivateViewKey_Public vk)) = Ok kp /\
      NewPublicKeyFromHex (msgPublicSpendKey m) = Ok sk /\
      msgEthAddress m <> "" /\
      amount = Alice.providesAmount s /\
      evs = GenerateViewOnlyWalletFromKeys vk (PublicKeyPair_Address kp (env host))
              ("bob-viewonly-wallet-" ++ time_Format (clock w)) "" None
            :: CloseWallet None
            :: DeployAndLockETH (Alice.providesAmount s) res :: rest /\
      Alice.bobClaimHash s' = hb /\
      Alice.bobPublicSpendKey s' = Some sk /\
      Alice.bobPrivateViewKey s' = Some vk /\
      Alice.nextExpectedMessage s' = NotifyXMRLock "".
Proof.
  intros host O msg s w o s' w' evs amount res H Hc Hin.
  go_unfold_alice H. go_paths H.
  all: finish_path H Hc.
  all: try solve [in_list Hin].
  all: in_list Hin; inversion Hin; subst.
  all: repeat match goal with
         | E : negb _ = false |- _ => apply negb_false_iff in E
         | E : String.eqb _ _ = true |- _ => apply String.eqb_eq in E
         | E : String.eqb _ _ = false |- _ => apply String.eqb_neq in E
         | E : Nat.eqb _ _ = true |- _ => apply Nat.eqb_eq in E
         end.
  all: match goal with
       | E : hex_DecodeString _ = Ok _ |- _ =>
           pose proof (hex_DecodeString_length _ E) as Hlen
       end.
  all: match goal with
       | E1 : hex_DecodeString _ = Ok ?hb, E2 : NewPrivateViewKeyFromHash _ = Ok ?dvk,
         E3 : NewPrivateViewKeyFromHex _ = Ok ?vk, E4 : NewPublicKeyFromHex _ = Ok ?sk,
         E5 : NewPublicKeyPairFromHex _ _ = Ok ?kp
         |- _ => eexists; exists hb, dvk, vk, kp, sk
       end.
  all: eexists; repeat split; try eassumption; try reflexivity; try lia.
Qed.

(** X7: when Alice's handler accepts a [SendKeys] message without error,
    it replies [NotifyContractDeployed] with the address the deployment
    returned and keeps the stream open; the session holds the contract,
    Bob's ETH address, the two deadlines [time.Unix] of the contract's
    [timeout0] and [timeout1], and awaits [NotifyXMRLock]; the wallet
    client has no wallet open and the watchdog goroutine was started
    last. *)
Theorem alice_SendKeys_accepted :
  forall (host : Host) (O : Oracle) (m : SendKeysMessage) (s : Alice.swapState)
         (w : World) (reply : option Message) (done : bool)
         (s' : Alice.swapState) (w' : World) (evs : list Call),
    Alice.HandleProtocolMessage host O (SendKeys m) s w =
      (Return (reply, done, None), s', w') ->
    calls w' = calls w ++ evs ->
    exists vk bobAddr name address st0 st1,
      reply = Some (NotifyContractDeployed address) /\
      done = false /\
      evs = [GenerateViewOnlyWalletFromKeys vk bobAddr name "" None;
             CloseWallet None;
             DeployAndLockETH (Alice.providesAmount s) (Ok address);
             Timeout0 (Ok st0); Timeout1 (Ok st1);
             GoRoutine "refund five minutes before t0 unless the XMR is locked"] /\
      Alice.contract s' = Some address /\
      Alice.bobAddress s' = HexToAddress (msgEthAddress m) /\
      Alice.t0 s' = time_Unix (Int64 st0) /\
      Alice.t1 s' = time_Unix (Int64 st1) /\
      Alice.nextExpectedMessage s' = NotifyXMRLock "" /\
      wallet w' = None /\
      clock w' = clock w.
Proof.
  intros host O m s w reply done s' w' evs H Hc.
  go_unfold_alice H. go_paths H.
  all: finish_path H Hc.
  all: do 6 eexists; repeat split; reflexivity.
Qed.

End AliceKeys.

(** Alice accepts the peer's keys: the view-only wallet was opened on
    the announced view key and on the address of the peer's key pair. *)
Lemma alice_deploys_only_after_verification_witness :
  exists (hb : list Byte.byte) (vk : @PrivateViewKey Toy.lib) (kp : @PublicKeyPair Toy.lib)
         (rest : list (@Call Toy.lib)),
    hex_DecodeString (msgSpendKeyHash Toy.peerKeys) = Ok hb /\
    List.length hb = 32%nat /\
    Alice.bobClaimHash (Toy.state_of ToyRuns.alice_sendkeys_run) = hb /\
    NewPublicKeyPairFromHex (msgPublicSpendKey Toy.peerKeys)
      (PublicKey_Hex (PrivateViewKey_Public vk)) = Ok kp /\
    calls (Toy.world_of ToyRuns.alice_sendkeys_run) =
      GenerateViewOnlyWalletFromKeys vk (PublicKeyPair_Address kp (env Toy.host))
        ("bob-viewonly-wallet-" ++ @time_Format Toy.lib 0) "" None
      :: CloseWallet None :: DeployAndLockETH 10 (Ok "0xc0ffee") :: rest.
Proof.
  assert (Hrun : Alice.HandleProtocolMessage Toy.host Toy.happy (SendKeys Toy.peerKeys)
                   Toy.alice_keyed (Toy.world0 0) =
                 (fst (fst ToyRuns.alice_sendkeys_run),
                  Toy.state_of ToyRuns.alice_sendkeys_run,
                  Toy.world_of ToyRuns.alice_sendkeys_run))
    by (vm_compute; reflexivity).
  assert (Hin : In (DeployAndLockETH (L := Toy.lib) 10 (Ok "0xc0ffee"))
                   (calls (Toy.world_of ToyRuns.alice_sendkeys_run)))
    by (cbn; tauto).
  destruct (@alice_deploys_only_after_verification Toy.lib _ _ _ _ _ _ _ _
              (calls (Toy.world_of ToyRuns.alice_sendkeys_run)) _ _ Hrun eq_refl Hin)
    as (m & hb & dvk & vk & kp & sk & rest & Hm & Hhex & Hlen & _ & _ & _
        & _ & Hkp & _ & _ & _ & Hev & Hhash & _).
  inversion Hm; subst m. exists hb, vk, kp, rest.
  repeat split; assumption.
Defined.

Lemma alice_SendKeys_accepted_witness :
  exists st0 st1,
    Alice.t0 (Toy.state_of ToyRuns.alice_sendkeys_run) = time_Unix (Int64 st0) /\
    Alice.t1 (Toy.state_of ToyRuns.alice_sendkeys_run) = time_Unix (Int64 st1) /\
    wallet (Toy.world_of ToyRuns.alice_sendkeys_run) = None.
Proof.
  assert (Hrun : Alice.HandleProtocolMessage Toy.host Toy.happy (SendKeys Toy.peerKeys)
                   Toy.alice_keyed (Toy.world0 0) =
                 (Return (Some (NotifyContractDeployed "0xc0ffee"), false, None),
                  Toy.state_of ToyRuns.alice_sendkeys_run,
                  Toy.world_of ToyRuns.alice_sendkeys_run))
    by (vm_compute; reflexivity).
  destruct (@alice_SendKeys_accepted Toy.lib _ _ _ _ _ _ _ _ _
              (calls (Toy.world_of ToyRuns.alice_sendkeys_run)) Hrun eq_refl)
    as (vk & bobAddr & name & address & st0 & st1 & _ & _ & _ & _ & _ & H0 & H1 & _ & Hw & _).
  exists st0, st1. repeat split; assumption.
Defined.

Section StreamClosure.
Context {L : MoneroLib}.

(** The run of Alice's [ProtocolComplete], in closed form. *)
Lemma alice_ProtocolComplete_run :
  forall (O : Oracle) (s : Alice.swapState) (w : World),
    exists o,
      Alice.ProtocolComplete O s w =
      (o, Alice.set_ctx_done true s,
       record_call ClearSwapState
         (record_call Cancel
            (if negb (Alice.success s) &&
                match Alice.nextExpectedMessage s with
                | NotifyXMRLock _ | NotifyClaimed _ => true
                | _ => false
                end
             then record_call (Refund (clock w) (on_refund O w)) w
             else w))).
Proof.
  intros O s w.
  unfold Alice.ProtocolComplete, defer_, bind, get, when_, ret, return_, callf,
    return_if_err.
  destruct (Alice.success s); [eexists; reflexivity |].
  destruct (Alice.nextExpectedMessage s);
    try rewrite tryRefund_never_waits;
    destruct (on_refund O w); cbn; eexists; reflexivity.
Qed.

(** The run of Bob's [ProtocolComplete], in closed form. *)
Lemma bob_ProtocolComplete_run :
  forall (O : Oracle) (s : Bob.swapState) (w : World),
    exists o,
      Bob.ProtocolComplete O s w =
      (o,
       Bob.set_ctx_done true
         (if negb (Bob.success s) &&
             match Bob.nextExpectedMessage s with NotifyReady => true | _ => false end
          then match on_claimFunds O w with
               | Ok _ => Bob.set_success true s
               | Err _ => s
               end
          else s),
       record_call ClearSwapState
         (record_call Cancel
            (if negb (Bob.success s) &&
                match Bob.nextExpectedMessage s with NotifyReady => true | _ => false end
             then record_call (Claim (clock w) (on_claimFunds O w)) w
             else w))).
Proof.
  intros O s w.
  unfold Bob.ProtocolComplete, defer_, bind, get, when_, ret, return_, callf.
  destruct (Bob.success s); [eexists; reflexivity |].
  destruct (Bob.nextExpectedMessage s);
    try rewrite tryClaim_never_waits;
    destruct (on_claimFunds O w); cbn; eexists; reflexivity.
Qed.

(** From [H : run = (o, s', w')], with the run in closed form, and
    [Hc : calls w' = calls w ++ evs]. *)
Ltac closed_run Hrun H Hc :=
  destruct Hrun as [? Hrun]; rewrite Hrun in H; inversion H; subst; clear H Hrun.

(** X8: when the stream closes, Alice submits a refund exactly when the
    session has not succeeded and awaits [NotifyXMRLock] or
    [NotifyClaimed], and then one refund, at the current time; in every
    case the context is cancelled, the host's session pointer cleared,
    and nothing else in the session, the clock or the wallet client
    changes. *)
Theorem alice_ProtocolComplete_policy :
  forall (O : Oracle) (s : Alice.swapState) (w : World)
         (o : outcome unit unit) (s' : Alice.swapState) (w' : World) (evs : list Call),
    Alice.ProtocolComplete O s w = (o, s', w') ->
    calls w' = calls w ++ evs ->
    s' = Alice.set_ctx_done true s /\
    clock w' = clock w /\
    wallet w' = wallet w /\
    (Alice.success s = false /\
     (Type_ (Alice.nextExpectedMessage s) = NotifyXMRLockType \/
      Type_ (Alice.nextExpectedMessage s) = NotifyClaimedType) ->
     evs = [Refund (clock w) (on_refund O w); Cancel; ClearSwapState]) /\
    (Alice.success s = true \/
     (Type_ (Alice.nextExpectedMessage s) <> NotifyXMRLockType /\
      Type_ (Alice.nextExpectedMessage s) <> NotifyClaimedType) ->
     evs = [Cancel; ClearSwapState]).
Proof.
  intros O s w o s' w' evs H Hc.
  pose proof (alice_ProtocolComplete_run O s w) as Hrun.
  closed_run Hrun H Hc.
  destruct (Alice.success s) eqn:Hs;
    destruct (Alice.nextExpectedMessage s) eqn:Hn;
    cbn in Hc; rewrite <- ?app_assoc in Hc; apply app_same_head in Hc; subst evs;
    cbn; repeat split; try reflexivity; intros Hx;
    try reflexivity; exfalso; intuition (discriminate || congruence).
Qed.

(** X9: when the stream closes, Bob submits a claim exactly when the
    session has not succeeded and awaits [NotifyReady], and then one
    claim, at the current time; in every case the context is cancelled
    and the host's session pointer cleared, and the clock and the wallet
    client are unchanged. *)
Theorem bob_ProtocolComplete_policy :
  forall (O : Oracle) (s : Bob.swapState) (w : World)
         (o : outcome unit unit) (s' : Bob.swapState) (w' : World) (evs : list Call),
    Bob.ProtocolComplete O s w = (o, s', w') ->
    calls w' = calls w ++ evs ->
    Bob.ctx_done s' = true /\
    clock w' = clock w /\
    wallet w' = wallet w /\
    (Bob.success s = false /\ Type_ (Bob.nextExpectedMessage s) = NotifyReadyType ->
     evs = [Claim (clock w) (on_claimFunds O w); Cancel; ClearSwapState]) /\
    (Bob.success s = true \/ Type_ (Bob.nextExpectedMessage s) <> NotifyReadyType ->
     evs = [Cancel; ClearSwapState] /\ s' = Bob.set_ctx_done true s).
Proof.
  intros O s w o s' w' evs H Hc.
  pose proof (bob_ProtocolComplete_run O s w) as Hrun.
  closed_run Hrun H Hc.
  destruct (Bob.success s) eqn:Hs;
    destruct (Bob.nextExpectedMessage s) eqn:Hn;
    cbn in Hc; rewrite <- ?app_assoc in Hc; apply app_same_head in Hc; subst evs;
    cbn; repeat split; try reflexivity; try intros Hx;
    try reflexivity; exfalso; intuition (discriminate || congruence).
Qed.

(** X10: once Bob has handled a [NotifyRefund] without error, regaining
    the locked XMR, the closure of the stream submits no claim, whatever
    message the session still awaits. *)
Theorem bob_recovered_session_never_claims :
  forall (host : Host) (O : Oracle) (TxHash : string) (s s1 s2 : Bob.swapState)
         (w w1 w2 w3 : World) (reply : option Message) (done : bool)
         (o : outcome unit unit) (evs : list Call),
    Bob.HandleProtocolMessage host O (NotifyRefund TxHash) s w =
      (Return (reply, done, None), s1, w1) ->
    Bob.ProtocolComplete O s1 w2 = (o, s2, w3) ->
    calls w3 = calls w2 ++ evs ->
    Bob.success s1 = true /\ evs = [Cancel; ClearSwapState].
Proof.
  intros host O TxHash s s1 s2 w w1 w2 w3 reply done o evs H Hpc Hc.
  assert (Hs : Bob.success s1 = true).
  { go_unfold_bob H. go_paths H. all: inversion H; subst; reflexivity. }
  split; [exact Hs |].
  pose proof (bob_ProtocolComplete_run O s1 w2) as Hrun.
  closed_run Hrun Hpc Hc. rewrite Hs in Hc.
  cbn in Hc; rewrite <- ?app_assoc in Hc; apply app_same_head in Hc.
  subst evs. reflexivity.
Qed.

(** X11: when [ready()] fails while Alice handles [NotifyXMRLock], the
    handler returns the error with the stream to be closed, but
    [xmrLockedCh] is closed already and the gate awaits [NotifyClaimed];
    when the stream then closes, an unsuccessful session submits its
    refund at once. *)
Theorem alice_ready_failure_then_refund :
  forall (host : Host) (O : Oracle) (a : string) (s s1 : Alice.swapState)
         (w w1 w2 : World) (o : outcome Reply Reply) (evs : list Call) (e : error),
    Alice.HandleProtocolMessage host O (NotifyXMRLock a) s w = (o, s1, w1) ->
    calls w1 = calls w ++ evs ->
    In (SetReady (Some e)) evs ->
    Alice.success s = false ->
    o = Return (None, true, Some (fmt_Errorf_w "failed to call Ready: %w" e)) /\
    Alice.xmrLockedCh s1 = true /\
    Alice.nextExpectedMessage s1 = NotifyClaimed "" /\
    wallet w1 = None /\
    exists o2 s2 w3,
      Alice.ProtocolComplete O s1 w2 = (o2, s2, w3) /\
      calls w3 = calls w2 ++ [Refund (clock w2) (on_refund O w2); Cancel; ClearSwapState].
Proof.
  intros host O a s s1 w w1 w2 o evs e H Hc Hin Hs.
  go_unfold_alice H. go_paths H.
  all: finish_path H Hc.
  all: try solve [in_list Hin].
  all: in_list Hin; inversion Hin; subst.
  all: repeat split; try reflexivity.
  all: match goal with
       | |- exists _ _ _, Alice.ProtocolComplete ?O' ?s1' ?w2' = _ /\ _ =>
           destruct (alice_ProtocolComplete_run O' s1' w2') as [o2 Hrun];
           rewrite Hrun; do 3 eexists; split; [reflexivity |]
       end.
  all: cbn; rewrite Hs; cbn; rewrite <- ?app_assoc; reflexivity.
Qed.

End StreamClosure.

(** Alice's stream closes before she has deployed anything. *)
Lemma alice_ProtocolComplete_policy_witness :
  exists o s' w',
    Alice.ProtocolComplete Toy.happy Toy.alice_keyed (Toy.world0 0) = (o, s', w') /\
    calls w' = [Cancel; ClearSwapState].
Proof.
  destruct (Alice.ProtocolComplete Toy.happy Toy.alice_keyed (Toy.world0 0))
    as [[o s'] w'] eqn:Hrun.
  exists o, s', w'. split; [reflexivity |].
  destruct (@alice_ProtocolComplete_policy Toy.lib _ _ _ _ _ _ (calls w') Hrun eq_refl)
    as (_ & _ & _ & _ & Hno).
  apply Hno. right. split; discriminate.
Defined.

(** Bob's stream closes while he awaits the deployment of the escrow. *)
Lemma bob_ProtocolComplete_policy_witness :
  exists o s' w',
    Bob.ProtocolComplete Toy.happy Toy.bob_verified (Toy.world0 0) = (o, s', w') /\
    calls w' = [Cancel; ClearSwapState].
Proof.
  destruct (Bob.ProtocolComplete Toy.happy Toy.bob_verified (Toy.world0 0))
    as [[o s'] w'] eqn:Hrun.
  exists o, s', w'. split; [reflexivity |].
  destruct (@bob_ProtocolComplete_policy Toy.lib _ _ _ _ _ _ (calls w') Hrun eq_refl)
    as (_ & _ & _ & _ & Hno).
  apply Hno. right. discriminate.
Defined.

(** Bob regains the XMR at 50 s; the stream closes at 60 s, before t0. *)
Lemma bob_recovered_session_never_claims_witness :
  exists o s2 w3,
    Bob.ProtocolComplete Toy.happy (Toy.state_of ToyRuns.bob_refund_run)
      (Toy.world0 (60 * Toy.second)) = (o, s2, w3) /\
    calls w3 = [Cancel; ClearSwapState].
Proof.
  assert (Hrun : Bob.HandleProtocolMessage Toy.host Toy.happy (NotifyRefund "0x1")
                   Toy.bob_locked (Toy.world0 (50 * Toy.second)) =
                 (Return (None, true, None), Toy.state_of ToyRuns.bob_refund_run,
                  Toy.world_of ToyRuns.bob_refund_run))
    by (vm_compute; reflexivity).
  destruct (Bob.ProtocolComplete Toy.happy (Toy.state_of ToyRuns.bob_refund_run)
              (Toy.world0 (60 * Toy.second))) as [[o s2] w3] eqn:Hpc.
  exists o, s2, w3. split; [reflexivity |].
  apply (@bob_recovered_session_never_claims Toy.lib _ _ _ _ _ _ _ _ _ _ _ _ _
           (calls w3) Hrun Hpc eq_refl).
Defined.

(** [setReady] fails at 50 s. *)
Lemma alice_ready_failure_then_refund_witness :
  Alice.xmrLockedCh (Toy.state_of ToyRuns.alice_ready_fails_run) = true /\
  Alice.nextExpectedMessage (Toy.state_of ToyRuns.alice_ready_fails_run) =
    NotifyClaimed "".
Proof.
  assert (Hrun : Alice.HandleProtocolMessage Toy.host ToyRuns.readyFails
                   (NotifyXMRLock Toy.jointAddress) Toy.alice_deployed
                   (Toy.world0 (50 * Toy.second)) =
                 (fst (fst ToyRuns.alice_ready_fails_run),
                  Toy.state_of ToyRuns.alice_ready_fails_run,
                  Toy.world_of ToyRuns.alice_ready_fails_run))
    by (vm_compute; reflexivity).
  assert (Hin : In (SetReady (L := Toy.lib) (Some Toy.rpcError))
                   (calls (Toy.world_of ToyRuns.alice_ready_fails_run)))
    by (cbn; tauto).
  destruct (@alice_ready_failure_then_refund Toy.lib _ _ _ _ _ _ _
              (Toy.world0 (60 * Toy.second)) _
              (calls (Toy.world_of ToyRuns.alice_ready_fails_run)) _ Hrun eq_refl Hin
              eq_refl) as (_ & Hch & Hn & _).
  split; assumption.
Defined.

Section BobHandlers.
Context {L : MoneroLib}.

(** X13: whatever message Bob handles, his funds are locked only for a
    [NotifyContractDeployed] with a non-empty address that the gate
    awaits, with [providesAmount], and only after the contract at that
    address was bound without error; by then the gate awaits
    [NotifyReady]. *)
Theorem bob_locks_only_after_contract_bound :
  forall (host : Host) (O : Oracle) (msg : Message) (s : Bob.swapState) (w : World)
         (o : outcome Reply Reply) (s' : Bob.swapState) (w' : World) (evs : list Call)
         (amount : Z) (res : result string),
    Bob.HandleProtocolMessage host O msg s w = (o, s', w') ->
    calls w' = calls w ++ evs ->
    In (LockFunds amount res) evs ->
    exists a rest,
      msg = NotifyContractDeployed a /\
      a <> "" /\
      Type_ (Bob.nextExpectedMessage s) = NotifyContractDeployedType /\
      amount = Bob.providesAmount s /\
      evs = SetContract (HexToAddress a) None
            :: LockFunds (Bob.providesAmount s) res :: rest /\
      Bob.contract s' = Some (HexToAddress a) /\
      Bob.contractAddr s' = HexToAddress a /\
      Bob.nextExpectedMessage s' = NotifyReady.
Proof.
  intros host O msg s w o s' w' evs amount res H Hc Hin.
  go_unfold_bob H. go_paths H.
  all: finish_path H Hc.
  all: try solve [in_list Hin].
  all: in_list Hin; inversion Hin; subst.
  all: match goal with
       | E : String.eqb _ "" = false |- _ => apply String.eqb_neq in E
       end.
  all: do 2 eexists; repeat split; try reflexivity; try assumption.
  all: match goal with
       | E : Bob.nextExpectedMessage _ = _ |- _ => rewrite E; reflexivity
       end.
Qed.

(** X14: when Bob's handler accepts a [NotifyContractDeployed] without
    error, it replies [NotifyXMRLock] with the address that locking the
    funds returned and keeps the stream open; the session holds the two
    deadlines [time.Unix] of the contract's [timeout0] and [timeout1],
    and the watchdog goroutine was started last. *)
Theorem bob_NotifyContractDeployed_accepted :
  forall (host : Host) (O : Oracle) (a : string) (s : Bob.swapState) (w : World)
         (reply : option Message) (done : bool)
         (s' : Bob.swapState) (w' : World) (evs : list Call),
    Bob.HandleProtocolMessage host O (NotifyContractDeployed a) s w =
      (Return (reply, done, None), s', w') ->
    calls w' = calls w ++ evs ->
    exists addrAB st0 st1,
      reply = Some (NotifyXMRLock addrAB) /\
      done = false /\
      evs = [SetContract (HexToAddress a) None;
             LockFunds (Bob.providesAmount s) (Ok addrAB);
             Timeout0 (Ok st0); Timeout1 (Ok st1);
             GoRoutine "claim at t0 unless ready"] /\
      Bob.t0 s' = time_Unix (Int64 st0) /\
      Bob.t1 s' = time_Unix (Int64 st1) /\
      Bob.readyCh s' = Bob.readyCh s /\
      Bob.success s' = Bob.success s.
Proof.
  intros host O a s w reply done s' w' evs H Hc.
  go_unfold_bob H. go_paths H.
  all: finish_path H Hc.
  all: do 3 eexists; repeat split; reflexivity.
Qed.

(** X15: when Bob's handler accepts a [SendKeys] message without error,
    the view key parsed from the message has the hex form of the view
    key derived from the spend-key hash; that view key and the public
    key pair built from the announced public spend key and it are stored
    in the session; the view-only wallet was opened and closed, Bob's
    own wallet is open again, and the stream stays open with no reply. *)
Theorem bob_SendKeys_accepted :
  forall (host : Host) (O : Oracle) (m : SendKeysMessage) (s : Bob.swapState)
         (w : World) (reply : option Message) (done : bool)
         (s' : Bob.swapState) (w' : World) (evs : list Call),
    Bob.HandleProtocolMessage host O (SendKeys m) s w =
      (Return (reply, done, None), s', w') ->
    calls w' = calls w ++ evs ->
    exists dvk vk kp name,
      reply = None /\
      done = false /\
      msgPublicSpendKey m <> "" /\
      msgPrivateViewKey m <> "" /\
      msgSpendKeyHash m <> "" /\
      NewPrivateViewKeyFromHash (msgSpendKeyHash m) = Ok dvk /\
      NewPrivateViewKeyFromHex (msgPrivateViewKey m) = Ok vk /\
      PrivateViewKey_Hex vk = PrivateViewKey_Hex dvk /\
      NewPublicKeyPairFromHex (msgPublicSpendKey m)
        (PublicKey_Hex (PrivateViewKey_Public vk)) = Ok kp /\
      evs = [GenerateViewOnlyWalletFromKeys vk (PublicKeyPair_Address kp (env host))
               name "" None;
             CloseWallet None; OpenWallet None] /\
      Bob.alicePrivateViewKey s' = Some vk /\
      Bob.alicePublicKeys s' = Some kp /\
      Bob.nextExpectedMessage s' = NotifyContractDeployed "" /\
      wallet w' = Some OwnWallet.
Proof.
  intros host O m s w reply done s' w' evs H Hc.
  go_unfold_bob H. go_paths H.
  all: finish_path H Hc.
  all: repeat match goal with
         | E : negb _ = false |- _ => apply negb_false_iff in E
         | E : orb _ _ = false |- _ => apply orb_false_iff in E; destruct E
         | E : String.eqb _ _ = true |- _ => apply String.eqb_eq in E
         | E : String.eqb _ _ = false |- _ => apply String.eqb_neq in E
         end.
  all: match goal with
       | E2 : NewPrivateViewKeyFromHash _ = Ok ?dvk,
         E3 : NewPrivateViewKeyFromHex _ = Ok ?vk,
         E4 : NewPublicKeyPairFromHex _ _ = Ok ?kp |- _ => exists dvk, vk, kp
       end.
  all: eexists; repeat split; try eassumption; try reflexivity.
Qed.

(** X16: when Bob handles [NotifyRefund] and the receipt has no logs, or
    the key file cannot be written, the handler returns the error
    ("claim transaction has no logs", or the error of the write) with the
    stream to be closed; no wallet is created and the session and the
    wallet client are as they were. *)
Theorem bob_refund_fails_before_wallet :
  forall (host : Host) (O : Oracle) (TxHash : string) (s : Bob.swapState) (w : World)
         (o : outcome Reply Reply) (s' : Bob.swapState) (w' : World) (evs : list Call)
         (err : error),
    Bob.HandleProtocolMessage host O (NotifyRefund TxHash) s w = (o, s', w') ->
    calls w' = calls w ++ evs ->
    (In (TransactionReceipt TxHash (Ok [])) evs /\
     err = errors_New "claim transaction has no logs") \/
    (exists fp kp e, In (WriteKeysToFile fp kp e (Some err)) evs) ->
    o = Return (None, true, Some err) /\
    s' = s /\
    wallet w' = wallet w /\
    forall kp name pw e r, ~ In (GenerateFromKeys kp name pw e r) evs.
Proof.
  intros host O TxHash s w o s' w' evs err H Hc Hfail.
  go_unfold_bob H. go_paths H.
  all: finish_path H Hc.
  all: destruct Hfail as [[Hin ->] | (fp & kp & e' & Hin)].
  all: try solve [in_list Hin].
  all: in_list Hin; inversion Hin; subst.
  all: try solve [cbn in *; discriminate].
  all: repeat split; try reflexivity.
  all: intros kp' name pw e'' r Hg; in_list Hg.
Qed.

End BobHandlers.

Lemma bob_locks_only_after_contract_bound_witness :
  Bob.contract (Toy.state_of ToyRuns.bob_deployed_run) = Some "0xc0ffee" /\
  Bob.nextExpectedMessage (Toy.state_of ToyRuns.bob_deployed_run) = NotifyReady.
Proof.
  assert (Hrun : Bob.HandleProtocolMessage Toy.host Toy.happy
                   (NotifyContractDeployed "0xc0ffee") Toy.bob_verified (Toy.world0 0) =
                 (fst (fst ToyRuns.bob_deployed_run),
                  Toy.state_of ToyRuns.bob_deployed_run,
                  Toy.world_of ToyRuns.bob_deployed_run))
    by (vm_compute; reflexivity).
  assert (Hin : In (LockFunds (L := Toy.lib) 1000 (Ok "joint"))
                   (calls (Toy.world_of ToyRuns.bob_deployed_run)))
    by (cbn; tauto).
  destruct (@bob_locks_only_after_contract_bound Toy.lib _ _ _ _ _ _ _ _
              (calls (Toy.world_of ToyRuns.bob_deployed_run)) _ _ Hrun eq_refl Hin)
    as (a & rest & Hm & _ & _ & _ & _ & Hc & _ & Hn).
  inversion Hm; subst a. split; assumption.
Defined.

Lemma bob_NotifyContractDeployed_accepted_witness :
  exists st0 st1,
    Bob.t0 (Toy.state_of ToyRuns.bob_deployed_run) = time_Unix (Int64 st0) /\
    Bob.t1 (Toy.state_of ToyRuns.bob_deployed_run) = time_Unix (Int64 st1).
Proof.
  assert (Hrun : Bob.HandleProtocolMessage Toy.host Toy.happy
                   (NotifyContractDeployed "0xc0ffee") Toy.bob_verified (Toy.world0 0) =
                 (Return (Some (NotifyXMRLock "joint"), false, None),
                  Toy.state_of ToyRuns.bob_deployed_run,
                  Toy.world_of ToyRuns.bob_deployed_run))
    by (vm_compute; reflexivity).
  destruct (@bob_NotifyContractDeployed_accepted Toy.lib _ _ _ _ _ _ _ _ _
              (calls (Toy.world_of ToyRuns.bob_deployed_run)) Hrun eq_refl)
    as (addrAB & st0 & st1 & _ & _ & _ & H0 & H1 & _).
  exists st0, st1. split; assumption.
Defined.

Lemma bob_SendKeys_accepted_witness :
  exists vk,
    Bob.alicePrivateViewKey (Toy.state_of ToyRuns.bob_sendkeys_run) = Some vk /\
    wallet (Toy.world_of ToyRuns.bob_sendkeys_run) = Some OwnWallet.
Proof.
  assert (Hrun : Bob.HandleProtocolMessage Toy.host Toy.happy (SendKeys Toy.peerKeys)
                   Toy.bob_keyed (Toy.world0 0) =
                 (Return (None, false, None), Toy.state_of ToyRuns.bob_sendkeys_run,
                  Toy.world_of ToyRuns.bob_sendkeys_run))
    by (vm_compute; reflexivity).
  destruct (@bob_SendKeys_accepted Toy.lib _ _ _ _ _ _ _ _ _
              (calls (Toy.world_of ToyRuns.bob_sendkeys_run)) Hrun eq_refl)
    as (dvk & vk & kp & name & H).
  exists vk. split; apply H.
Defined.

Lemma bob_refund_fails_before_wallet_witness :
  fst (fst ToyRuns.bob_write_fails_run) = Return (None, true, Some Toy.rpcError) /\
  Toy.state_of ToyRuns.bob_write_fails_run = Toy.bob_locked.
Proof.
  assert (Hrun : Bob.HandleProtocolMessage Toy.host ToyRuns.writeFails (NotifyRefund "0x1")
                   Toy.bob_locked (Toy.world0 (50 * Toy.second)) =
                 (fst (fst ToyRuns.bob_write_fails_run),
                  Toy.state_of ToyRuns.bob_write_fails_run,
                  Toy.world_of ToyRuns.bob_write_fails_run))
    by (vm_compute; reflexivity).
  destruct (@bob_refund_fails_before_wallet Toy.lib _ _ _ _ _ _ _ _
              (calls (Toy.world_of ToyRuns.bob_write_fails_run)) Toy.rpcError
              Hrun eq_refl) as (Ho & Hs & _).
  - right. exists "/tmp/swap/0/swap-secret",
      (NewPrivateKeyPair (L := Toy.lib) 37 40), tt. cbn. tauto.
  - split; assumption.
Defined.

Section Invariants.
Context {L : MoneroLib}.

(** X17: handling a message never moves [nextExpectedMessage] backwards.
    It stays as it is, or the message was of the awaited kind and the
    session advances by one step of the protocol: for Alice from
    [SendKeys] to [NotifyXMRLock] and from [NotifyXMRLock] to
    [NotifyClaimed], for Bob from [SendKeys] to [NotifyContractDeployed]
    and from [NotifyContractDeployed] to [NotifyReady]. *)
Theorem nextExpectedMessage_moves_forward :
  forall (host : Host) (O : Oracle) (msg : Message) (ss ss1 : SwapState)
         (w w1 : World) (o : outcome Reply Reply),
    SwapState_HandleProtocolMessage host O msg ss w = (o, ss1, w1) ->
    match ss, ss1 with
    | AliceSwap s, AliceSwap s1 =>
        Alice.nextExpectedMessage s1 = Alice.nextExpectedMessage s \/
        (Type_ msg = Type_ (Alice.nextExpectedMessage s) /\
         ((Type_ msg = SendKeysType /\
           Alice.nextExpectedMessage s1 = NotifyXMRLock "") \/
          (Type_ msg = NotifyXMRLockType /\
           Alice.nextExpectedMessage s1 = NotifyClaimed "")))
    | BobSwap s, BobSwap s1 =>
        Bob.nextExpectedMessage s1 = Bob.nextExpectedMessage s \/
        (Type_ msg = Type_ (Bob.nextExpectedMessage s) /\
         ((Type_ msg = SendKeysType /\
           Bob.nextExpectedMessage s1 = NotifyContractDeployed "") \/
          (Type_ msg = NotifyContractDeployedType /\
           Bob.nextExpectedMessage s1 = NotifyReady)))
    | _, _ => False
    end.
Proof.
  intros host O msg ss ss1 w w1 o H.
  destruct ss as [s | s]; cbn in H.
  - destruct (Alice.HandleProtocolMessage host O msg s w) as [[o' s'] w'] eqn:Hrun.
    inversion H; subst; clear H.
    go_unfold_alice Hrun. go_paths Hrun.
    all: inversion Hrun; subst; clear Hrun.
    all: try solve [left; reflexivity].
    all: try match goal with
             | E : negb (MessageType_eqb _ (Type_ (?f ?s0))) = false |- _ =>
                 apply negb_false_iff in E; destruct (f s0) eqn:?; try discriminate E
             end.
    all: try match goal with
             | E : Alice.nextExpectedMessage _ = _ |- _ => rewrite E
             end.
    all: right; cbn; split; [reflexivity |];
      first [left; split; reflexivity | right; split; reflexivity].
  - destruct (Bob.HandleProtocolMessage host O msg s w) as [[o' s'] w'] eqn:Hrun.
    inversion H; subst; clear H.
    go_unfold_bob Hrun. go_paths Hrun.
    all: inversion Hrun; subst; clear Hrun.
    all: try solve [left; reflexivity].
    all: try match goal with
             | E : negb (MessageType_eqb _ (Type_ (?f ?s0))) = false |- _ =>
                 apply negb_false_iff in E; destruct (f s0) eqn:?; try discriminate E
             end.
    all: try match goal with
             | E : Bob.nextExpectedMessage _ = _ |- _ => rewrite E
             end.
    all: right; cbn; split; [reflexivity |];
      first [left; split; reflexivity | right; split; reflexivity].
Qed.

(** X18: whatever the network does with Alice's session (a message or
    the closure of the stream), its id, its amounts and its own keys stay
    as they are, and the success flag, the two signal channels and the
    cancellation of the context are never undone. *)
Theorem alice_session_monotone :
  forall (host : Host) (O : Oracle) (ev : NetEvent) (s s' : Alice.swapState)
         (w w' : World),
    Alice_drive O host ev s w = (s', w') ->
    Alice.id s' = Alice.id s /\
    Alice.providesAmount s' = Alice.providesAmount s /\
    Alice.desiredAmount s' = Alice.desiredAmount s /\
    Alice.privkeys s' = Alice.privkeys s /\
    Alice.pubkeys s' = Alice.pubkeys s /\
    (Alice.success s = true -> Alice.success s' = true) /\
    (Alice.xmrLockedCh s = true -> Alice.xmrLockedCh s' = true) /\
    (Alice.claimedCh s = true -> Alice.claimedCh s' = true) /\
    (Alice.ctx_done s = true -> Alice.ctx_done s' = true).
Proof.
  intros host O ev s s' w w' H.
  destruct ev as [msg |]; unfold Alice_drive in H.
  - destruct (Alice.HandleProtocolMessage host O msg s w) as [[o s1] w1] eqn:Hrun.
    inversion H; subst; clear H.
    go_unfold_alice Hrun. go_paths Hrun.
    all: inversion Hrun; subst; clear Hrun.
    all: cbn; repeat split; try reflexivity; try assumption;
      intro Hx; first [reflexivity | assumption | congruence].
  - destruct (alice_ProtocolComplete_run O s w) as [o Hrun].
    rewrite Hrun in H. inversion H; subst; clear H.
    cbn. repeat split; try reflexivity; intro Hx; first [reflexivity | assumption].
Qed.

(** X19: whatever the network does with Bob's session, its id, its
    amounts and its own keys stay as they are, and the [ready] channel
    and the cancellation of the context are never undone. *)
Theorem bob_session_monotone :
  forall (host : Host) (O : Oracle) (ev : NetEvent) (s s' : Bob.swapState)
         (w w' : World),
    Bob_drive host O ev s w = (s', w') ->
    Bob.id s' = Bob.id s /\
    Bob.providesAmount s' = Bob.providesAmount s /\
    Bob.desiredAmount s' = Bob.desiredAmount s /\
    Bob.privkeys s' = Bob.privkeys s /\
    Bob.pubkeys s' = Bob.pubkeys s /\
    (Bob.readyCh s = true -> Bob.readyCh s' = true) /\
    (Bob.ctx_done s = true -> Bob.ctx_done s' = true).
Proof.
  intros host O ev s s' w w' H.
  destruct ev as [msg |]; unfold Bob_drive in H.
  - destruct (Bob.HandleProtocolMessage host O msg s w) as [[o s1] w1] eqn:Hrun.
    inversion H; subst; clear H.
    go_unfold_bob Hrun. go_paths Hrun.
    all: inversion Hrun; subst; clear Hrun.
    all: cbn; repeat split; try reflexivity; try assumption;
      intro Hx; first [reflexivity | assumption | congruence].
  - destruct (bob_ProtocolComplete_run O s w) as [o Hrun].
    rewrite Hrun in H. inversion H; subst; clear H.
    destruct (negb (Bob.success s) &&
              match Bob.nextExpectedMessage s with NotifyReady => true | _ => false end);
      [destruct (on_claimFunds O w) |];
      cbn; repeat split; try reflexivity; intro Hx; first [reflexivity | assumption].
Qed.

End Invariants.

Section WatchdogTimers.
Context {L : MoneroLib}.

Lemma wait_until_deadline :
  forall now deadline : Time,
    deadline - now <= maxDuration ->
    now + Z.max 0 (Time_Sub deadline now) = Z.max now deadline.
Proof.
  intros now deadline H. unfold Time_Sub, minDuration, maxDuration in *.
  change (2 ^ 63) with 9223372036854775808 in *. lia.
Qed.

Lemma Int64_in_range : forall x : Z, - 2 ^ 63 <= x < 2 ^ 63 -> Int64 x = x.
Proof.
  intros x H. unfold Int64.
  change (2 ^ 63) with 9223372036854775808 in *.
  change (2 ^ 64) with 18446744073709551616.
  rewrite Z.mod_small by lia. lia.
Qed.

(** X12: whatever acts on Bob's session, a message, the closure of the
    stream or the goroutine started by the [NotifyContractDeployed]
    case, a claim is submitted in three places only, and never before
    the step begins: by the handler for a [NotifyReady] that the gate
    awaits while [readyCh] is open, at the current time and as its only
    call; by [ProtocolComplete] when the session has not succeeded and
    awaits [NotifyReady], at the current time; and by the goroutine when
    its timer fires, not before t0 (provided t0 is no further away than
    a [Duration] can hold). *)
Theorem bob_claim_sites :
  forall (host : Host) (O : Oracle) (ev : BobEvent) (s s' : Bob.swapState)
         (w w' : World) (evs : list Call) (t : Time) (res : result string),
    Bob_step O host ev s w = (s', w') ->
    calls w' = calls w ++ evs ->
    In (Claim t res) evs ->
    clock w <= t /\
    ((ev = BobNet (Deliver NotifyReady) /\
      Type_ (Bob.nextExpectedMessage s) = NotifyReadyType /\
      Bob.readyCh s = false /\ Bob.readyCh s' = true /\
      t = clock w /\
      evs = [Claim t res]) \/
     (ev = BobNet StreamClosed /\
      Bob.success s = false /\
      Bob.nextExpectedMessage s = NotifyReady /\
      t = clock w /\
      evs = [Claim t res; Cancel; ClearSwapState]) \/
     (ev = BobWatchdog TimerFired /\
      (Bob.t0 s - clock w <= maxDuration -> Bob.t0 s <= t) /\
      evs = [Claim t res])).
Proof.
  intros host O ev s s' w w' evs t res H Hc Hin.
  destruct ev as [[msg |] | fired]; unfold Bob_step, Bob_drive in H.
  - destruct (Bob.HandleProtocolMessage host O msg s w) as [[o s1] w1] eqn:Hrun.
    inversion H; subst; clear H.
    go_unfold_bob Hrun. go_paths Hrun.
    all: finish_path Hrun Hc.
    all: try solve [in_list Hin].
    all: in_list Hin; inversion Hin; subst.
    all: split; [lia |]; left.
    all: repeat split; try reflexivity; try assumption.
    all: match goal with
         | E : Bob.nextExpectedMessage _ = _ |- _ => rewrite E; reflexivity
         end.
  - destruct (bob_ProtocolComplete_run O s w) as [o Hrun].
    rewrite Hrun in H. inversion H; subst; clear H.
    destruct (Bob.success s) eqn:Hs; cbn in Hc.
    + rewrite <- app_assoc in Hc. apply app_same_head in Hc. subst evs. in_list Hin.
    + destruct (Bob.nextExpectedMessage s) eqn:Hn; cbn in Hc;
        rewrite <- ?app_assoc in Hc; apply app_same_head in Hc; subst evs;
        in_list Hin.
      inversion Hin; subst.
      split; [lia |]. right; left. repeat split; reflexivity.
  - pose proof (wait_until_deadline (clock w) (Bob.t0 s)) as Hwait.
    unfold Bob_claimAtT0, Bob.claimFunds, bind, get, time_Until, time_After,
      try_, return_, ret in H.
    destruct fired; cbn in H.
    1, 3: inversion H; subst; clear H; apply app_self_nil in Hc; subst evs; in_list Hin.
    match type of H with
    | context [on_claimFunds O ?w1] => destruct (on_claimFunds O w1) eqn:Hr
    end; cbn in H; rewrite ?Hr in H; inversion H; subst; clear H;
      cbn in Hc; apply app_same_head in Hc; subst evs;
      in_list Hin; inversion Hin; subst;
      (split; [lia |]); right; right;
      (split; [reflexivity |]); (split; [| reflexivity]);
      intro Hd; cbn in Hwait; rewrite (Hwait Hd); lia.
Qed.

(** X20: whatever acts on Alice's session, a message, the closure of the
    stream or one of her two goroutines, a refund is submitted in three
    places only: by [ProtocolComplete] when the session has not succeeded
    and awaits [NotifyXMRLock] or [NotifyClaimed], at the current time;
    by the goroutine of the [SendKeys] handler when its timer fires, not
    before five minutes before t0; and by the goroutine of the
    [NotifyXMRLock] case when its timer fires, not before t1 (each
    bound provided the distance fits a [Duration]).  The statements of
    the handler itself submit no refund. *)
Theorem alice_refund_sites :
  forall (host : Host) (O : Oracle) (ev : AliceEvent) (s s' : Alice.swapState)
         (w w' : World) (evs : list Call) (t : Time) (res : result string),
    Alice_step O host ev s w = (s', w') ->
    calls w' = calls w ++ evs ->
    In (Refund t res) evs ->
    clock w <= t /\
    ((ev = AliceNet StreamClosed /\
      Alice.success s = false /\
      (Type_ (Alice.nextExpectedMessage s) = NotifyXMRLockType \/
       Type_ (Alice.nextExpectedMessage s) = NotifyClaimedType) /\
      t = clock w /\
      evs = [Refund t res; Cancel; ClearSwapState]) \/
     (ev = AliceWatchdogT0 TimerFired /\
      (minDuration + timeoutBuffer <= Alice.t0 s - clock w <= maxDuration ->
       Alice.t0 s - timeoutBuffer <= t) /\
      evs = [Refund t res]) \/
     (ev = AliceWatchdogT1 TimerFired /\
      (Alice.t1 s - clock w <= maxDuration -> Alice.t1 s <= t) /\
      evs = [Refund t res])).
Proof.
  intros host O ev s s' w w' evs t res H Hc Hin.
  destruct ev as [[msg |] | fired | fired]; unfold Alice_step, Alice_drive in H.
  - destruct (Alice.HandleProtocolMessage host O msg s w) as [[o s1] w1] eqn:Hrun.
    inversion H; subst; clear H.
    go_unfold_alice Hrun. go_paths Hrun.
    all: finish_path Hrun Hc.
    all: in_list Hin.
  - destruct (alice_ProtocolComplete_run O s w) as [o Hrun].
    rewrite Hrun in H. inversion H; subst; clear H.
    destruct (Alice.success s) eqn:Hs; cbn in Hc.
    + rewrite <- app_assoc in Hc. apply app_same_head in Hc. subst evs. in_list Hin.
    + destruct (Alice.nextExpectedMessage s) eqn:Hn; cbn in Hc;
        rewrite <- ?app_assoc in Hc; apply app_same_head in Hc; subst evs;
        in_list Hin; inversion Hin; subst;
        (split; [lia |]); left; repeat split; try reflexivity;
        first [left; reflexivity | right; reflexivity].
  - unfold Alice_refundBeforeT0, Alice.refund, bind, get, time_Until, time_After,
      try_, return_, ret in H.
    destruct fired; cbn -[timeoutBuffer] in H.
    1, 3: inversion H; subst; clear H; apply app_self_nil in Hc; subst evs; in_list Hin.
    match type of H with
    | context [on_refund O ?w1] => destruct (on_refund O w1) eqn:Hr
    end; cbn -[timeoutBuffer] in H; rewrite ?Hr in H; inversion H; subst; clear H;
      cbn -[timeoutBuffer] in Hc; apply app_same_head in Hc; subst evs;
      in_list Hin; inversion Hin; subst;
      (split; [lia |]); right; left;
      (split; [reflexivity |]); (split; [| reflexivity]);
      intro Hd;
      unfold Time_Sub, minDuration, maxDuration, timeoutBuffer, Minute in *;
      change (2 ^ 63) with 9223372036854775808 in *;
      rewrite Int64_in_range by (change (2 ^ 63) with 9223372036854775808; lia); lia.
  - pose proof (wait_until_deadline (clock w) (Alice.t1 s)) as Hwait.
    unfold Alice_refundAfterT1, Alice.refund, bind, get, time_Until, time_After,
      try_, return_, ret in H.
    destruct fired; cbn in H.
    1, 3: inversion H; subst; clear H; apply app_self_nil in Hc; subst evs; in_list Hin.
    match type of H with
    | context [on_refund O ?w1] => destruct (on_refund O w1) eqn:Hr
    end; cbn in H; rewrite ?Hr in H; inversion H; subst; clear H;
      cbn in Hc; apply app_same_head in Hc; subst evs;
      in_list Hin; inversion Hin; subst;
      (split; [lia |]); right; right;
      (split; [reflexivity |]); (split; [| reflexivity]);
      intro Hd; cbn in Hwait; rewrite (Hwait Hd); lia.
Qed.

(** X21: Alice's watchdog started after [setReady] refunds only when its
    timer fires, and then not before t1: at t1, or at once when t1 has
    passed (provided t1 is no further away than a [Duration] can hold).
    It then hands [NotifyRefund] with the hash of the refund to the
    network, or nothing when the refund failed.  When the context is
    cancelled or the claim is signalled first, it does nothing.  It never
    changes the session. *)
Theorem alice_refundAfterT1_not_before_t1 :
  forall (O : Oracle) (fired : Fired) (s s' : Alice.swapState) (w w' : World)
         (o : outcome (option Message) (option Message)) (evs : list Call),
    Alice_refundAfterT1 O fired s w = (o, s', w') ->
    calls w' = calls w ++ evs ->
    Alice.t1 s - clock w <= maxDuration ->
    s' = s /\
    (fired <> TimerFired -> evs = [] /\ o = Return None /\ w' = w) /\
    (fired = TimerFired ->
     exists res,
       evs = [Refund (Z.max (clock w) (Alice.t1 s)) res] /\
       Alice.t1 s <= clock w' /\
       o = Return match res with
                  | Ok txhash => Some (NotifyRefund txhash)
                  | Err _ => None
                  end).
Proof.
  intros O fired s s' w w' o evs H Hc Hd.
  pose proof (wait_until_deadline (clock w) (Alice.t1 s) Hd) as Hwait.
  unfold Alice_refundAfterT1, Alice.refund, bind, get, time_Until, time_After,
    try_, return_, ret in H.
  destruct fired; cbn in H.
  1, 3: inversion H; subst; clear H; apply app_self_nil in Hc; subst evs;
        repeat split; try reflexivity; intro Hx; congruence.
  rewrite Hwait in H.
  match type of H with
  | context [on_refund O ?w1] => destruct (on_refund O w1) eqn:Hr
  end; cbn in H; rewrite ?Hr in H; inversion H; subst; clear H;
    cbn in Hc; apply app_same_head in Hc; subst evs;
    (split; [reflexivity |]; split; [intro Hx; congruence |]; intros _;
     eexists; split; [reflexivity |]; split; [cbn; lia | reflexivity]).
Qed.

(** X22: Alice's watchdog started after the deployment refunds only when
    its timer fires, and then not before five minutes before t0
    (provided the distance to t0 fits a [Duration] with the five minutes
    subtracted), and at once when that moment has passed.  It then hands
    [NotifyRefund] with the hash of the refund to the network, or
    nothing when the refund failed.  When the context is cancelled or
    the lock is signalled first, it does nothing.  It never changes the
    session. *)
Theorem alice_refundBeforeT0_not_before_buffer :
  forall (O : Oracle) (fired : Fired) (s s' : Alice.swapState) (w w' : World)
         (o : outcome (option Message) (option Message)) (evs : list Call),
    Alice_refundBeforeT0 O fired s w = (o, s', w') ->
    calls w' = calls w ++ evs ->
    minDuration + timeoutBuffer <= Alice.t0 s - clock w <= maxDuration ->
    s' = s /\
    (fired <> TimerFired -> evs = [] /\ o = Return None /\ w' = w) /\
    (fired = TimerFired ->
     exists t res,
       evs = [Refund t res] /\
       clock w <= t /\
       Alice.t0 s - timeoutBuffer <= t /\
       (Alice.t0 s - timeoutBuffer <= clock w -> t = clock w) /\
       t <= clock w' /\
       o = Return match res with
                  | Ok txhash => Some (NotifyRefund txhash)
                  | Err _ => None
                  end).
Proof.
  intros O fired s s' w w' o evs H Hc Hd.
  assert (Hwait : clock w + Z.max 0 (Int64 (Time_Sub (Alice.t0 s) (clock w) - timeoutBuffer))
                  = Z.max (clock w) (Alice.t0 s - timeoutBuffer)).
  { unfold Time_Sub, minDuration, maxDuration, timeoutBuffer, Minute in *.
    change (2 ^ 63) with 9223372036854775808 in *.
    rewrite Int64_in_range by (change (2 ^ 63) with 9223372036854775808; lia). lia. }
  unfold Alice_refundBeforeT0, Alice.refund, bind, get, time_Until, time_After,
    try_, return_, ret in H.
  destruct fired; cbn -[timeoutBuffer] in H.
  1, 3: inversion H; subst; clear H; apply app_self_nil in Hc; subst evs;
        repeat split; try reflexivity; intro Hx; congruence.
  rewrite Hwait in H.
  match type of H with
  | context [on_refund O ?w1] => destruct (on_refund O w1) eqn:Hr
  end; cbn -[timeoutBuffer] in H; rewrite ?Hr in H; inversion H; subst; clear H;
    cbn -[timeoutBuffer] in Hc; apply app_same_head in Hc; subst evs;
    (split; [reflexivity |]; split; [intro Hx; congruence |]; intros _;
     do 2 eexists; split; [reflexivity |];
     cbn -[timeoutBuffer]; repeat split; try reflexivity; lia).
Qed.

(** X23: Bob's watchdog claims only when its timer fires, and then not
    before t0: at t0, or at once when t0 has passed (provided t0 is no
    further away than a [Duration] can hold).  It then hands
    [NotifyClaimed] with the hash of the claim to the network, or
    nothing when the claim failed.  When the context is cancelled or
    [NotifyReady] is signalled first, it does nothing. *)
Theorem bob_claimAtT0_not_before_t0 :
  forall (O : Oracle) (fired : Fired) (s s' : Bob.swapState) (w w' : World)
         (o : outcome (option Message) (option Message)) (evs : list Call),
    Bob_claimAtT0 O fired s w = (o, s', w') ->
    calls w' = calls w ++ evs ->
    Bob.t0 s - clock w <= maxDuration ->
    (fired <> TimerFired -> evs = [] /\ o = Return None /\ s' = s /\ w' = w) /\
    (fired = TimerFired ->
     exists res,
       evs = [Claim (Z.max (clock w) (Bob.t0 s)) res] /\
       Bob.t0 s <= clock w' /\
       o = Return match res with
                  | Ok txHash => Some (NotifyClaimed txHash)
                  | Err _ => None
                  end).
Proof.
  intros O fired s s' w w' o evs H Hc Hd.
  pose proof (wait_until_deadline (clock w) (Bob.t0 s) Hd) as Hwait.
  unfold Bob_claimAtT0, Bob.claimFunds, bind, get, time_Until, time_After,
    try_, return_, ret in H.
  destruct fired; cbn in H.
  1, 3: inversion H; subst; clear H; apply app_self_nil in Hc; subst evs;
        repeat split; try reflexivity; intro Hx; congruence.
  rewrite Hwait in H.
  match type of H with
  | context [on_claimFunds O ?w1] => destruct (on_claimFunds O w1) eqn:Hr
  end; cbn in H; rewrite ?Hr in H; inversion H; subst; clear H;
    cbn in Hc; apply app_same_head in Hc; subst evs;
    (split; [intro Hx; congruence |]; intros _;
     eexists; split; [reflexivity |]; split; [cbn; lia | reflexivity]).
Qed.

End WatchdogTimers.

Lemma nextExpectedMessage_moves_forward_witness :
  Bob.nextExpectedMessage (Toy.state_of ToyRuns.bob_sendkeys_run) =
    NotifyContractDeployed "".
Proof.
  assert (Hrun : SwapState_HandleProtocolMessage Toy.host Toy.happy (SendKeys Toy.peerKeys)
                   (BobSwap Toy.bob_keyed) (Toy.world0 0) =
                 (fst (fst ToyRuns.bob_sendkeys_run),
                  BobSwap (Toy.state_of ToyRuns.bob_sendkeys_run),
                  Toy.world_of ToyRuns.bob_sendkeys_run))
    by (vm_compute; reflexivity).
  destruct (@nextExpectedMessage_moves_forward Toy.lib _ _ _ _ _ _ _ _ Hrun)
    as [Hsame | (_ & [[_ Hn] | [Hk _]])].
  - reflexivity.
  - exact Hn.
  - discriminate Hk.
Defined.

Lemma alice_session_monotone_witness :
  Alice.id (Toy.state_of ToyRuns.alice_sendkeys_run) = Alice.id Toy.alice_keyed /\
  Alice.privkeys (Toy.state_of ToyRuns.alice_sendkeys_run) = Alice.privkeys Toy.alice_keyed.
Proof.
  assert (Hrun : Alice_drive Toy.happy Toy.host (Deliver (SendKeys Toy.peerKeys))
                   Toy.alice_keyed (Toy.world0 0) =
                 (Toy.state_of ToyRuns.alice_sendkeys_run,
                  Toy.world_of ToyRuns.alice_sendkeys_run))
    by (vm_compute; reflexivity).
  destruct (@alice_session_monotone Toy.lib _ _ _ _ _ _ _ Hrun) as (Hid & _ & _ & Hk & _).
  split; assumption.
Defined.

Lemma bob_session_monotone_witness :
  exists s' w',
    Bob_drive Toy.host Toy.happy StreamClosed Toy.bob_locked (Toy.world0 0) = (s', w') /\
    Bob.id s' = Bob.id Toy.bob_locked /\
    Bob.privkeys s' = Bob.privkeys Toy.bob_locked.
Proof.
  destruct (Bob_drive Toy.host Toy.happy StreamClosed Toy.bob_locked (Toy.world0 0))
    as [s' w'] eqn:Hrun.
  exists s', w'. split; [reflexivity |].
  destruct (@bob_session_monotone Toy.lib _ _ _ _ _ _ _ Hrun) as (Hid & _ & _ & Hk & _).
  split; assumption.
Defined.

(** Bob handles the awaited [NotifyReady] at 50 s: the claim is the
    handler's only call. *)
Lemma bob_claim_sites_witness :
  calls (Toy.world_of Toy.bob_claimed_run) =
    [Claim (L := Toy.lib) (50 * Toy.second) (Ok "0xclaim")] /\
  Bob.readyCh (Toy.state_of Toy.bob_claimed_run) = true.
Proof.
  assert (Hrun : Bob_step Toy.happy Toy.host (BobNet (Deliver NotifyReady)) Toy.bob_locked
                   (Toy.world0 (50 * Toy.second)) =
                 (Toy.state_of Toy.bob_claimed_run, Toy.world_of Toy.bob_claimed_run))
    by (vm_compute; reflexivity).
  assert (Hin : In (Claim (L := Toy.lib) (50 * Toy.second) (Ok "0xclaim"))
                   (calls (Toy.world_of Toy.bob_claimed_run)))
    by (cbn; tauto).
  destruct (@bob_claim_sites Toy.lib _ _ _ _ _ _ _
              (calls (Toy.world_of Toy.bob_claimed_run)) _ _ Hrun eq_refl Hin)
    as (_ & [(_ & _ & _ & Hch & _ & Hev) | [(Hev & _) | (Hev & _)]]);
    [split; assumption | discriminate Hev | discriminate Hev].
Defined.

(** Alice's stream closes at 150 s while she awaits [NotifyClaimed]: the
    refund is submitted at 150 s. *)
Lemma alice_refund_sites_witness :
  exists s' w' res,
    Alice_step Toy.happy Toy.host (AliceNet StreamClosed)
      (Toy.state_of Toy.alice_ready_run) (Toy.world0 (150 * Toy.second)) = (s', w') /\
    calls w' = [Refund (150 * Toy.second) res; Cancel; ClearSwapState].
Proof.
  destruct (Alice_step Toy.happy Toy.host (AliceNet StreamClosed)
              (Toy.state_of Toy.alice_ready_run) (Toy.world0 (150 * Toy.second)))
    as [s' w'] eqn:Hrun.
  assert (Hin : In (Refund (L := Toy.lib) (150 * Toy.second) (Ok "0xrefund")) (calls w')).
  { vm_compute in Hrun. inversion Hrun; subst. cbn. tauto. }
  destruct (@alice_refund_sites Toy.lib _ _ _ _ _ _ _ (calls w') _ _ Hrun eq_refl Hin)
    as (_ & [(_ & _ & _ & _ & Hev) | [(Hev & _) | (Hev & _)]]);
    [| discriminate Hev | discriminate Hev].
  exists s', w', (Ok "0xrefund"). split; [reflexivity | exact Hev].
Defined.

(** The watchdog started at 50 s, with t1 = 200 s, refunds at 200 s. *)
Lemma alice_refundAfterT1_not_before_t1_witness :
  exists o s' w' res,
    Alice_refundAfterT1 Toy.happy TimerFired (Toy.state_of Toy.alice_ready_run)
      (Toy.world0 (50 * Toy.second)) = (o, s', w') /\
    calls w' = [Refund (200 * Toy.second) res].
Proof.
  destruct (Alice_refundAfterT1 Toy.happy TimerFired (Toy.state_of Toy.alice_ready_run)
              (Toy.world0 (50 * Toy.second))) as [[o s'] w'] eqn:Hrun.
  destruct (@alice_refundAfterT1_not_before_t1 Toy.lib _ _ _ _ _ _ _ (calls w')
              Hrun eq_refl) as (_ & _ & Hfire).
  - vm_compute. discriminate.
  - destruct (Hfire eq_refl) as (res & Hev & _).
    exists o, s', w', res. split; [reflexivity | exact Hev].
Defined.

(** The watchdog started at 0 s, with t0 = 1000 s, refunds at 700 s. *)
Lemma alice_refundBeforeT0_not_before_buffer_witness :
  exists o s' w' t res,
    Alice_refundBeforeT0 Toy.happy TimerFired
      (Alice.set_t0 (1000 * Toy.second) Toy.alice_deployed) (Toy.world0 0) = (o, s', w') /\
    calls w' = [Refund t res] /\
    700 * Toy.second <= t.
Proof.
  destruct (Alice_refundBeforeT0 Toy.happy TimerFired
              (Alice.set_t0 (1000 * Toy.second) Toy.alice_deployed) (Toy.world0 0))
    as [[o s'] w'] eqn:Hrun.
  destruct (@alice_refundBeforeT0_not_before_buffer Toy.lib _ _ _ _ _ _ _ (calls w')
              Hrun eq_refl) as (_ & _ & Hfire).
  - vm_compute. split; discriminate.
  - destruct (Hfire eq_refl) as (t & res & Hev & _ & Hlow & _).
    exists o, s', w', t, res. split; [reflexivity |]. split; [exact Hev |].
    vm_compute in Hlow. vm_compute. exact Hlow.
Defined.

(** The watchdog started at 50 s, with t0 = 100 s, claims at 100 s. *)
Lemma bob_claimAtT0_not_before_t0_witness :
  exists o s' w' res,
    Bob_claimAtT0 Toy.happy TimerFired Toy.bob_locked (Toy.world0 (50 * Toy.second)) =
      (o, s', w') /\
    calls w' = [Claim (100 * Toy.second) res].
Proof.
  destruct (Bob_claimAtT0 Toy.happy TimerFired Toy.bob_locked
              (Toy.world0 (50 * Toy.second))) as [[o s'] w'] eqn:Hrun.
  destruct (@bob_claimAtT0_not_before_t0 Toy.lib _ _ _ _ _ _ _ (calls w')
              Hrun eq_refl) as (_ & Hfire).
  - vm_compute. discriminate.
  - destruct (Hfire eq_refl) as (res & Hev & _).
    exists o, s', w', res. split; [reflexivity | exact Hev].
Defined.
